(** * GitHub repository fetcher

    A shallow embedding of [githubRepoFetcher.py] (class [GitHubRepoFetcher])
    and the properties of its search, selection, paginated listing, language
    fetch, display, export and session loop.

    Conventions of the embedding.
    - A Python [str] is the list of its code points ([str := list N]); source
      literals are written as Rocq strings and decoded from UTF-8 by [u].
    - A value obtained from [response.json()] is a [pyval]; JSON numbers are
      integers here (the API's counts), floats are outside the model.
    - A Python [dict] is an association list in insertion order.
    - Effects go through the monad [M] over a [world]: terminal input and
      output, the requests sent, the pauses taken and the files written.
    - An f-string is kept as the list of its pieces ([Lit] text, [Fmt] a value
      shown through [str()]), so nothing is said about [repr] of containers or
      about the text of library exceptions.
    - A loop that may not end ([while True] over the pages of a listing) takes
      a bound on its turns and answers [OutOfFuel] past it; the two prompt
      loops read a line per turn and are bounded by the lines left to read.
    - [main] only builds the fetcher from a token and calls [run]: the token
      is a parameter here.
    - What [response.json()] does is part of the answer of the server: it
      returns a value, raises the [JSONDecodeError] of [requests] (a
      RequestException), or raises what the decoder raised and [requests]
      does not wrap ([Undecodable]).
    - [int()] reads the decimal digits of every script, by the table of
      Unicode 14.0.
    - Outside the model: the case mapping of letters outside ASCII, the
      interpreter's recursion limit in the program's own calls and in
      [json.dump], and signals. *)

From Stdlib Require Import String Ascii List ZArith NArith Bool Lia.
From Stdlib Require DecimalFacts DecimalPos.
Import ListNotations.

#[local] Set Warnings "-register-all".

(** ** Text *)

Definition str := list N.

(** UTF-8 decoding of a source literal (one to four bytes per code point). *)
Fixpoint utf8_decode (bs : list N) : str :=
  match bs with
  | [] => []
  | b0 :: t0 =>
    if (b0 <? 0x80)%N then b0 :: utf8_decode t0
    else if (b0 <? 0xE0)%N then
      match t0 with
      | b1 :: t1 => ((b0 mod 0x20) * 0x40 + b1 mod 0x40)%N :: utf8_decode t1
      | _ => b0 :: utf8_decode t0
      end
    else if (b0 <? 0xF0)%N then
      match t0 with
      | b1 :: b2 :: t2 =>
        ((b0 mod 0x10) * 0x1000 + (b1 mod 0x40) * 0x40 + b2 mod 0x40)%N
          :: utf8_decode t2
      | _ => b0 :: utf8_decode t0
      end
    else
      match t0 with
      | b1 :: b2 :: b3 :: t3 =>
        ((b0 mod 0x08) * 0x40000 + (b1 mod 0x40) * 0x1000
         + (b2 mod 0x40) * 0x40 + b3 mod 0x40)%N :: utf8_decode t3
      | _ => b0 :: utf8_decode t0
      end
  end.

Definition u (s : string) : str :=
  utf8_decode (map N_of_ascii (list_ascii_of_string s)).

Fixpoint str_eqb (a b : str) : bool :=
  match a, b with
  | [], [] => true
  | x :: a', y :: b' => (x =? y)%N && str_eqb a' b'
  | _, _ => false
  end.

(** [str.isspace] on one code point: the characters [str.strip()] removes. *)
Definition is_space (c : N) : bool :=
  ((0x09 <=? c) && (c <=? 0x0D) || (0x1C <=? c) && (c <=? 0x20)
   || (c =? 0x85) || (c =? 0xA0) || (c =? 0x1680)
   || (0x2000 <=? c) && (c <=? 0x200A)
   || (c =? 0x2028) || (c =? 0x2029) || (c =? 0x202F)
   || (c =? 0x205F) || (c =? 0x3000))%N.

Fixpoint lstrip (s : str) : str :=
  match s with
  | c :: s' => if is_space c then lstrip s' else s
  | [] => []
  end.

(** [s.strip()] *)
Definition py_strip (s : str) : str := rev (lstrip (rev (lstrip s))).

(** [s.lower()], on the ASCII letters.  No code point outside ASCII lowers to
    one of the letters the program compares against (q, y, e, s). *)
Definition lower_char (c : N) : N :=
  if ((0x41 <=? c) && (c <=? 0x5A))%N then (c + 0x20)%N else c.

Definition py_lower (s : str) : str := map lower_char s.

(** [sep.join(parts)] *)
Fixpoint py_join (sep : str) (parts : list str) : str :=
  match parts with
  | [] => []
  | [p] => p
  | p :: rest => p ++ sep ++ py_join sep rest
  end.

(** ** [int(s)]

    What [int] strips (the ASCII blanks and the whitespace outside ASCII, but
    not the separators U+001C to U+001F that [str.strip] also removes), an
    optional ASCII sign, then decimal digits where single underscores may
    separate digits.  A digit is a code point with the Unicode property
    Decimal, of any script, standing for its value; the table is the one of
    Unicode 14.0 (CPython 3.11): 66 runs of ten code points, listed by their
    zero.  [max_digits] is [sys.get_int_max_str_digits()]: past it [int]
    raises [ValueError]; 0 switches the limit off. *)

Definition digit_zeros : list N :=
  [0x30; 0x660; 0x6F0; 0x7C0; 0x966; 0x9E6; 0xA66; 0xAE6; 0xB66; 0xBE6;
   0xC66; 0xCE6; 0xD66; 0xDE6; 0xE50; 0xED0; 0xF20; 0x1040; 0x1090; 0x17E0;
   0x1810; 0x1946; 0x19D0; 0x1A80; 0x1A90; 0x1B50; 0x1BB0; 0x1C40; 0x1C50;
   0xA620; 0xA8D0; 0xA900; 0xA9D0; 0xA9F0; 0xAA50; 0xABF0; 0xFF10; 0x104A0;
   0x10D30; 0x11066; 0x110F0; 0x11136; 0x111D0; 0x112F0; 0x11450; 0x114D0;
   0x11650; 0x116C0; 0x11730; 0x118E0; 0x11950; 0x11C50; 0x11D50; 0x11DA0;
   0x16A60; 0x16AC0; 0x16B50; 0x1D7CE; 0x1D7D8; 0x1D7E2; 0x1D7EC; 0x1D7F6;
   0x1E140; 0x1E2F0; 0x1E950; 0x1FBF0]%N.

Definition decimal_digit (c : N) : option N :=
  match find (fun z => (z <=? c) && (c <? z + 10))%N digit_zeros with
  | Some z => Some (c - z)%N
  | None => None
  end.

Definition is_digit (c : N) : bool := ((0x30 <=? c) && (c <=? 0x39))%N.

Definition int_space (c : N) : bool :=
  is_space c && negb ((0x1C <=? c) && (c <=? 0x1F))%N.

Fixpoint int_lstrip (s : str) : str :=
  match s with
  | c :: s' => if int_space c then int_lstrip s' else s
  | [] => []
  end.

Definition int_strip (s : str) : str := rev (int_lstrip (rev (int_lstrip s))).

(** Digits after the first one: [acc] is the value so far, [n] the number of
    digits read. *)
Fixpoint int_digits (s : str) (acc : Z) (n : nat) : option (Z * nat) :=
  match s with
  | [] => Some (acc, n)
  | c :: s' =>
    match decimal_digit c with
    | Some v => int_digits s' (10 * acc + Z.of_N v)%Z (S n)
    | None =>
      if (c =? 0x5F)%N then
        match s' with
        | d :: s'' =>
          match decimal_digit d with
          | Some v => int_digits s'' (10 * acc + Z.of_N v)%Z (S n)
          | None => None
          end
        | [] => None
        end
      else None
    end
  end.

Definition int_unsigned (max_digits : nat) (s : str) : option Z :=
  match s with
  | c :: s' =>
    match decimal_digit c with
    | Some v =>
      match int_digits s' (Z.of_N v) 1 with
      | Some (z, n) =>
        if (0 <? max_digits)%nat && (max_digits <? n)%nat then None else Some z
      | None => None
      end
    | None => None
    end
  | [] => None
  end.

Definition py_int (max_digits : nat) (s : str) : option Z :=
  match int_strip s with
  | c :: s' =>
    if (c =? 0x2D)%N then option_map Z.opp (int_unsigned max_digits s')
    else if (c =? 0x2B)%N then int_unsigned max_digits s'
    else int_unsigned max_digits (c :: s')
  | [] => None
  end.

(** ** Python values *)

Inductive pyval : Type :=
| PNone
| PBool (b : bool)
| PInt (z : Z)
| PStr (s : str)
| PList (l : list pyval)
| PDict (d : list (str * pyval)).

Inductive req_error : Type :=
| Transport            (* requests.get raised: connection, timeout, ... *)
| HTTPError (status : Z)   (* raise_for_status *)
| JSONDecodeError.     (* response.json() on a body that is not JSON;
                          a RequestException since requests 2.27 *)

Inductive exn : Type :=
| RequestException (why : req_error)
| KeyError
| TypeError
| AttributeError
| ValueError
| IndexError
| EOFError
| OSError
| UnicodeEncodeError
| RecursionError.

(** The outcome of a computation: a value, a raised exception, or the loop
    bound of the model reached. *)
Inductive result (A : Type) : Type :=
| Ok (a : A)
| Raise (e : exn)
| OutOfFuel.

Arguments Ok {A} a.
Arguments Raise {A} e.
Arguments OutOfFuel {A}.

Definition rbind {A B} (r : result A) (k : A -> result B) : result B :=
  match r with
  | Ok a => k a
  | Raise e => Raise e
  | OutOfFuel => OutOfFuel
  end.

(** [bool(v)] *)
Definition truthy (v : pyval) : bool :=
  match v with
  | PNone => false
  | PBool b => b
  | PInt z => negb (z =? 0)%Z
  | PStr s => match s with [] => false | _ => true end
  | PList l => match l with [] => false | _ => true end
  | PDict d => match d with [] => false | _ => true end
  end.

Fixpoint dict_lookup (d : list (str * pyval)) (k : str) : option pyval :=
  match d with
  | [] => None
  | (k', v) :: d' => if str_eqb k' k then Some v else dict_lookup d' k
  end.

(** [v.get(k, default)]; only a dict has [get]. *)
Definition py_get (v : pyval) (k : str) (default : pyval) : result pyval :=
  match v with
  | PDict d =>
    match dict_lookup d k with Some x => Ok x | None => Ok default end
  | _ => Raise AttributeError
  end.

(** [v[k]] with a string key. *)
Definition py_item (v : pyval) (k : str) : result pyval :=
  match v with
  | PDict d =>
    match dict_lookup d k with Some x => Ok x | None => Raise KeyError end
  | _ => Raise TypeError
  end.

(** [v[:n]]; slicing a dict raises (TypeError up to Python 3.11). *)
Definition py_prefix (v : pyval) (n : nat) : result pyval :=
  match v with
  | PStr s => Ok (PStr (firstn n s))
  | PList l => Ok (PList (firstn n l))
  | _ => Raise TypeError
  end.

(** The elements [for x in v] and [list.extend(v)] go through. *)
Definition py_iter (v : pyval) : result (list pyval) :=
  match v with
  | PList l => Ok l
  | PDict d => Ok (map (fun kv => PStr (fst kv)) d)
  | PStr s => Ok (map (fun c => PStr [c]) s)
  | _ => Raise TypeError
  end.

(** [len(v)] *)
Definition py_len (v : pyval) : result nat :=
  match v with
  | PList l => Ok (length l)
  | PDict d => Ok (length d)
  | PStr s => Ok (length s)
  | _ => Raise TypeError
  end.

(** [v[i]] with an integer index [0 <= i]; the program only indexes with
    [choice_num - 1] after checking [1 <= choice_num <= len(v)]. *)
Definition py_index (v : pyval) (i : nat) : result pyval :=
  match v with
  | PList l =>
    match nth_error l i with Some x => Ok x | None => Raise IndexError end
  | PStr s =>
    match nth_error s i with
    | Some c => Ok (PStr [c])
    | None => Raise IndexError
    end
  | PDict _ => Raise KeyError
  | _ => Raise TypeError
  end.

(** [list(v.keys())]; only a dict has [keys]. *)
Definition py_keys (v : pyval) : result (list str) :=
  match v with
  | PDict d => Ok (map fst d)
  | _ => Raise AttributeError
  end.

(** ** The world the program acts on *)

Inductive piece : Type :=
| Lit (s : str)        (* literal text of an f-string *)
| Fmt (v : pyval)      (* {v}: str(v) *)
| FmtExn (e : exn).    (* {e}: the text of a caught exception *)

Definition fstring := list piece.

Inductive out_item : Type :=
| Print (line : fstring)      (* print(...) *)
| Prompt (text : fstring).    (* the prompt shown by input(...) *)

Record request : Type := mkRequest {
  url : fstring;
  headers : list (str * str);
  params : list (str * pyval)
}.

(** What [requests.get] comes back with: nothing (it raised), or a response
    with its status, its links and what [response.json()] does on its body:
    [Response _ (Some v) _] returns [v], [Response _ None _] raises the
    [JSONDecodeError] of [requests] on a body that is not JSON, and
    [Undecodable _ e _] raises [e], an exception of the decoder that
    [requests] lets through as it is ([ValueError] on an integer literal
    longer than the digit limit, [RecursionError] on a body nested too
    deep). *)
Inductive response : Type :=
| NoResponse
| Response (status_code : Z) (json : option pyval) (links : list str)
| Undecodable (status_code : Z) (error : exn) (links : list str).

(** What [export_to_json] leaves at a path: the whole document, or the
    beginning of one when encoding stopped the write. *)
Inductive file : Type :=
| Complete (text : str)
| Partial.

Record world : Type := mkWorld {
  stdin : list str;                   (* lines still to be typed *)
  stdout : list out_item;             (* what the terminal has shown *)
  sent : list request;                (* requests issued, oldest first *)
  naps : nat;                         (* time.sleep(0.1) calls *)
  files : list (fstring * file)       (* files written: path, content *)
}.

Definition M (A : Type) : Type := world -> result A * world.

Definition ret {A} (a : A) : M A := fun w => (Ok a, w).

Definition bind {A B} (m : M A) (k : A -> M B) : M B :=
  fun w =>
    match m w with
    | (Ok a, w') => k a w'
    | (Raise e, w') => (Raise e, w')
    | (OutOfFuel, w') => (OutOfFuel, w')
    end.

Definition lift {A} (r : result A) : M A := fun w => (r, w).

Definition out_of_fuel {A} : M A := fun w => (OutOfFuel, w).

Notation "x <- m ;; k" := (bind m (fun x => k))
  (at level 100, m at next level, right associativity).
Notation "m ;;; k" := (bind m (fun _ => k))
  (at level 100, right associativity).

(** [try: body except <class> as e: handler e] *)
Definition try_except {A} (body : M A) (catches : exn -> bool)
  (handler : exn -> M A) : M A :=
  fun w =>
    match body w with
    | (Raise e, w') => if catches e then handler e w' else (Raise e, w')
    | other => other
    end.

Definition is_request_exception (e : exn) : bool :=
  match e with RequestException _ => true | _ => false end.

Definition print (line : fstring) : M unit :=
  fun w => (Ok tt, mkWorld (stdin w) (stdout w ++ [Print line]) (sent w)
                           (naps w) (files w)).

(** [input(prompt)]: shows the prompt and reads one line; [EOFError] when the
    terminal has no more input. *)
Definition input (prompt : fstring) : M str :=
  fun w =>
    let shown := stdout w ++ [Prompt prompt] in
    match stdin w with
    | line :: rest =>
      (Ok line, mkWorld rest shown (sent w) (naps w) (files w))
    | [] => (Raise EOFError, mkWorld [] shown (sent w) (naps w) (files w))
    end.

(** [time.sleep(0.1)] *)
Definition sleep : M unit :=
  fun w => (Ok tt, mkWorld (stdin w) (stdout w) (sent w) (S (naps w))
                           (files w)).

(** Literal text of the source. *)
Definition T (s : string) : piece := Lit (u s).

(** A literal that starts with a newline, ["\n..."]. *)
Definition NT (s : string) : piece := Lit (0x0A%N :: u s).

(** ["c" * n] *)
Definition py_repeat (c : string) (n : nat) : piece :=
  Lit (concat (repeat (u c) n)).

(** ** [json.dumps(v, indent=2, ensure_ascii=False)] *)

Fixpoint uint_chars (d : Decimal.uint) : str :=
  match d with
  | Decimal.Nil => []
  | Decimal.D0 d' => 0x30%N :: uint_chars d'
  | Decimal.D1 d' => 0x31%N :: uint_chars d'
  | Decimal.D2 d' => 0x32%N :: uint_chars d'
  | Decimal.D3 d' => 0x33%N :: uint_chars d'
  | Decimal.D4 d' => 0x34%N :: uint_chars d'
  | Decimal.D5 d' => 0x35%N :: uint_chars d'
  | Decimal.D6 d' => 0x36%N :: uint_chars d'
  | Decimal.D7 d' => 0x37%N :: uint_chars d'
  | Decimal.D8 d' => 0x38%N :: uint_chars d'
  | Decimal.D9 d' => 0x39%N :: uint_chars d'
  end.

Definition json_int (z : Z) : str :=
  match Z.to_int z with
  | Decimal.Pos d => uint_chars d
  | Decimal.Neg d => 0x2D%N :: uint_chars d
  end.

Definition hex_digit (n : N) : N :=
  if (n <? 10)%N then (0x30 + n)%N else (0x61 + (n - 10))%N.

(** The encoder's escape table: the quote, the backslash and the control
    characters below U+0020; everything else is written as it is. *)
Definition json_escape (c : N) : str :=
  if (c =? 0x22)%N then [0x5C; 0x22]%N
  else if (c =? 0x5C)%N then [0x5C; 0x5C]%N
  else if (c =? 0x0A)%N then [0x5C; 0x6E]%N
  else if (c =? 0x0D)%N then [0x5C; 0x72]%N
  else if (c =? 0x09)%N then [0x5C; 0x74]%N
  else if (c =? 0x08)%N then [0x5C; 0x62]%N
  else if (c =? 0x0C)%N then [0x5C; 0x66]%N
  else if (c <? 0x20)%N
       then [0x5C; 0x75; 0x30; 0x30; hex_digit (c / 16); hex_digit (c mod 16)]%N
  else [c].

Definition json_string (s : str) : str :=
  0x22%N :: flat_map json_escape s ++ [0x22%N].

Definition newline_indent (level : nat) : str :=
  0x0A%N :: repeat 0x20%N (2 * level).

Fixpoint json_encode (level : nat) (v : pyval) : str :=
  match v with
  | PNone => u "null"
  | PBool true => u "true"
  | PBool false => u "false"
  | PInt z => json_int z
  | PStr s => json_string s
  | PList [] => u "[]"
  | PList (x :: xs) =>
    0x5B%N :: newline_indent (S level) ++ json_encode (S level) x
    ++ (fix items (l : list pyval) : str :=
          match l with
          | [] => []
          | y :: l' =>
            0x2C%N :: newline_indent (S level) ++ json_encode (S level) y
            ++ items l'
          end) xs
    ++ newline_indent level ++ [0x5D%N]
  | PDict [] => u "{}"
  | PDict ((k, x) :: kxs) =>
    0x7B%N :: newline_indent (S level) ++ json_string k ++ u ": "
    ++ json_encode (S level) x
    ++ (fix items (l : list (str * pyval)) : str :=
          match l with
          | [] => []
          | (k', y) :: l' =>
            0x2C%N :: newline_indent (S level) ++ json_string k' ++ u ": "
            ++ json_encode (S level) y ++ items l'
          end) kxs
    ++ newline_indent level ++ [0x7D%N]
  end.

Definition json_dumps (v : pyval) : str := json_encode 0 v.

(** The elements of a list after the first, and the members of a dict after
    the first, as [json_encode] writes them. *)
Definition encode_items (level : nat) : list pyval -> str :=
  fix items (l : list pyval) : str :=
    match l with
    | [] => []
    | y :: l' =>
      0x2C%N :: newline_indent (S level) ++ json_encode (S level) y ++ items l'
    end.

Definition encode_members (level : nat) : list (str * pyval) -> str :=
  fix items (l : list (str * pyval)) : str :=
    match l with
    | [] => []
    | (k', y) :: l' =>
      0x2C%N :: newline_indent (S level) ++ json_string k' ++ u ": "
      ++ json_encode (S level) y ++ items l'
    end.

(** Text that [open(..., encoding='utf-8')] can write: no surrogate code
    point. *)
Definition utf8_encodable (s : str) : bool :=
  forallb (fun c => negb ((0xD800 <=? c) && (c <=? 0xDFFF))%N) s.

(** What stops [json.dump] on its way through a document, found in the order
    the encoder yields its pieces: an integer with more digits than
    [max_digits] allows ([ValueError]) or a string with a surrogate that UTF-8
    cannot encode ([UnicodeEncodeError]). *)
Definition digits_allowed (max_digits : nat) (n : nat) : bool :=
  negb ((0 <? max_digits)%nat && (max_digits <? n)%nat).

Definition int_digits_count (z : Z) : nat := length (json_int (Z.abs z)).

Definition first_error (a b : option exn) : option exn :=
  match a with Some e => Some e | None => b end.

Fixpoint dump_error (max_digits : nat) (v : pyval) : option exn :=
  match v with
  | PInt z =>
    if digits_allowed max_digits (int_digits_count z) then None
    else Some ValueError
  | PStr s => if utf8_encodable s then None else Some UnicodeEncodeError
  | PList l =>
    (fix items (l : list pyval) : option exn :=
       match l with
       | [] => None
       | x :: l' => first_error (dump_error max_digits x) (items l')
       end) l
  | PDict d =>
    (fix items (l : list (str * pyval)) : option exn :=
       match l with
       | [] => None
       | (k, x) :: l' =>
         first_error (if utf8_encodable k then None else Some UnicodeEncodeError)
           (first_error (dump_error max_digits x) (items l'))
       end) d
  | _ => None
  end.

(** ** [json.loads(text)]

    The decoder of the standard library on the documents of this model:
    [None] when it raises (the text is not JSON, or an integer has more
    digits than [max_digits]) and when the text holds a number with a
    fraction or an exponent, NaN or Infinity, which are floats. *)

Definition json_space (c : N) : bool :=
  ((c =? 0x20) || (c =? 0x09) || (c =? 0x0A) || (c =? 0x0D))%N.

Fixpoint skip_ws (s : str) : str :=
  match s with
  | c :: s' => if json_space c then skip_ws s' else s
  | [] => []
  end.

Definition hex_value (c : N) : option N :=
  if ((0x30 <=? c) && (c <=? 0x39))%N then Some (c - 0x30)%N
  else if ((0x61 <=? c) && (c <=? 0x66))%N then Some (c - 0x61 + 10)%N
  else if ((0x41 <=? c) && (c <=? 0x46))%N then Some (c - 0x41 + 10)%N
  else None.

Definition hex4 (a b c d : N) : option N :=
  match hex_value a, hex_value b, hex_value c, hex_value d with
  | Some x, Some y, Some z, Some t =>
    Some (((x * 16 + y) * 16 + z) * 16 + t)%N
  | _, _, _, _ => None
  end.

(** The character a one-letter escape stands for. *)
Definition unescape (c : N) : option N :=
  if ((c =? 0x22) || (c =? 0x5C) || (c =? 0x2F))%N then Some c
  else if (c =? 0x62)%N then Some 0x08%N
  else if (c =? 0x66)%N then Some 0x0C%N
  else if (c =? 0x6E)%N then Some 0x0A%N
  else if (c =? 0x72)%N then Some 0x0D%N
  else if (c =? 0x74)%N then Some 0x09%N
  else None.

Definition push (c : N) (r : option (str * str)) : option (str * str) :=
  match r with Some (t, rest) => Some (c :: t, rest) | None => None end.

(** The string that starts after an opening quote, and the text after its
    closing quote.  A high surrogate escape followed by a low surrogate
    escape is one code point. *)
Fixpoint scan_string (s : str) : option (str * str) :=
  match s with
  | [] => None
  | c :: rest =>
    if (c =? 0x22)%N then Some ([], rest)
    else if (c =? 0x5C)%N then
      match rest with
      | e :: rest1 =>
        if (e =? 0x75)%N then
          match rest1 with
          | h1 :: h2 :: h3 :: h4 :: rest2 =>
            match hex4 h1 h2 h3 h4 with
            | Some hi =>
              if ((0xD800 <=? hi) && (hi <=? 0xDBFF))%N then
                match rest2 with
                | b :: e' :: g1 :: g2 :: g3 :: g4 :: ((_ :: _) as rest3) =>
                  if ((b =? 0x5C) && (e' =? 0x75))%N then
                    match hex4 g1 g2 g3 g4 with
                    | Some lo =>
                      if ((0xDC00 <=? lo) && (lo <=? 0xDFFF))%N
                      then push (0x10000 + (hi - 0xD800) * 0x400
                                 + (lo - 0xDC00))%N
                                (scan_string rest3)
                      else push hi (scan_string rest2)
                    | None => None
                    end
                  else push hi (scan_string rest2)
                | _ => push hi (scan_string rest2)
                end
              else push hi (scan_string rest2)
            | None => None
            end
          | _ => None
          end
        else
          match unescape e with
          | Some c' => push c' (scan_string rest1)
          | None => None
          end
      | [] => None
      end
    else if (c <? 0x20)%N then None
    else push c (scan_string rest)
  end.

(** The digits at the head of [s]: their value continued from [acc], their
    number continued from [n], and the text after them. *)
Fixpoint scan_digits (s : str) (acc : Z) (n : nat) : Z * nat * str :=
  match s with
  | c :: s' =>
    if is_digit c
    then scan_digits s' (10 * acc + Z.of_N (c - 0x30))%Z (S n)
    else (acc, n, s)
  | [] => (acc, n, [])
  end.

(** A fraction or an exponent after the integer part makes the number a
    float. *)
Definition float_follows (s : str) : bool :=
  match s with
  | c :: d :: rest =>
    if (c =? 0x2E)%N then is_digit d
    else if ((c =? 0x65) || (c =? 0x45))%N then
      is_digit d
      || ((d =? 0x2B) || (d =? 0x2D))%N
         && match rest with x :: _ => is_digit x | [] => false end
    else false
  | _ => false
  end.

Definition scan_number (max_digits : nat) (s : str) : option (pyval * str) :=
  let '(negative, body) :=
    match s with
    | c :: s' => if (c =? 0x2D)%N then (true, s') else (false, s)
    | [] => (false, s)
    end in
  match body with
  | d :: rest =>
    if is_digit d then
      let '(z, n, rest') :=
        if (d =? 0x30)%N then (0%Z, 1%nat, rest)
        else scan_digits rest (Z.of_N (d - 0x30)) 1 in
      if float_follows rest' then None
      else if digits_allowed max_digits n
           then Some (PInt (if negative then - z else z)%Z, rest')
           else None
    else None
  | [] => None
  end.

(** [s] without the prefix [p], when it starts with it. *)
Fixpoint after_prefix (p s : str) : option str :=
  match p, s with
  | [], _ => Some s
  | x :: p', y :: s' => if (x =? y)%N then after_prefix p' s' else None
  | _ :: _, [] => None
  end.

(** [d[k] = v] *)
Fixpoint dict_set (d : list (str * pyval)) (k : str) (v : pyval)
  : list (str * pyval) :=
  match d with
  | [] => [(k, v)]
  | (k', v') :: d' =>
    if str_eqb k' k then (k', v) :: d' else (k', v') :: dict_set d' k v
  end.

(** The value at the head of [s] and the text after it.  [fuel] bounds the
    calls; the length of the text is enough. *)
Fixpoint parse_value (max_digits fuel : nat) (s : str)
  : option (pyval * str) :=
  match fuel with
  | O => None
  | S fuel' =>
    match s with
    | [] => None
    | c :: rest =>
      if (c =? 0x22)%N then
        match scan_string rest with
        | Some (t, rest1) => Some (PStr t, rest1)
        | None => None
        end
      else if (c =? 0x7B)%N then
        match skip_ws rest with
        | c1 :: rest1 =>
          if (c1 =? 0x7D)%N then Some (PDict [], rest1)
          else parse_members max_digits fuel' (c1 :: rest1) []
        | [] => None
        end
      else if (c =? 0x5B)%N then
        match skip_ws rest with
        | c1 :: rest1 =>
          if (c1 =? 0x5D)%N then Some (PList [], rest1)
          else parse_elements max_digits fuel' (c1 :: rest1) []
        | [] => None
        end
      else
        match after_prefix (u "null") s, after_prefix (u "true") s,
              after_prefix (u "false") s with
        | Some rest1, _, _ => Some (PNone, rest1)
        | _, Some rest1, _ => Some (PBool true, rest1)
        | _, _, Some rest1 => Some (PBool false, rest1)
        | None, None, None => scan_number max_digits s
        end
    end
  end

with parse_elements (max_digits fuel : nat) (s : str) (acc : list pyval)
  : option (pyval * str) :=
  match fuel with
  | O => None
  | S fuel' =>
    match parse_value max_digits fuel' s with
    | Some (v, rest) =>
      match skip_ws rest with
      | c :: rest1 =>
        if (c =? 0x5D)%N then Some (PList (acc ++ [v]), rest1)
        else if (c =? 0x2C)%N
             then parse_elements max_digits fuel' (skip_ws rest1) (acc ++ [v])
             else None
      | [] => None
      end
    | None => None
    end
  end

with parse_members (max_digits fuel : nat) (s : str)
  (acc : list (str * pyval)) : option (pyval * str) :=
  match fuel with
  | O => None
  | S fuel' =>
    match s with
    | c :: rest =>
      if (c =? 0x22)%N then
        match scan_string rest with
        | Some (k, rest1) =>
          match skip_ws rest1 with
          | c1 :: rest2 =>
            if (c1 =? 0x3A)%N then
              match parse_value max_digits fuel' (skip_ws rest2) with
              | Some (v, rest3) =>
                match skip_ws rest3 with
                | c2 :: rest4 =>
                  if (c2 =? 0x7D)%N
                  then Some (PDict (dict_set acc k v), rest4)
                  else if (c2 =? 0x2C)%N
                       then parse_members max_digits fuel' (skip_ws rest4)
                                          (dict_set acc k v)
                       else None
                | [] => None
                end
              | None => None
              end
            else None
          | [] => None
          end
        | None => None
        end
      else None
    | [] => None
    end
  end.

Definition json_loads (max_digits : nat) (text : str) : option pyval :=
  let s := skip_ws text in
  match parse_value max_digits (S (length s)) s with
  | Some (v, rest) =>
    match skip_ws rest with
    | [] => Some v
    | _ :: _ => None
    end
  | None => None
  end.

(** Calls of the decoder that reading [v] back takes at most. *)
Fixpoint json_size (v : pyval) : nat :=
  match v with
  | PList l =>
    S ((fix items (l : list pyval) : nat :=
          match l with
          | [] => 0
          | x :: l' => S (json_size x + items l')
          end) l)
  | PDict d =>
    S ((fix items (l : list (str * pyval)) : nat :=
          match l with
          | [] => 0
          | (_, x) :: l' => S (json_size x + items l')
          end) d)
  | _ => 1
  end.

Definition items_size (l : list pyval) : nat :=
  fold_right (fun x n => S (json_size x + n)) 0%nat l.

Definition members_size (d : list (str * pyval)) : nat :=
  fold_right (fun kx n => S (json_size (snd kx) + n)) 0%nat d.

(** Text that cannot continue a number: it does not start with a digit, a
    point or an exponent mark. *)
Definition number_ends (s : str) : bool :=
  match s with
  | [] => true
  | c :: _ =>
    negb (is_digit c || (c =? 0x2E) || (c =? 0x65) || (c =? 0x45))%N
  end.

(** A value Python can hold: no key twice in a dict. *)
Fixpoint distinct (keys : list str) : bool :=
  match keys with
  | [] => true
  | k :: keys' => negb (existsb (str_eqb k) keys') && distinct keys'
  end.

Fixpoint is_value (v : pyval) : bool :=
  match v with
  | PList l =>
    (fix items (l : list pyval) : bool :=
       match l with
       | [] => true
       | x :: l' => is_value x && items l'
       end) l
  | PDict d =>
    distinct (map fst d)
    && (fix items (l : list (str * pyval)) : bool :=
          match l with
          | [] => true
          | (_, x) :: l' => is_value x && items l'
          end) d
  | _ => true
  end.

(** [v], written at any indentation and followed by text that does not go on
    with a number, is read back as [v]. *)
Definition reads_back (max_digits : nat) (v : pyval) : Prop :=
  forall (level fuel : nat) (rest : str),
    is_value v = true ->
    dump_error max_digits v = None ->
    (json_size v <= fuel)%nat ->
    number_ends rest = true ->
    parse_value max_digits fuel (json_encode level v ++ rest) = Some (v, rest).

(** ** The class [GitHubRepoFetcher] *)

Section GitHubRepoFetcher.

(** The remote API: what each request is answered with. *)
Variable server : request -> response.
(** The [token] argument of [__init__]. *)
Variable token : option str.
(** [sys.get_int_max_str_digits()] of the interpreter. *)
Variable max_digits : nat.
(** What [time.strftime("%Y-%m-%d %H:%M:%S")] returns. *)
Variable now : str.
(** The exception [open(filename, 'w')] raises for a path, if it does. *)
Variable open_error : fstring -> option exn.

Definition base_url : str := u "https://api.github.com".

Definition self_headers : list (str * str) :=
  [(u "Accept", u "application/vnd.github.v3+json");
   (u "User-Agent", u "GitHub-Repo-Fetcher")]
  ++ match token with
     | Some t =>
       if truthy (PStr t) then [(u "Authorization", u "token " ++ t)] else []
     | None => []
     end.

(** What [response.json()] does on the body of a [Response]. *)
Definition decoded (body : option pyval) : result pyval :=
  match body with
  | Some v => Ok v
  | None => Raise (RequestException JSONDecodeError)
  end.

(** [requests.get(url, headers=..., params=...)]: the status, what
    [response.json()] will do, and the links. *)
Definition requests_get (r : request)
  : M (Z * result pyval * list str) :=
  fun w =>
    let w' := mkWorld (stdin w) (stdout w) (sent w ++ [r]) (naps w) (files w) in
    match server r with
    | NoResponse => (Raise (RequestException Transport), w')
    | Response status body lks => (Ok (status, decoded body, lks), w')
    | Undecodable status e lks => (Ok (status, Raise e, lks), w')
    end.

(** [response.raise_for_status()] *)
Definition raise_for_status (status : Z) : M unit :=
  if ((400 <=? status) && (status <? 600))%Z
  then lift (Raise (RequestException (HTTPError status)))
  else ret tt.

(** [response.json()] *)
Definition response_json (body : result pyval) : M pyval := lift body.

Definition search_request (query : str) : request :=
  mkRequest [Lit base_url; T "/search/users"] self_headers
            [(u "q", PStr query); (u "per_page", PInt 10)].

Definition search_users (query : str) : M pyval :=
  try_except
    (response <- requests_get (search_request query);;
     let '(status, body, _) := response in
     raise_for_status status;;;
     data <- response_json body;;
     lift (py_get data (u "items") (PList [])))
    is_request_exception
    (fun e => print [T "Error searching users: "; FmtExn e];;; ret (PList [])).

Definition repos_request (username : pyval) (page : Z) : request :=
  mkRequest [Lit base_url; T "/users/"; Fmt username; T "/repos"] self_headers
            [(u "per_page", PInt 100); (u "sort", PStr (u "updated"));
             (u "page", PInt page)].

(** One turn of the [while True] of [get_user_repos]: the list accumulated so
    far comes back with [true] to go on with the next page, [false] after a
    [break].  Nothing after [repos.extend] raises a RequestException, so the
    handler sees the list as it was before the turn. *)
Definition repos_page (username : pyval) (page : Z) (repos : list pyval)
  : M (bool * list pyval) :=
  try_except
    (response <- requests_get (repos_request username page);;
     let '(status, body, lks) := response in
     raise_for_status status;;;
     page_repos <- response_json body;;
     if negb (truthy page_repos) then ret (false, repos)
     else
       items <- lift (py_iter page_repos);;
       let repos := repos ++ items in
       if negb (existsb (str_eqb (u "next")) lks) then ret (false, repos)
       else sleep;;; ret (true, repos))
    is_request_exception
    (fun e =>
       print [T "Error fetching repositories: "; FmtExn e];;;
       ret (false, repos)).

Fixpoint repos_loop (fuel : nat) (username : pyval) (page : Z)
  (repos : list pyval) : M (list pyval) :=
  match fuel with
  | O => out_of_fuel
  | S fuel' =>
    turn <- repos_page username page repos;;
    let '(more, repos') := turn in
    if more then repos_loop fuel' username (page + 1)%Z repos'
    else ret repos'
  end.

(** [fuel] bounds the number of pages requested. *)
Definition get_user_repos (fuel : nat) (username : pyval) : M (list pyval) :=
  repos_loop fuel username 1%Z [].

Definition languages_request (username repo_name : pyval) : request :=
  mkRequest [Lit base_url; T "/repos/"; Fmt username; T "/"; Fmt repo_name;
             T "/languages"] self_headers [].

Definition get_repo_languages (username repo_name : pyval) : M (list str) :=
  try_except
    (response <- requests_get (languages_request username repo_name);;
     let '(status, body, _) := response in
     raise_for_status status;;;
     languages_data <- response_json body;;
     lift (py_keys languages_data))
    is_request_exception
    (fun e =>
       print [T "Error fetching languages for "; Fmt repo_name; T ": ";
              FmtExn e];;;
       ret []).

(** [for i, x in enumerate(l, i0): body i x] *)
Fixpoint for_enumerate {A} (body : nat -> A -> M unit) (i0 : nat)
  (l : list A) : M unit :=
  match l with
  | [] => ret tt
  | x :: l' => body i0 x;;; for_enumerate body (S i0) l'
  end.

Definition nat_val (n : nat) : pyval := PInt (Z.of_nat n).

(** The body of the listing loop of [display_user_selection]. *)
Definition show_user (i : nat) (user : pyval) : M unit :=
  login <- lift (py_item user (u "login"));;
  name <- lift (py_get user (u "name") (PStr (u "N/A")));;
  print [Fmt (nat_val i); T ". "; Fmt login; T " - "; Fmt name];;;
  bio <- lift (py_get user (u "bio") PNone);;
  (if truthy bio then
     bio <- lift (py_item user (u "bio"));;
     bio80 <- lift (py_prefix bio 80);;
     print [T "   ğŸ“ "; Fmt bio80; T "..."]
   else ret tt);;;
  followers <- lift (py_get user (u "followers") (PInt 0));;
  public_repos <- lift (py_get user (u "public_repos") (PInt 0));;
  print [T "   ğŸ‘¤ Followers: "; Fmt followers; T " | Public Repos: ";
         Fmt public_repos];;;
  print [].

Definition is_value_error (e : exn) : bool :=
  match e with ValueError => true | _ => false end.

(** One turn of the prompt loop of [display_user_selection]: [Some v] when the
    turn executes [return v], [None] when the loop goes round again. *)
Definition select_turn (users : pyval) : M (option pyval) :=
  try_except
    (line <- input [T "Select a user (number) or 'q' to quit: "];;
     let choice := py_strip line in
     if str_eqb (py_lower choice) (u "q") then ret (Some PNone)
     else
       choice_num <- lift (match py_int max_digits choice with
                           | Some z => Ok z
                           | None => Raise ValueError
                           end);;
       n <- lift (py_len users);;
       if ((1 <=? choice_num) && (choice_num <=? Z.of_nat n))%Z then
         user <- lift (py_index users (Z.to_nat (choice_num - 1)));;
         login <- lift (py_item user (u "login"));;
         ret (Some login)
       else
         print [T "Please enter a number between 1 and "; Fmt (nat_val n)];;;
         ret None)
    is_value_error
    (fun _ => print [T "Please enter a valid number or 'q' to quit"];;;
              ret None).

Fixpoint select_loop (fuel : nat) (users : pyval) : M pyval :=
  match fuel with
  | O => out_of_fuel
  | S fuel' =>
    turn <- select_turn users;;
    match turn with
    | Some v => ret v
    | None => select_loop fuel' users
    end
  end.

(** The numbered list [display_user_selection] prints before it prompts. *)
Definition list_users (users : pyval) : M unit :=
  print [NT "ğŸ” Search Results:"];;;
  print [py_repeat "-" 50];;;
  us <- lift (py_iter users);;
  for_enumerate show_user 1 us.

(** The [while True] of [display_user_selection].  Every turn reads a line or
    ends in [EOFError], so the lines left on the terminal bound the number of
    turns. *)
Definition prompt_loop (users : pyval) : M pyval :=
  fun w => select_loop (S (length (stdin w))) users w.

Definition display_user_selection (users : pyval) : M pyval :=
  if negb (truthy users) then print [T "No users found!"];;; ret PNone
  else list_users users;;; prompt_loop users.

(** The body of the loop of [display_repos]. *)
Definition show_repo (username : pyval) (i : nat) (repo : pyval) : M unit :=
  name <- lift (py_item repo (u "name"));;
  print [Lit [0x0A%N]; Fmt (nat_val i); T ". "; Fmt name];;;
  description <- lift (py_get repo (u "description")
                              (PStr (u "No description")));;
  print [T "   ğŸ“– Description: "; Fmt description];;;
  stars <- lift (py_get repo (u "stargazers_count") (PInt 0));;
  print [T "   ğŸŒŸ Stars: "; Fmt stars];;;
  forks <- lift (py_get repo (u "forks_count") (PInt 0));;
  print [T "   ğŸ´ Forks: "; Fmt forks];;;
  updated <- lift (py_get repo (u "updated_at") (PStr (u "N/A")));;
  updated10 <- lift (py_prefix updated 10);;
  print [T "   ğŸ“… Updated: "; Fmt updated10];;;
  html_url <- lift (py_get repo (u "html_url") (PStr (u "N/A")));;
  print [T "   ğŸ”— URL: "; Fmt html_url];;;
  name <- lift (py_item repo (u "name"));;
  languages <- get_repo_languages username name;;
  (if truthy (PList (map PStr languages))
   then print [T "   ğŸ’» Technologies: ";
               Fmt (PStr (py_join (u ", ") languages))]
   else print [T "   ğŸ’» Technologies: Not available"]);;;
  language <- lift (py_get repo (u "language") PNone);;
  (if truthy language then
     language <- lift (py_item repo (u "language"));;
     print [T "   ğŸ¯ Primary Language: "; Fmt language]
   else ret tt);;;
  has_issues <- lift (py_get repo (u "has_issues") PNone);;
  (if truthy has_issues then
     open_issues <- lift (py_get repo (u "open_issues_count") (PInt 0));;
     print [T "   ğŸ› Issues: "; Fmt open_issues; T " open"]
   else ret tt);;;
  license <- lift (py_get repo (u "license") PNone);;
  (if truthy license then
     license <- lift (py_item repo (u "license"));;
     license_name <- lift (py_get license (u "name") (PStr (u "N/A")));;
     print [T "   ğŸ“œ License: "; Fmt license_name]
   else ret tt);;;
  print [py_repeat "-" 60].

Definition display_repos (repos : list pyval) (username : pyval) : M unit :=
  if negb (truthy (PList repos))
  then print [NT "No repositories found for user '"; Fmt username; T "'"]
  else
    print [NT "ğŸ“‚ Repositories for "; Fmt username; T " (";
           Fmt (nat_val (length repos)); T " found)"];;;
    print [py_repeat "=" 80];;;
    for_enumerate (show_repo username) 1 repos.

(** The [repo_data] dict built for one repository. *)
Definition export_repo (username repo : pyval) : M pyval :=
  name <- lift (py_get repo (u "name") PNone);;
  description <- lift (py_get repo (u "description") PNone);;
  html_url <- lift (py_get repo (u "html_url") PNone);;
  stars <- lift (py_get repo (u "stargazers_count") PNone);;
  forks <- lift (py_get repo (u "forks_count") PNone);;
  updated_at <- lift (py_get repo (u "updated_at") PNone);;
  language <- lift (py_get repo (u "language") PNone);;
  repo_name <- lift (py_item repo (u "name"));;
  languages <- get_repo_languages username repo_name;;
  has_issues <- lift (py_get repo (u "has_issues") PNone);;
  open_issues <- lift (py_get repo (u "open_issues_count") PNone);;
  has_license <- lift (py_get repo (u "license") PNone);;
  license <- (if truthy has_license then
                license <- lift (py_get repo (u "license") (PDict []));;
                lift (py_get license (u "name") PNone)
              else ret PNone);;
  ret (PDict [(u "name", name);
              (u "description", description);
              (u "url", html_url);
              (u "stars", stars);
              (u "forks", forks);
              (u "updated_at", updated_at);
              (u "primary_language", language);
              (u "languages", PList (map PStr languages));
              (u "has_issues", has_issues);
              (u "open_issues", open_issues);
              (u "license", license)]).

(** The [for repo in repos] loop of [export_to_json]: the list appended to
    [export_data["repositories"]]. *)
Fixpoint export_repos (username : pyval) (repos : list pyval)
  : M (list pyval) :=
  match repos with
  | [] => ret []
  | repo :: rest =>
    repo_data <- export_repo username repo;;
    others <- export_repos username rest;;
    ret (repo_data :: others)
  end.

Definition export_data (username : pyval) (repos : list pyval)
  (repositories : list pyval) : pyval :=
  PDict [(u "username", username);
         (u "fetched_at", PStr now);
         (u "total_repositories", nat_val (length repos));
         (u "repositories", PList repositories)].

(** [with open(filename, 'w', encoding='utf-8') as f: json.dump(...)] *)
Definition write_json (filename : fstring) (doc : pyval) : M unit :=
  fun w =>
    match open_error filename with
    | Some e => (Raise e, w)
    | None =>
      match dump_error max_digits doc with
      | None =>
        (Ok tt, mkWorld (stdin w) (stdout w) (sent w) (naps w)
                        (files w ++ [(filename, Complete (json_dumps doc))]))
      | Some e =>
        (Raise e, mkWorld (stdin w) (stdout w) (sent w) (naps w)
                          (files w ++ [(filename, Partial)]))
      end
    end.

Definition default_filename (username : pyval) : fstring :=
  [Fmt username; T "_repositories.json"].

(** [if not filename: filename = f"{username}_repositories.json"] *)
Definition chosen_filename (username : pyval) (filename : option str)
  : fstring :=
  match filename with
  | Some f => if truthy (PStr f) then [Lit f] else default_filename username
  | None => default_filename username
  end.

Definition export_to_json (repos : list pyval) (username : pyval)
  (filename : option str) : M unit :=
  let filename := chosen_filename username filename in
  repositories <- export_repos username repos;;
  try_except
    (write_json filename (export_data username repos repositories);;;
     print (NT "ğŸ’¾ Data exported to " :: filename))
    (fun _ => true)
    (fun e => print [T "Error exporting data: "; FmtExn e]).

Definition search_and_display (fuel : nat) : M unit :=
  line <- input [NT "Enter GitHub username or name to search: "];;
  let search_query := py_strip line in
  if negb (truthy (PStr search_query))
  then print [T "Please enter a search query."]
  else
    print [T "ğŸ” Searching for users..."];;;
    users <- search_users search_query;;
    username <- display_user_selection users;;
    if negb (truthy username) then ret tt
    else
      print [NT "ğŸ“¥ Fetching repositories for "; Fmt username; T "..."];;;
      repos <- get_user_repos fuel username;;
      if truthy (PList repos) then
        display_repos repos username;;;
        line <- input [NT "ğŸ’¾ Export to JSON file? (y/n): "];;
        let export_choice := py_lower (py_strip line) in
        if str_eqb export_choice (u "y") || str_eqb export_choice (u "yes")
        then
          line <- input [T "Enter filename (or press Enter for default): "];;
          let filename := py_strip line in
          export_to_json repos username
            (if truthy (PStr filename) then Some filename else None)
        else ret tt
      else print [T "No repositories found for user '"; Fmt username; T "'"].

(** One turn of the menu loop of [run]: [true] to show the menu again, [false]
    after the [break] of choice 2. *)
Definition run_turn (fuel : nat) : M bool :=
  print [NT "Options:"];;;
  print [T "1. Search for GitHub user"];;;
  print [T "2. Exit"];;;
  line <- input [NT "Enter your choice (1-2): "];;
  let choice := py_strip line in
  if str_eqb choice (u "1") then search_and_display fuel;;; ret true
  else if str_eqb choice (u "2") then print [T "Goodbye! ğŸ‘‹"];;; ret false
  else print [T "Invalid choice. Please try again."];;; ret true.

Fixpoint run_loop (turns fuel : nat) : M unit :=
  match turns with
  | O => out_of_fuel
  | S turns' =>
    again <- run_turn fuel;;
    if again then run_loop turns' fuel else ret tt
  end.

(** Every turn of the menu reads a line or ends in [EOFError], so the lines
    left on the terminal bound the number of turns; [fuel] bounds the pages of
    each listing. *)
Definition run (fuel : nat) : M unit :=
  print [T "ğŸš€ GitHub Repository Fetcher"];;;
  print [py_repeat "=" 50];;;
  print [T "âœ… Using authenticated requests (5000 requests/hour)"];;;
  fun w => run_loop (S (length (stdin w))) fuel w.

End GitHubRepoFetcher.

(** ** Vocabulary of the statements *)

(** A status [raise_for_status] lets through. *)
Definition ok_status (status : Z) : bool :=
  negb ((400 <=? status) && (status <? 600))%Z.

Definition has_next (lks : list str) : bool := existsb (str_eqb (u "next")) lks.

(** Page [k] of [username]'s repositories is answered with the list [items],
    with a 'next' link exactly when [more]. *)
Definition serves_page (server : request -> response) (token : option str)
  (username : pyval) (k : Z) (items : list pyval) (more : bool) : Prop :=
  exists status lks,
    server (repos_request token username k)
    = Response status (Some (PList items)) lks
    /\ ok_status status = true /\ has_next lks = more.

(** A transport or HTTP error: [requests.get] raises, or the status is one
    [raise_for_status] raises on. *)
Definition request_fails (server : request -> response) (r : request) : Prop :=
  server r = NoResponse
  \/ exists status body lks,
       server r = Response status body lks /\ ok_status status = false.

(** The RequestException a request ends in, if any: no response, an error
    status, or a 2xx body that is not JSON (or on which [response.json()]
    raises another RequestException). *)
Definition request_error (server : request -> response) (r : request)
  : option req_error :=
  match server r with
  | NoResponse => Some Transport
  | Response status body _ =>
    if ok_status status
    then match body with None => Some JSONDecodeError | Some _ => None end
    else Some (HTTPError status)
  | Undecodable status e _ =>
    if ok_status status
    then match e with RequestException why => Some why | _ => None end
    else Some (HTTPError status)
  end.

(** Pages [k], [k + 1], ... are answered with the lists of [pages], each of
    them non-empty and with a 'next' link: the turns after which the loop of
    [get_user_repos] goes on. *)
Fixpoint serves_pages (server : request -> response) (token : option str)
  (username : pyval) (k : Z) (pages : list (list pyval)) : Prop :=
  match pages with
  | [] => True
  | items :: rest =>
    items <> [] /\ serves_page server token username k items true
    /\ serves_pages server token username (k + 1)%Z rest
  end.

(** A user the listing can show: an object with a "login", whose "bio", when
    it has one that is not empty, can be cut to 80 characters. *)
Definition candidate_user (user : pyval) : bool :=
  match user with
  | PDict d =>
    match dict_lookup d (u "login"), dict_lookup d (u "bio") with
    | Some _, Some (PStr _) | Some _, Some (PList _) | Some _, None => true
    | Some _, Some bio => negb (truthy bio)
    | None, _ => false
    end
  | _ => false
  end.

(** What [display_user_selection] shows for [users] before the first
    prompt. *)
Definition listing (users : pyval) : list out_item :=
  stdout (snd (list_users users (mkWorld [] [] [] 0 []))).

Definition select_prompt : out_item :=
  Prompt [T "Select a user (number) or 'q' to quit: "].

(** The world after a line was read: [rest] is left to read, [shown] was
    added to the terminal. *)
Definition on_terminal (w : world) (rest : list str) (shown : list out_item)
  : world :=
  mkWorld rest (stdout w ++ shown) (sent w) (naps w) (files w).

(** [repo.get(k)] *)
Definition field (repo : pyval) (k : string) : pyval :=
  match repo with
  | PDict d =>
    match dict_lookup d (u k) with Some v => v | None => PNone end
  | _ => PNone
  end.

(** The name of the license of a repository, [None] when it has none. *)
Definition license_name (repo : pyval) : pyval :=
  if truthy (field repo "license") then field (field repo "license") "name"
  else PNone.

(** A repository record: an object with a "name" whose "license", when it
    has one, is an object. *)
Definition repository_record (repo : pyval) : bool :=
  match repo with
  | PDict d =>
    match dict_lookup d (u "name"), dict_lookup d (u "license") with
    | Some _, Some (PDict _) | Some _, None => true
    | Some _, Some license => negb (truthy license)
    | None, _ => false
    end
  | _ => false
  end.

(** What the language endpoint makes [get_repo_languages] return for a
    repository: the keys of the mapping it answers with, nothing when the
    request fails; [None] when the body is JSON but not a mapping, or when
    [response.json()] raises what is not a RequestException, on which
    [get_repo_languages] raises. *)
Definition languages_of (server : request -> response) (token : option str)
  (username repo_name : pyval) : option (list str) :=
  match server (languages_request token username repo_name) with
  | NoResponse => Some []
  | Response status body _ =>
    if ok_status status then
      match body with
      | None => Some []
      | Some (PDict d) => Some (map fst d)
      | Some _ => None
      end
    else Some []
  | Undecodable status e _ =>
    if ok_status status && negb (is_request_exception e) then None
    else Some []
  end.

(** The entry of the export snapshot for [repo], with [languages] resolved. *)
Definition snapshot_entry (languages : list str) (repo : pyval) : pyval :=
  PDict [(u "name", field repo "name");
         (u "description", field repo "description");
         (u "url", field repo "html_url");
         (u "stars", field repo "stargazers_count");
         (u "forks", field repo "forks_count");
         (u "updated_at", field repo "updated_at");
         (u "primary_language", field repo "language");
         (u "languages", PList (map PStr languages));
         (u "has_issues", field repo "has_issues");
         (u "open_issues", field repo "open_issues_count");
         (u "license", license_name repo)].

(** A repository [export_to_json] gets through: a repository record whose
    languages the endpoint answers or fails to answer. *)
Definition exportable (server : request -> response) (token : option str)
  (username repo : pyval) : Prop :=
  repository_record repo = true
  /\ languages_of server token username (field repo "name") <> None.

Definition languages_list (server : request -> response) (token : option str)
  (username repo : pyval) : list str :=
  match languages_of server token username (field repo "name") with
  | Some languages => languages
  | None => []
  end.

(** The export snapshot of [repos]. *)
Definition snapshot (server : request -> response) (token : option str)
  (now : str) (username : pyval) (repos : list pyval) : pyval :=
  export_data now username repos
    (map (fun repo =>
            snapshot_entry (languages_list server token username repo) repo)
         repos).

(** The names of the fields of the snapshot and of its entries. *)
Definition snapshot_fields : list str :=
  [u "username"; u "fetched_at"; u "total_repositories"; u "repositories"].

Definition entry_fields : list str :=
  [u "name"; u "description"; u "url"; u "stars"; u "forks"; u "updated_at";
   u "primary_language"; u "languages"; u "has_issues"; u "open_issues";
   u "license"].

(** The fields of a value that is an object, in order. *)
Definition fields_of (v : pyval) : option (list str) :=
  match v with PDict d => Some (map fst d) | _ => None end.

(** *** The shape of the API's answers *)

(** What [search_users] may hand to the selection: nothing, or a list of
    candidate users. *)
Definition users_ok (v : pyval) : bool :=
  negb (truthy v)
  || match v with PList us => forallb candidate_user us | _ => false end.

(** The body of a search answer: an object whose "items", when it has them,
    are users. *)
Definition search_body_ok (data : pyval) : bool :=
  match data with
  | PDict d =>
    match dict_lookup d (u "items") with
    | Some v => users_ok v
    | None => true
    end
  | _ => false
  end.

(** A repository [display_repos] can show: a repository record whose
    "updated_at", when it has one, can be cut to ten characters. *)
Definition displayable (repo : pyval) : bool :=
  repository_record repo
  && match repo with
     | PDict d =>
       match dict_lookup d (u "updated_at") with
       | None | Some (PStr _) | Some (PList _) => true
       | Some _ => false
       end
     | _ => false
     end.

(** The body of a listing answer: nothing, or a list of such repositories. *)
Definition listing_body_ok (page_repos : pyval) : bool :=
  negb (truthy page_repos)
  || match page_repos with
     | PList repos => forallb displayable repos
     | _ => false
     end.

(** The body of a languages answer: a mapping. *)
Definition languages_body_ok (languages_data : pyval) : bool :=
  match languages_data with PDict _ => true | _ => false end.

(** An answer that is a failure the program catches (no response, an error
    status, a body on which [response.json()] raises a RequestException, as
    it does when the body is not JSON) or whose body has the shape
    expected. *)
Definition answer_ok (body_ok : pyval -> bool) (r : response) : bool :=
  match r with
  | NoResponse => true
  | Response status body _ =>
    negb (ok_status status)
    || match body with Some v => body_ok v | None => true end
  | Undecodable status e _ => negb (ok_status status) || is_request_exception e
  end.

Definition api_shaped (server : request -> response) (token : option str)
  : Prop :=
  (forall query, answer_ok search_body_ok (server (search_request token query))
                 = true)
  /\ (forall username page,
        answer_ok listing_body_ok (server (repos_request token username page))
        = true)
  /\ (forall username repo_name,
        answer_ok languages_body_ok
                  (server (languages_request token username repo_name))
        = true).

(** An outcome that is not an unhandled exception, the end of the terminal's
    input apart. *)
Definition ends_well {A : Type} (outcome : result A * world) : Prop :=
  match fst outcome with
  | Raise e => e = EOFError
  | _ => True
  end.

Definition goodbye : out_item := Print [T "Goodbye! ğŸ‘‹"].

(** [m] returns, from any world, a value that satisfies [Q]. *)
Definition returns {A : Type} (m : M A) (Q : A -> Prop) : Prop :=
  forall w, exists a w', m w = (Ok a, w') /\ Q a.

(** [m], from any world, returns a value that satisfies [Q], or stops at the
    end of the terminal's input, or reaches the bound of the model. *)
Definition ends_in {A : Type} (m : M A) (Q : A -> Prop) : Prop :=
  forall w,
    match fst (m w) with
    | Ok a => Q a
    | Raise e => e = EOFError
    | OutOfFuel => True
    end.

(** The page numbers [from], [from + 1], ... ([n] of them). *)
Definition page_numbers (from : Z) (n : nat) : list Z :=
  map (fun i => (from + Z.of_nat i)%Z) (seq 0 n).

(** The world after [rs] more requests, [n] more pauses and [shown] more
    output. *)
Definition after (w : world) (rs : list request) (n : nat)
  (shown : list out_item) : world :=
  mkWorld (stdin w) (stdout w ++ shown) (sent w ++ rs) (naps w + n) (files w).

(** ** Sample servers and terminals *)

Definition octocat : pyval := PStr (u "octocat").

Definition repo_named (name : string) : pyval :=
  PDict [(u "name", PStr (u name))].

Definition page_of (r : request) : option Z :=
  match dict_lookup (params r) (u "page") with
  | Some (PInt k) => Some k
  | _ => None
  end.

(** A listing of two pages, the second one the last. *)
Definition two_pages (r : request) : response :=
  match page_of r with
  | Some 1%Z =>
    Response 200 (Some (PList [repo_named "hello"; repo_named "world"]))
             [u "next"; u "last"]
  | Some 2%Z =>
    Response 200 (Some (PList [repo_named "spoon"])) [u "prev"; u "first"]
  | _ => NoResponse
  end.

(** The same listing with the second page answered by a server error. *)
Definition second_page_down (r : request) : response :=
  match page_of r with
  | Some 1%Z =>
    Response 200 (Some (PList [repo_named "hello"; repo_named "world"]))
             [u "next"; u "last"]
  | _ => Response 503 None []
  end.

(** A search endpoint whose answer has no "items" field. *)
Definition search_without_items (_ : request) : response :=
  Response 200 (Some (PDict [(u "message", PStr (u "nothing here"))])) [].

(** A language endpoint answering every repository with Go and Shell. *)
Definition go_and_shell (_ : request) : response :=
  Response 200 (Some (PDict [(u "Go", PInt 120); (u "Shell", PInt 4)])) [].

(** Repositories as the API lists them when a field has no value: the key is
    there and holds null. *)
Definition null_description_repo : pyval :=
  PDict [(u "name", PStr (u "demo")); (u "description", PNone)].

Definition null_updated_repo : pyval :=
  PDict [(u "name", PStr (u "demo")); (u "updated_at", PNone)].

(** A repository record that has its name and nothing else. *)
Definition bare_repo : pyval := PDict [(u "name", PStr (u "demo"))].

(** Two repositories as the listing endpoint gives them. *)
Definition sample_repos : list pyval :=
  [PDict [(u "name", PStr (u "hello"));
          (u "stargazers_count", PInt 7);
          (u "forks_count", PInt 1);
          (u "open_issues_count", PInt 0);
          (u "license", PDict [(u "key", PStr (u "mit"));
                               (u "name", PStr (u "MIT License"))])];
   PDict [(u "name", PStr (u "world"));
          (u "description", PNone);
          (u "stargazers_count", PInt 0);
          (u "license", PNone)]].

Definition sample_time : str := u "2026-01-01 12:00:00".

(** A disk on which every path opens. *)
Definition every_path_opens (_ : fstring) : option exn := None.

(** A search endpoint whose answer is a JSON array, not an object. *)
Definition search_answers_array (_ : request) : response :=
  Response 200 (Some (PList [])) [].

(** Two users as the search endpoint lists them. *)
Definition two_users : list pyval :=
  [PDict [(u "login", PStr (u "octocat")); (u "id", PInt 583231)];
   PDict [(u "login", PStr (u "hubot")); (u "bio", PStr (u "a robot"))]].

(** An API that answers every request in shape: two users for any search,
    the sample repositories on page 1 and nothing after, Go and Shell for
    every repository. *)
Definition mock_api (r : request) : response :=
  match dict_lookup (params r) (u "q"), page_of r with
  | Some _, _ =>
    Response 200 (Some (PDict [(u "total_count", PInt 2);
                               (u "items", PList two_users)])) []
  | None, Some page =>
    if (page =? 1)%Z
    then Response 200 (Some (PList sample_repos)) [u "next"]
    else Response 200 (Some (PList [])) []
  | None, None =>
    Response 200 (Some (PDict [(u "Go", PInt 120); (u "Shell", PInt 4)])) []
  end.

(** The digit two of the Arabic-Indic script (U+0662), a line [int()] reads
    as 2. *)
Definition arabic_two : str := [0x662]%N.

(** A line of a space, a tab, a no-break space and an ideographic space. *)
Definition blank_line : str := [0x20; 0x09; 0xA0; 0x3000]%N.

(** A terminal on which [lines] are about to be typed. *)
Definition typing (lines : list str) : world := mkWorld lines [] [] 0 [].

(** A terminal with nothing typed and nothing shown. *)
Definition quiet : world := mkWorld [] [] [] 0 [].

(** ** Vocabulary of the further properties *)

(** [m], started where the invariant [I] of the world holds, ends (in a value,
    an exception or the bound of the model) where it holds again, and returns
    only values that satisfy [Q]. *)
Definition keeps {A : Type} (I : world -> Prop) (m : M A) (Q : A -> Prop)
  : Prop :=
  forall w, I w -> I (snd (m w)) /\ forall a, fst (m w) = Ok a -> Q a.

(** [m] returns a value that satisfies [Q] after sending exactly the requests
    [rs]; it may print, and does nothing else. *)
Definition emits {A : Type} (m : M A) (rs : list request) (Q : A -> Prop)
  : Prop :=
  forall w, exists a shown, m w = (Ok a, after w rs 0 shown) /\ Q a.

(** A request to one of the three endpoints, as the fetcher builds it. *)
Definition api_request (token : option str) (r : request) : Prop :=
  (exists query, r = search_request token query)
  \/ (exists username page, r = repos_request token username page)
  \/ (exists username repo_name,
        r = languages_request token username repo_name).

(** [headers[name]] of a request, if it has that header. *)
(** The world has seen, since [sent0], only requests of the fetcher. *)
Definition only_api_requests (token : option str) (sent0 : list request)
  (w : world) : Prop :=
  exists rs, sent w = sent0 ++ rs /\ Forall (api_request token) rs.

(** The lines to read and the files are those of [w0]. *)
Definition same_terminal (w0 w : world) : Prop :=
  stdin w = stdin w0 /\ files w = files w0.

(** The Authorization header the fetcher was built to send: one for a token
    that is not empty, none otherwise. *)
Definition authorization (token : option str) : option str :=
  match token with
  | Some t => if truthy (PStr t) then Some (u "token " ++ t) else None
  | None => None
  end.

Fixpoint header (hs : list (str * str)) (name : str) : option str :=
  match hs with
  | [] => None
  | (n, v) :: hs' => if str_eqb n name then Some v else header hs' name
  end.

(** An answer to the export question that asks for the file. *)
Definition says_yes (line : str) : bool :=
  str_eqb (py_lower (py_strip line)) (u "y")
  || str_eqb (py_lower (py_strip line)) (u "yes").

(** The files are [written] and no line that is left to read agrees to an
    export. *)
Definition no_yes_ahead (written : list (fstring * file)) (w : world)
  : Prop :=
  files w = written /\ Forall (fun line => says_yes line = false) (stdin w).

(** A line the selection prompt turns down when [n_users] users are listed:
    not the quit signal, and not an integer from 1 to [n_users]. *)
Definition rejected (max_digits n_users : nat) (line : str) : bool :=
  negb (str_eqb (py_lower (py_strip line)) (u "q"))
  && match py_int max_digits (py_strip line) with
     | Some n => negb ((1 <=? n) && (n <=? Z.of_nat n_users))%Z
     | None => true
     end.

(** What the terminal shows for a line turned down: the prompt, and the
    message for a number out of range or for what is no number. *)
Definition rejection (max_digits n_users : nat) (line : str) : list out_item :=
  [select_prompt;
   match py_int max_digits (py_strip line) with
   | Some _ =>
     Print [T "Please enter a number between 1 and "; Fmt (nat_val n_users)]
   | None => Print [T "Please enter a valid number or 'q' to quit"]
   end].

(** What [run] shows when it starts, and at each turn of its menu. *)
Definition banner : list out_item :=
  [Print [T "ğŸš€ GitHub Repository Fetcher"];
   Print [py_repeat "=" 50];
   Print [T "âœ… Using authenticated requests (5000 requests/hour)"]].

Definition menu : list out_item :=
  [Print [NT "Options:"];
   Print [T "1. Search for GitHub user"];
   Print [T "2. Exit"];
   Prompt [NT "Enter your choice (1-2): "]].

(** A menu choice that is neither 1 nor 2. *)
Definition other_choice (line : str) : bool :=
  negb (str_eqb (py_strip line) (u "1"))
  && negb (str_eqb (py_strip line) (u "2")).

Definition invalid_choice : out_item :=
  Print [T "Invalid choice. Please try again."].

(** A search that finds nobody: the request fails, or the answer is an object
    whose "items" are missing or empty. *)
Definition finds_nobody (server : request -> response) (r : request) : Prop :=
  request_error server r <> None
  \/ exists status d lks,
       server r = Response status (Some (PDict d)) lks
       /\ ok_status status = true
       /\ truthy (match dict_lookup d (u "items") with
                  | Some users => users
                  | None => PList []
                  end) = false.

(** The language requests of a listing: one per repository, in order. *)
Definition language_requests (token : option str) (username : pyval)
  (repos : list pyval) : list request :=
  map (fun repo => languages_request token username (field repo "name")) repos.

(** A search endpoint that is down. *)
Definition search_down (_ : request) : response := Response 502 None [].

(** A disk on which no path opens. *)
Definition read_only_disk (_ : fstring) : option exn := Some OSError.

(** ** Paginated listing *)

Section Listing.

Variable server : request -> response.
Variable token : option str.
Variable username : pyval.

Lemma after_nothing (w : world) : after w [] 0 [] = w.
Proof.
  destruct w; unfold after; simpl.
  now rewrite !app_nil_r, Nat.add_0_r.
Qed.

Lemma after_after (w : world) rs1 n1 o1 rs2 n2 o2 :
  after (after w rs1 n1 o1) rs2 n2 o2
  = after w (rs1 ++ rs2) (n1 + n2) (o1 ++ o2).
Proof.
  unfold after; simpl. now rewrite !app_assoc, Nat.add_assoc.
Qed.

(** A turn on a non-empty page that carries a 'next' link. *)
Lemma repos_page_more (k : Z) (items acc : list pyval) (w : world) :
  serves_page server token username k items true ->
  items <> [] ->
  repos_page server token username k acc w
  = (Ok (true, acc ++ items),
     after w [repos_request token username k] 1 []).
Proof.
  intros (status & lks & Hs & Hok & Hn) Hne.
  unfold repos_page, try_except, bind, requests_get, raise_for_status.
  rewrite Hs. unfold ok_status in Hok.
  destruct ((400 <=? status) && (status <? 600))%Z; [discriminate|].
  unfold has_next in Hn.
  destruct items as [|x items]; [contradiction|].
  cbn [ret response_json truthy negb lift py_iter]. rewrite Hn.
  cbn. unfold after. cbn. now rewrite app_nil_r, Nat.add_1_r.
Qed.

(** A turn on the page the loop breaks on: an empty page, whatever its links,
    or a page without a 'next' link. *)
Lemma repos_page_last (k : Z) (items acc : list pyval) (more : bool)
  (w : world) :
  serves_page server token username k items more ->
  items = [] \/ more = false ->
  repos_page server token username k acc w
  = (Ok (false, acc ++ items),
     after w [repos_request token username k] 0 []).
Proof.
  intros (status & lks & Hs & Hok & Hn) Hlast.
  unfold repos_page, try_except, bind, requests_get, raise_for_status.
  rewrite Hs. unfold ok_status in Hok.
  destruct ((400 <=? status) && (status <? 600))%Z; [discriminate|].
  unfold has_next in Hn.
  destruct items as [|x items].
  - cbn. unfold after. cbn. now rewrite !app_nil_r, Nat.add_0_r.
  - destruct Hlast as [Hl | Hl]; [discriminate | rewrite Hl in Hn].
    cbn [ret response_json truthy negb lift py_iter]. rewrite Hn.
    cbn. unfold after. cbn. now rewrite !app_nil_r, Nat.add_0_r.
Qed.

(** A turn whose request fails: the handler reports and breaks. *)
Lemma repos_page_fails (k : Z) (acc : list pyval) (w : world) :
  request_fails server (repos_request token username k) ->
  exists e,
    repos_page server token username k acc w
    = (Ok (false, acc),
       after w [repos_request token username k] 0
             [Print [T "Error fetching repositories: ";
                     FmtExn (RequestException e)]]).
Proof.
  intros [Hs | (status & body & lks & Hs & Hbad)];
    unfold repos_page, try_except, bind, requests_get, raise_for_status;
    rewrite Hs.
  - exists Transport. cbn. unfold after. cbn. now rewrite Nat.add_0_r.
  - exists (HTTPError status). unfold ok_status in Hbad.
    destruct ((400 <=? status) && (status <? 600))%Z; [|discriminate].
    cbn. unfold after. cbn. now rewrite Nat.add_0_r.
Qed.

Lemma page_numbers_S (k : Z) (n : nat) :
  page_numbers k (S n) = k :: page_numbers (k + 1) n.
Proof.
  unfold page_numbers. cbn [seq map]. f_equal; [lia|].
  rewrite <- seq_shift, map_map. apply map_ext. intros i. lia.
Qed.

(** The turns on pages that are non-empty and carry a 'next' link. *)
Lemma repos_loop_pages (pages : list (list pyval)) :
  forall (fuel : nat) (k : Z) (acc : list pyval) (w : world),
    serves_pages server token username k pages ->
    repos_loop server token (length pages + fuel) username k acc w
    = repos_loop server token fuel username (k + Z.of_nat (length pages))
        (acc ++ concat pages)
        (after w (map (repos_request token username)
                      (page_numbers k (length pages)))
               (length pages) []).
Proof.
  induction pages as [|items pages IH]; intros fuel k acc w Hp.
  - cbn. now rewrite Z.add_0_r, app_nil_r, after_nothing.
  - destruct Hp as (Hne & Hs & Hp).
    cbn [length Nat.add repos_loop]. unfold bind at 1.
    rewrite (repos_page_more k items acc w Hs Hne).
    rewrite (IH fuel (k + 1)%Z (acc ++ items) _ Hp).
    rewrite after_after, page_numbers_S. cbn [concat map app Nat.add].
    rewrite <- app_assoc. f_equal. lia.
Qed.

Lemma page_numbers_snoc (k : Z) (n : nat) :
  page_numbers k (S n) = page_numbers k n ++ [(k + Z.of_nat n)%Z].
Proof.
  unfold page_numbers. now rewrite seq_S, map_app.
Qed.

(** C1.  When pages 1..N-1 are non-empty and carry a 'next' link, and page N
    carries no 'next' link (or is empty, whatever its links: the empty-page
    test comes first), [get_user_repos] requests pages 1..N once each, in
    order, with page size 100 sorted by update time, pauses between pages,
    prints nothing, and returns the concatenation of pages 1..N in the order
    the API gave them.  Any bound of at least N pages is enough. *)
Theorem get_user_repos_all_pages (earlier : list (list pyval))
  (last : list pyval) (more : bool) (fuel : nat) (w : world) :
  serves_pages server token username 1 earlier ->
  serves_page server token username (1 + Z.of_nat (length earlier)) last more ->
  last = [] \/ more = false ->
  (length earlier < fuel)%nat ->
  get_user_repos server token fuel username w
  = (Ok (concat (earlier ++ [last])),
     after w (map (repos_request token username)
                  (page_numbers 1 (S (length earlier))))
           (length earlier) [])
  /\ forall k : Z,
       params (repos_request token username k)
       = [(u "per_page", PInt 100); (u "sort", PStr (u "updated"));
          (u "page", PInt k)].
Proof.
  intros Hearlier Hlast Hstop Hfuel. split; [|reflexivity].
  unfold get_user_repos.
  replace fuel with (length earlier + S (fuel - S (length earlier)))%nat by lia.
  rewrite (repos_loop_pages earlier _ 1%Z [] w Hearlier).
  cbn [repos_loop]. unfold bind at 1.
  rewrite (repos_page_last _ last _ more _ Hlast Hstop).
  cbn [ret app]. rewrite after_after, page_numbers_snoc, map_app, concat_app.
  cbn [concat map app]. now rewrite app_nil_r, Nat.add_0_r.
Qed.

(** C2.  When pages 1..K-1 are non-empty and carry a 'next' link and the
    request for page K fails with a transport or HTTP error, [get_user_repos]
    reports the error on the terminal and returns (it does not raise) the
    concatenation of pages 1..K-1, the empty list when K = 1. *)
Theorem get_user_repos_partial (earlier : list (list pyval)) (fuel : nat)
  (w : world) :
  serves_pages server token username 1 earlier ->
  request_fails server
    (repos_request token username (1 + Z.of_nat (length earlier))) ->
  (length earlier < fuel)%nat ->
  exists e : req_error,
    get_user_repos server token fuel username w
    = (Ok (concat earlier),
       after w (map (repos_request token username)
                    (page_numbers 1 (S (length earlier))))
             (length earlier)
             [Print [T "Error fetching repositories: ";
                     FmtExn (RequestException e)]]).
Proof.
  intros Hearlier Hfail Hfuel.
  destruct (repos_page_fails _ (concat earlier)
              (after w (map (repos_request token username)
                            (page_numbers 1 (length earlier)))
                     (length earlier) []) Hfail) as [e He].
  exists e. unfold get_user_repos.
  replace fuel with (length earlier + S (fuel - S (length earlier)))%nat by lia.
  rewrite (repos_loop_pages earlier _ 1%Z [] w Hearlier).
  cbn [repos_loop app]. unfold bind at 1. rewrite He.
  cbn [ret]. rewrite after_after, page_numbers_snoc, map_app.
  cbn [map app]. now rewrite Nat.add_0_r.
Qed.

End Listing.

(** The two-page listing is returned whole. *)
Lemma get_user_repos_all_pages_witness :
  get_user_repos two_pages None 5 octocat quiet
  = (Ok [repo_named "hello"; repo_named "world"; repo_named "spoon"],
     after quiet [repos_request None octocat 1; repos_request None octocat 2]
           1 []).
Proof.
  apply (get_user_repos_all_pages two_pages None octocat
           [[repo_named "hello"; repo_named "world"]] [repo_named "spoon"]
           false 5 quiet).
  - cbn. repeat split; try discriminate.
    exists 200%Z, [u "next"; u "last"]. repeat split.
  - exists 200%Z, [u "prev"; u "first"]. repeat split.
  - right. reflexivity.
  - cbn. lia.
Defined.

(** With the second page down, the first page is what the caller gets. *)
Lemma get_user_repos_partial_witness :
  exists e : req_error,
    get_user_repos second_page_down None 5 octocat quiet
    = (Ok [repo_named "hello"; repo_named "world"],
       after quiet [repos_request None octocat 1; repos_request None octocat 2]
             1 [Print [T "Error fetching repositories: ";
                       FmtExn (RequestException e)]]).
Proof.
  apply (get_user_repos_partial second_page_down None octocat
           [[repo_named "hello"; repo_named "world"]] 5 quiet).
  - cbn. repeat split; try discriminate.
    exists 200%Z, [u "next"; u "last"]. repeat split.
  - right. exists 503%Z, None, []. split; reflexivity.
  - cbn. lia.
Defined.

(** ** Search and language fetch *)

Section Search.

Variable server : request -> response.
Variable token : option str.

(** C10.  A search answered with a 2xx status and a JSON object without an
    "items" key makes [search_users] return the empty list (it does not
    raise) with nothing printed, as for a search that matched nobody. *)
Theorem search_users_no_items (query : str) (status : Z)
  (d : list (str * pyval)) (lks : list str) (w : world) :
  server (search_request token query) = Response status (Some (PDict d)) lks ->
  (200 <= status < 300)%Z ->
  dict_lookup d (u "items") = None ->
  search_users server token query w
  = (Ok (PList []), after w [search_request token query] 0 []).
Proof.
  intros Hs Hstatus Hitems.
  unfold search_users, try_except, bind, requests_get, raise_for_status.
  rewrite Hs.
  replace ((400 <=? status) && (status <? 600))%Z with false
    by (symmetry; apply andb_false_iff; left; lia).
  unfold response_json, decoded, ret, lift, py_get. rewrite Hitems.
  unfold after. cbn. now rewrite app_nil_r, Nat.add_0_r.
Qed.

(** A language endpoint answering with a JSON mapping: its keys, in the order
    of the mapping, whatever the values. *)
Lemma get_repo_languages_keys (username repo_name : pyval) (status : Z)
  (d : list (str * pyval)) (lks : list str) (w : world) :
  server (languages_request token username repo_name)
  = Response status (Some (PDict d)) lks ->
  ok_status status = true ->
  get_repo_languages server token username repo_name w
  = (Ok (map fst d),
     after w [languages_request token username repo_name] 0 []).
Proof.
  intros Hs Hok.
  unfold get_repo_languages, try_except, bind, requests_get, raise_for_status.
  rewrite Hs. unfold ok_status in Hok.
  destruct ((400 <=? status) && (status <? 600))%Z; [discriminate|].
  cbn. unfold after. cbn. now rewrite app_nil_r, Nat.add_0_r.
Qed.

Lemma get_repo_languages_failed (username repo_name : pyval) (e : req_error)
  (w : world) :
  request_error server (languages_request token username repo_name)
  = Some e ->
  get_repo_languages server token username repo_name w
  = (Ok [],
     after w [languages_request token username repo_name] 0
           [Print [T "Error fetching languages for "; Fmt repo_name; T ": ";
                   FmtExn (RequestException e)]]).
Proof.
  unfold request_error, get_repo_languages, try_except, bind, requests_get,
    raise_for_status, ok_status.
  destruct (server _) as [|status body lks|status e' lks].
  - intros [= <-]. cbn. unfold after. cbn. now rewrite Nat.add_0_r.
  - destruct ((400 <=? status) && (status <? 600))%Z; cbn.
    + intros [= <-]. unfold after. cbn. now rewrite Nat.add_0_r.
    + destruct body; [discriminate|]. intros [= <-].
      cbn. unfold after. cbn. now rewrite Nat.add_0_r.
  - destruct ((400 <=? status) && (status <? 600))%Z; cbn.
    + intros [= <-]. unfold after. cbn. now rewrite Nat.add_0_r.
    + destruct e'; try discriminate. intros [= <-].
      cbn. unfold after. cbn. now rewrite Nat.add_0_r.
Qed.

End Search.

Lemma search_users_no_items_witness :
  search_users search_without_items None (u "octocat") quiet
  = (Ok (PList []), after quiet [search_request None (u "octocat")] 0 []).
Proof.
  apply (search_users_no_items search_without_items None (u "octocat") 200
           [(u "message", PStr (u "nothing here"))] [] quiet).
  - reflexivity.
  - lia.
  - reflexivity.
Defined.

(** ** Selection *)

Ltac same_world :=
  unfold after, on_terminal, print, ret; cbn;
  rewrite ?app_nil_r, ?Nat.add_0_r, <- ?app_assoc; reflexivity.

Section Selection.

Variable max_digits : nat.

(** Showing a candidate user only prints. *)
Lemma show_user_candidate (i : nat) (user : pyval) (w : world) :
  candidate_user user = true ->
  show_user i user w
  = (Ok tt, after w [] 0 (stdout (snd (show_user i user quiet)))).
Proof.
  destruct user as [| | | | |d]; try discriminate.
  unfold candidate_user, show_user, bind, lift, py_item, py_get.
  destruct (dict_lookup d (u "login")) as [login|]; [|discriminate].
  destruct (dict_lookup d (u "name")) as [name|];
    destruct (dict_lookup d (u "followers")) as [followers|];
    destruct (dict_lookup d (u "public_repos")) as [public_repos|];
    destruct (dict_lookup d (u "bio")) as [[|b|z|s|l|d']|];
    intros Hbio; cbn in Hbio; try discriminate;
    try (apply negb_true_iff in Hbio);
    cbn [truthy print ret fst snd py_prefix];
    rewrite ?Hbio;
    try (destruct s); try (destruct l); same_world.
Qed.

Lemma for_enumerate_candidates (us : list pyval) :
  Forall (fun user => candidate_user user = true) us ->
  forall (i : nat) (w : world),
    for_enumerate show_user i us w
    = (Ok tt,
       after w [] 0 (stdout (snd (for_enumerate show_user i us quiet)))).
Proof.
  induction 1 as [|user us Huser _ IH]; intros i w.
  - cbn. now rewrite after_nothing.
  - cbn [for_enumerate]. unfold bind.
    rewrite (show_user_candidate i user w Huser).
    rewrite (show_user_candidate i user quiet Huser).
    rewrite IH. rewrite (IH (S i) (after quiet _ _ _)).
    rewrite after_after. unfold after, quiet.
    cbn [snd fst stdout stdin sent naps files app Nat.add]. reflexivity.
Qed.

(** The listing of candidate users only prints; what it prints does not
    depend on the terminal it is printed on. *)
Lemma list_users_candidates (us : list pyval) (w : world) :
  Forall (fun user => candidate_user user = true) us ->
  list_users (PList us) w = (Ok tt, after w [] 0 (listing (PList us))).
Proof.
  intros Hus. unfold listing, list_users, bind, print, lift, py_iter.
  cbn [fst snd stdin stdout sent naps files].
  rewrite (for_enumerate_candidates us Hus 1 (mkWorld (stdin w) _ _ _ _)).
  rewrite (for_enumerate_candidates us Hus 1 (mkWorld [] _ _ _ _)).
  unfold after. cbn. now rewrite !app_nil_r, Nat.add_0_r, <- !app_assoc.
Qed.

Lemma str_eqb_eq (a b : str) : str_eqb a b = true <-> a = b.
Proof.
  revert b. induction a as [|x a IH]; destruct b as [|y b]; cbn;
    try (split; [discriminate|intros [=]]); [tauto|].
  rewrite andb_true_iff, N.eqb_eq, IH. split; [intros [-> ->]|intros [= -> ->]]; auto.
Qed.

Lemma str_eqb_refl (a : str) : str_eqb a a = true.
Proof. now apply str_eqb_eq. Qed.

(** A line [int()] reads as a number is not the quit signal. *)
Lemma py_int_not_quit (s : str) (n : Z) :
  py_int max_digits s = Some n -> str_eqb (py_lower s) (u "q") = false.
Proof.
  intros Hint. destruct (str_eqb (py_lower s) (u "q")) eqn:Hq; [|reflexivity].
  apply str_eqb_eq in Hq. destruct s as [|c [|c' s]]; try discriminate.
  cbn in Hq. injection Hq as Hc. unfold lower_char in Hc.
  destruct ((0x41 <=? c) && (c <=? 0x5A))%N.
  - assert (c = 0x51%N) as -> by lia. discriminate.
  - subst c. discriminate.
Qed.

Section Turn.

Variable users : pyval.
Variable line : str.
Variable rest : list str.
Variable w : world.
Hypothesis Hline : stdin w = line :: rest.

Lemma select_turn_quit :
  str_eqb (py_lower (py_strip line)) (u "q") = true ->
  select_turn max_digits users w
  = (Ok (Some PNone), on_terminal w rest [select_prompt]).
Proof.
  intros Hq. unfold select_turn, try_except, bind, input.
  rewrite Hline, Hq. reflexivity.
Qed.

Lemma select_turn_invalid :
  str_eqb (py_lower (py_strip line)) (u "q") = false ->
  py_int max_digits (py_strip line) = None ->
  select_turn max_digits users w
  = (Ok None,
     on_terminal w rest
       [select_prompt; Print [T "Please enter a valid number or 'q' to quit"]]).
Proof.
  intros Hq Hint. unfold select_turn, try_except, bind, input.
  rewrite Hline, Hq, Hint. same_world.
Qed.

Lemma select_turn_out_of_range (n : Z) (len : nat) :
  py_int max_digits (py_strip line) = Some n ->
  py_len users = Ok len ->
  ~ (1 <= n <= Z.of_nat len)%Z ->
  select_turn max_digits users w
  = (Ok None,
     on_terminal w rest
       [select_prompt;
        Print [T "Please enter a number between 1 and "; Fmt (nat_val len)]]).
Proof.
  intros Hint Hlen Hrange. unfold select_turn, try_except, bind, input.
  rewrite Hline, (py_int_not_quit _ _ Hint), Hint. unfold lift. rewrite Hlen.
  replace ((1 <=? n) && (n <=? Z.of_nat len))%Z with false
    by (symmetry; apply andb_false_iff; lia).
  same_world.
Qed.

Lemma select_turn_in_range (n : Z) (len : nat) (user login : pyval) :
  py_int max_digits (py_strip line) = Some n ->
  py_len users = Ok len ->
  (1 <= n <= Z.of_nat len)%Z ->
  py_index users (Z.to_nat (n - 1)) = Ok user ->
  py_item user (u "login") = Ok login ->
  select_turn max_digits users w
  = (Ok (Some login), on_terminal w rest [select_prompt]).
Proof.
  intros Hint Hlen Hrange Huser Hlogin.
  unfold select_turn, try_except, bind, input.
  rewrite Hline, (py_int_not_quit _ _ Hint), Hint. unfold lift.
  rewrite Hlen.
  replace ((1 <=? n) && (n <=? Z.of_nat len))%Z with true
    by (symmetry; apply andb_true_iff; lia).
  rewrite Huser, Hlogin. reflexivity.
Qed.

(** After a turn that goes round, the loop is the prompt loop on the lines
    that are left. *)
Lemma prompt_loop_again (shown : list out_item) :
  select_turn max_digits users w = (Ok None, on_terminal w rest shown) ->
  prompt_loop max_digits users w
  = prompt_loop max_digits users (on_terminal w rest shown).
Proof.
  intros Hturn. unfold prompt_loop at 1. rewrite Hline.
  cbn [length select_loop]. unfold bind at 1. now rewrite Hturn.
Qed.

Lemma prompt_loop_return (v : pyval) (shown : list out_item) :
  select_turn max_digits users w = (Ok (Some v), on_terminal w rest shown) ->
  prompt_loop max_digits users w = (Ok v, on_terminal w rest shown).
Proof.
  intros Hturn. unfold prompt_loop. rewrite Hline.
  cbn [length select_loop]. unfold bind at 1. now rewrite Hturn.
Qed.

End Turn.

Lemma on_terminal_after (w : world) (rest : list str)
  (shown shown' : list out_item) :
  on_terminal (after w [] 0 shown) rest shown'
  = on_terminal w rest (shown ++ shown').
Proof.
  unfold on_terminal, after. cbn.
  now rewrite app_nil_r, Nat.add_0_r, app_assoc.
Qed.

Lemma py_int_zero : py_int max_digits (py_strip (u "0")) = Some 0%Z.
Proof.
  cbn. unfold int_unsigned. cbn. now destruct max_digits as [|[|n]].
Qed.

End Selection.

(** ** Search flow *)

Lemma lstrip_blank (s : str) : forallb is_space s = true -> lstrip s = [].
Proof.
  induction s as [|c s IH]; [reflexivity|]. cbn [forallb lstrip].
  intros [Hc Hs]%andb_true_iff. rewrite Hc. auto.
Qed.

Lemma py_strip_blank (s : str) : forallb is_space s = true -> py_strip s = [].
Proof.
  intros Hs. unfold py_strip. now rewrite (lstrip_blank s Hs).
Qed.

(** C7.  When the line typed as the query holds nothing but whitespace (or
    nothing at all), [search_and_display] tells the user to enter a query
    and returns: no request is sent and no result is shown. *)
Theorem search_and_display_blank_query (server : request -> response)
  (token : option str) (max_digits : nat) (now : str)
  (open_error : fstring -> option exn) (fuel : nat) (line : str) (rest : list str)
  (w : world) :
  stdin w = line :: rest ->
  forallb is_space line = true ->
  search_and_display server token max_digits now open_error fuel w
  = (Ok tt,
     on_terminal w rest
       [Prompt [NT "Enter GitHub username or name to search: "];
        Print [T "Please enter a search query."]])
  /\ sent (snd (search_and_display server token max_digits now open_error
                                   fuel w))
     = sent w.
Proof.
  intros Hline Hblank.
  assert (H : search_and_display server token max_digits now open_error fuel w
              = (Ok tt,
                 on_terminal w rest
                   [Prompt [NT "Enter GitHub username or name to search: "];
                    Print [T "Please enter a search query."]])).
  { unfold search_and_display, bind at 1, input. rewrite Hline.
    rewrite (py_strip_blank line Hblank). same_world. }
  rewrite H. split; reflexivity.
Qed.

(** A query of four kinds of whitespace, on a server that would answer. *)
Lemma search_and_display_blank_query_witness :
  search_and_display two_pages None 4300 sample_time
    every_path_opens 5 (typing [blank_line; u "2"])
  = (Ok tt,
     on_terminal (typing [blank_line; u "2"]) [u "2"]
       [Prompt [NT "Enter GitHub username or name to search: "];
        Print [T "Please enter a search query."]])
  /\ sent (snd (search_and_display two_pages None 4300
                  sample_time every_path_opens 5
                  (typing [blank_line; u "2"])))
     = sent (typing [blank_line; u "2"]).
Proof.
  apply (search_and_display_blank_query two_pages None 4300
           sample_time every_path_opens 5 (blank_line) [u "2"]
           (typing [blank_line; u "2"])).
  - reflexivity.
  - reflexivity.
Defined.

(** ** Display *)

(** Fields that are absent get their defaults. *)
Lemma display_repos_absent_fields :
  display_repos go_and_shell None [bare_repo] octocat quiet
  = (Ok tt,
     after quiet [languages_request None octocat (PStr (u "demo"))] 0
       [Print [NT "ğŸ“‚ Repositories for "; Fmt octocat; T " (";
               Fmt (PInt 1); T " found)"];
        Print [py_repeat "=" 80];
        Print [Lit [0x0A%N]; Fmt (PInt 1); T ". "; Fmt (PStr (u "demo"))];
        Print [T "   ğŸ“– Description: "; Fmt (PStr (u "No description"))];
        Print [T "   ğŸŒŸ Stars: "; Fmt (PInt 0)];
        Print [T "   ğŸ´ Forks: "; Fmt (PInt 0)];
        Print [T "   ğŸ“… Updated: "; Fmt (PStr (u "N/A"))];
        Print [T "   ğŸ”— URL: "; Fmt (PStr (u "N/A"))];
        Print [T "   ğŸ’» Technologies: "; Fmt (PStr (u "Go, Shell"))];
        Print [py_repeat "-" 60]]).
Proof. reflexivity. Qed.

(** C8 (fails on the code).  A field the API supplies with an explicit null
    does not get its default: a null description is shown as [None], not as
    "No description", and a null update time makes [display_repos] raise
    [TypeError] when it cuts the value to ten characters. *)
Theorem display_repos_explicit_null :
  let shown :=
    stdout (snd (display_repos go_and_shell None [null_description_repo]
                               octocat quiet)) in
  In (Print [T "   ğŸ“– Description: "; Fmt PNone]) shown
  /\ ~ In (Print [T "   ğŸ“– Description: "; Fmt (PStr (u "No description"))])
          shown
  /\ fst (display_repos go_and_shell None [null_updated_repo] octocat quiet)
     = Raise TypeError.
Proof.
  split; [|split].
  - vm_compute. tauto.
  - vm_compute. intuition discriminate.
  - reflexivity.
Qed.

(** ** Reading back what [json.dumps] writes *)

Lemma skip_ws_indent (level : nat) (s : str) :
  skip_ws (newline_indent level ++ s) = skip_ws s.
Proof.
  unfold newline_indent. cbn [app skip_ws json_space N.eqb orb].
  induction (2 * level)%nat as [|n IH]; [reflexivity|exact IH].
Qed.

Lemma hex_value_digit (n : N) :
  (n < 16)%N -> hex_value (hex_digit n) = Some n.
Proof.
  intros Hn. destruct n as [|p]; [reflexivity|].
  do 5 (try (destruct p as [p|p|]; try reflexivity; try lia)).
Qed.

Lemma hex4_control (c : N) :
  (c < 0x20)%N ->
  hex4 0x30 0x30 (hex_digit (c / 16)) (hex_digit (c mod 16)) = Some c.
Proof.
  intros Hc. unfold hex4.
  rewrite (hex_value_digit (c / 16)), (hex_value_digit (c mod 16)).
  - cbn [hex_value N.leb N.compare Pos.compare Pos.compare_cont andb N.sub].
    change (hex_value 48) with (Some 0%N). cbn. f_equal.
    pose proof (N.div_mod c 16 ltac:(discriminate)). lia.
  - apply N.mod_lt. discriminate.
  - apply N.Div0.div_lt_upper_bound. lia.
Qed.

(** One character of a string, as the encoder writes it, reads back as
    itself. *)
Lemma scan_string_escape (c : N) (tail : str) :
  scan_string (json_escape c ++ tail) = push c (scan_string tail).
Proof.
  unfold json_escape.
  destruct (c =? 0x22)%N eqn:E1; [apply N.eqb_eq in E1; now subst|].
  destruct (c =? 0x5C)%N eqn:E2; [apply N.eqb_eq in E2; now subst|].
  destruct (c =? 0x0A)%N eqn:E3; [apply N.eqb_eq in E3; now subst|].
  destruct (c =? 0x0D)%N eqn:E4; [apply N.eqb_eq in E4; now subst|].
  destruct (c =? 0x09)%N eqn:E5; [apply N.eqb_eq in E5; now subst|].
  destruct (c =? 0x08)%N eqn:E6; [apply N.eqb_eq in E6; now subst|].
  destruct (c =? 0x0C)%N eqn:E7; [apply N.eqb_eq in E7; now subst|].
  destruct (c <? 0x20)%N eqn:E8.
  - apply N.ltb_lt in E8.
    cbn [app scan_string N.eqb Pos.eqb].
    rewrite (hex4_control c E8).
    replace ((0xD800 <=? c) && (c <=? 0xDBFF))%N with false; [reflexivity|].
    symmetry. apply andb_false_iff. left. apply N.leb_gt. lia.
  - cbn [app scan_string]. now rewrite E1, E2, E8.
Qed.

Lemma scan_string_encoded (s : str) (rest : str) :
  scan_string (flat_map json_escape s ++ 0x22%N :: rest) = Some (s, rest).
Proof.
  induction s as [|c s IH]; [reflexivity|].
  cbn [flat_map]. rewrite <- app_assoc, scan_string_escape, IH. reflexivity.
Qed.

Lemma scan_digits_uint (d : Decimal.uint) (rest : str) :
  number_ends rest = true ->
  forall (acc : positive) (n : nat),
    scan_digits (uint_chars d ++ rest) (Z.pos acc) n
    = (Z.pos (Pos.of_uint_acc d acc), (n + length (uint_chars d))%nat, rest).
Proof.
  intros Hrest.
  induction d as [|d IH|d IH|d IH|d IH|d IH|d IH|d IH|d IH|d IH|d IH];
    intros acc n;
    try (cbn [uint_chars app scan_digits is_digit N.leb N.compare Pos.compare
              Pos.compare_cont andb length Pos.of_uint_acc];
         match goal with
         | |- scan_digits _ ?z _ = (Z.pos (Pos.of_uint_acc _ ?p), _, _) =>
           replace z with (Z.pos p)
             by (match goal with
                 | |- context [Z.of_N ?e] =>
                   let v := eval vm_compute in (Z.of_N e) in
                   change (Z.of_N e) with v
                 end; lia)
         end;
         rewrite IH; f_equal; f_equal; lia).
  cbn [uint_chars app length Pos.of_uint_acc]. rewrite Nat.add_0_r.
  destruct rest as [|c rest]; [reflexivity|].
  cbn [scan_digits]. unfold number_ends in Hrest.
  destruct (is_digit c); [discriminate|reflexivity].
Qed.

Lemma float_follows_ends (rest : str) :
  number_ends rest = true -> float_follows rest = false.
Proof.
  destruct rest as [|c [|d rest]]; try reflexivity.
  unfold number_ends, float_follows.
  destruct (is_digit c), (c =? 0x2E)%N, (c =? 0x65)%N, (c =? 0x45)%N;
    try discriminate; reflexivity.
Qed.

(** The numeral of a positive number has no leading zero. *)
Lemma to_uint_head (p : positive) :
  match Pos.to_uint p with
  | Decimal.Nil | Decimal.D0 _ => False
  | _ => True
  end.
Proof.
  pose proof (DecimalPos.Unsigned.to_of (Pos.to_uint p)) as Hnorm.
  rewrite DecimalPos.Unsigned.of_to in Hnorm. cbn [N.to_uint] in Hnorm.
  destruct (Pos.to_uint p) as [|d| | | | | | | | |] eqn:E; try exact I.
  - now apply (DecimalPos.Unsigned.to_uint_nonnil p).
  - rewrite DecimalFacts.unorm_D0 in Hnorm.
    assert (Hcases : Decimal.nzhead d = Decimal.Nil
                     \/ Decimal.nzhead d <> Decimal.Nil)
      by (destruct (Decimal.nzhead d); (left; reflexivity) || (right; discriminate)).
    destruct Hcases as [Hd | Hd].
    + assert (Hz : Decimal.unorm d = Decimal.zero)
        by now apply DecimalFacts.unorm_0.
      rewrite Hz in Hnorm. apply (DecimalPos.Unsigned.to_uint_nonzero p).
      now rewrite E, Hnorm.
    + rewrite DecimalFacts.unorm_nzhead in Hnorm by exact Hd.
      symmetry in Hnorm. now apply DecimalFacts.nzhead_nonzero in Hnorm.
Qed.

Lemma scan_number_numeral (max_digits : nat) (p : positive) (negative : bool)
  (rest : str) :
  digits_allowed max_digits (length (uint_chars (Pos.to_uint p))) = true ->
  number_ends rest = true ->
  scan_number max_digits
    ((if negative then [0x2D%N] else []) ++ uint_chars (Pos.to_uint p) ++ rest)
  = Some (PInt (if negative then Z.neg p else Z.pos p), rest).
Proof.
  intros Hdigits Hrest.
  pose proof (to_uint_head p) as Hhead.
  pose proof (DecimalPos.Unsigned.of_to p) as Hval.
  destruct (Pos.to_uint p) as [|d|d|d|d|d|d|d|d|d|d] eqn:E;
    try contradiction;
    cbn [Pos.of_uint] in Hval; injection Hval as Hval;
    cbn [uint_chars length] in Hdigits;
    destruct negative;
    cbn [app uint_chars scan_number N.eqb Pos.eqb is_digit N.leb N.compare
         Pos.compare Pos.compare_cont andb];
    match goal with
    | |- context [scan_digits _ (Z.of_N ?e) _] =>
      let v := eval vm_compute in (Z.of_N e) in
      change (Z.of_N e) with v
    end;
    rewrite (scan_digits_uint d rest Hrest);
    rewrite (float_follows_ends rest Hrest);
    cbn [Nat.add]; rewrite Hdigits, Hval; reflexivity.
Qed.

(** An integer, as the encoder writes it, reads back as itself when its
    digits are within the limit and the text after it does not go on with
    the number. *)
Lemma scan_number_int (max_digits : nat) (z : Z) (rest : str) :
  digits_allowed max_digits (int_digits_count z) = true ->
  number_ends rest = true ->
  scan_number max_digits (json_int z ++ rest) = Some (PInt z, rest).
Proof.
  intros Hdigits Hrest. destruct z as [|p|p].
  - change (json_int 0) with [0x30%N]. cbn [app]. unfold scan_number.
    cbn [N.eqb Pos.eqb is_digit N.leb N.compare Pos.compare Pos.compare_cont
         andb].
    rewrite (float_follows_ends rest Hrest).
    change (int_digits_count 0) with 1%nat in Hdigits. now rewrite Hdigits.
  - exact (scan_number_numeral max_digits p false rest Hdigits Hrest).
  - exact (scan_number_numeral max_digits p true rest Hdigits Hrest).
Qed.

(** Induction over values, with the property known of the elements of a list
    and of the values of a dict. *)
Lemma pyval_induction (P : pyval -> Prop) :
  P PNone ->
  (forall b, P (PBool b)) ->
  (forall z, P (PInt z)) ->
  (forall s, P (PStr s)) ->
  (forall l, Forall P l -> P (PList l)) ->
  (forall d, Forall (fun kx => P (snd kx)) d -> P (PDict d)) ->
  forall v, P v.
Proof.
  intros HNone HBool HInt HStr HList HDict.
  fix IH 1. intros [| b | z | s | l | d].
  - exact HNone.
  - apply HBool.
  - apply HInt.
  - apply HStr.
  - apply HList. induction l as [|x l IHl]; constructor; [apply IH | exact IHl].
  - apply HDict. induction d as [|[k x] d IHd]; constructor;
      [apply IH | exact IHd].
Qed.

Lemma json_encode_list (level : nat) (x : pyval) (xs : list pyval) :
  json_encode level (PList (x :: xs))
  = 0x5B%N :: newline_indent (S level) ++ json_encode (S level) x
    ++ encode_items level xs ++ newline_indent level ++ [0x5D%N].
Proof. reflexivity. Qed.

Lemma json_encode_dict (level : nat) (k : str) (x : pyval)
  (kxs : list (str * pyval)) :
  json_encode level (PDict ((k, x) :: kxs))
  = 0x7B%N :: newline_indent (S level) ++ json_string k ++ u ": "
    ++ json_encode (S level) x ++ encode_members level kxs
    ++ newline_indent level ++ [0x7D%N].
Proof. reflexivity. Qed.

Lemma json_size_list (l : list pyval) :
  json_size (PList l) = S (items_size l).
Proof.
  cbn [json_size]. f_equal.
Qed.

Lemma json_size_dict (d : list (str * pyval)) :
  json_size (PDict d) = S (members_size d).
Proof.
  cbn [json_size]. f_equal. unfold members_size.
  induction d as [|[k x] d IH]; [reflexivity|].
  cbn [fold_right snd]. now rewrite IH.
Qed.

Lemma is_value_list (l : list pyval) :
  is_value (PList l) = forallb is_value l.
Proof.
  cbn [is_value]. induction l as [|x l IH]; [reflexivity|].
  cbn [forallb]. now rewrite IH.
Qed.

Lemma is_value_dict (d : list (str * pyval)) :
  is_value (PDict d)
  = distinct (map fst d) && forallb (fun kx => is_value (snd kx)) d.
Proof.
  cbn [is_value]. f_equal. induction d as [|[k x] d IH]; [reflexivity|].
  cbn [forallb snd]. now rewrite IH.
Qed.

Lemma dump_error_list (max_digits : nat) (x : pyval) (l : list pyval) :
  dump_error max_digits (PList (x :: l))
  = first_error (dump_error max_digits x) (dump_error max_digits (PList l)).
Proof. reflexivity. Qed.

Lemma dump_error_dict (max_digits : nat) (k : str) (x : pyval)
  (d : list (str * pyval)) :
  dump_error max_digits (PDict ((k, x) :: d))
  = first_error (if utf8_encodable k then None else Some UnicodeEncodeError)
      (first_error (dump_error max_digits x)
                   (dump_error max_digits (PDict d))).
Proof. reflexivity. Qed.

Lemma first_error_none (a b : option exn) :
  first_error a b = None -> a = None /\ b = None.
Proof. destruct a; [discriminate|]. cbn. auto. Qed.

Lemma is_digit_range (c : N) : is_digit c = true -> (0x30 <= c <= 0x39)%N.
Proof.
  unfold is_digit. intros [H1 H2]%andb_true_iff.
  apply N.leb_le in H1, H2. lia.
Qed.

Lemma json_int_starts (z : Z) :
  exists c t, json_int z = c :: t /\ (is_digit c = true \/ c = 0x2D%N).
Proof.
  destruct z as [|p|p].
  - exists 0x30%N, []. split; [reflexivity|now left].
  - unfold json_int. cbn [Z.to_int]. pose proof (to_uint_head p) as H.
    destruct (Pos.to_uint p); try contradiction; cbn [uint_chars];
      eexists _, _; (split; [reflexivity|now left]).
  - unfold json_int. cbn [Z.to_int]. eexists _, _.
    split; [reflexivity|now right].
Qed.

(** A value never starts with whitespace or a closing bracket. *)
Lemma json_encode_head (level : nat) (v : pyval) :
  exists c t,
    json_encode level v = c :: t
    /\ json_space c = false /\ (c =? 0x5D)%N = false /\ (c =? 0x7D)%N = false.
Proof.
  destruct v as [|[|]|z|s|[|x xs]|[|[k x] kxs]];
    try (eexists _, _; split; [reflexivity|]; repeat split; reflexivity).
  destruct (json_int_starts z) as (c & t & Hz & Hc).
  exists c, t. split; [exact Hz|].
  assert (Hr : (0x2D <= c <= 0x39)%N)
    by (destruct Hc as [Hc%is_digit_range | ->]; lia).
  unfold json_space. repeat split;
    repeat (apply orb_false_iff; split); apply N.eqb_neq; lia.
Qed.

Lemma skip_ws_head (c : N) (t : str) :
  json_space c = false -> skip_ws (c :: t) = c :: t.
Proof. intros H. cbn [skip_ws]. now rewrite H. Qed.

Lemma skip_ws_encoded (level : nat) (v : pyval) (rest : str) :
  skip_ws (json_encode level v ++ rest) = json_encode level v ++ rest.
Proof.
  destruct (json_encode_head level v) as (c & t & -> & Hc & _).
  now apply skip_ws_head.
Qed.

(** A text that starts as a number is read by [scan_number]. *)
Lemma parse_value_number (max_digits fuel : nat) (c : N) (t : str) :
  is_digit c = true \/ c = 0x2D%N ->
  parse_value max_digits (S fuel) (c :: t) = scan_number max_digits (c :: t).
Proof.
  intros Hc.
  assert (Hr : (0x2D <= c <= 0x39)%N)
    by (destruct Hc as [Hc%is_digit_range | ->]; lia).
  cbn [parse_value].
  replace (c =? 0x22)%N with false by (symmetry; apply N.eqb_neq; lia).
  replace (c =? 0x7B)%N with false by (symmetry; apply N.eqb_neq; lia).
  replace (c =? 0x5B)%N with false by (symmetry; apply N.eqb_neq; lia).
  change (u "null") with (0x6E%N :: u "ull").
  change (u "true") with (0x74%N :: u "rue").
  change (u "false") with (0x66%N :: u "alse").
  cbn [after_prefix].
  replace (0x6E =? c)%N with false by (symmetry; apply N.eqb_neq; lia).
  replace (0x74 =? c)%N with false by (symmetry; apply N.eqb_neq; lia).
  replace (0x66 =? c)%N with false by (symmetry; apply N.eqb_neq; lia).
  reflexivity.
Qed.

Section ReadBack.

Variable max_digits : nat.

Lemma parse_elements_encoded (level : nat) (rest : str) (xs : list pyval) :
  forall (x : pyval) (acc : list pyval) (fuel : nat),
    Forall (reads_back max_digits) (x :: xs) ->
    forallb is_value (x :: xs) = true ->
    dump_error max_digits (PList (x :: xs)) = None ->
    (items_size (x :: xs) <= fuel)%nat ->
    parse_elements max_digits fuel
      (json_encode (S level) x ++ encode_items level xs
       ++ newline_indent level ++ 0x5D%N :: rest) acc
    = Some (PList (acc ++ x :: xs), rest).
Proof.
  induction xs as [|y ys IH]; intros x acc fuel Hall Hval Herr Hfuel;
    inversion Hall as [|? ? Hx Hrest]; subst;
    cbn [forallb] in Hval; apply andb_true_iff in Hval as [Hvx Hvrest];
    rewrite dump_error_list in Herr;
    apply first_error_none in Herr as [Hex Herest];
    cbn [items_size fold_right] in Hfuel;
    destruct fuel as [|fuel]; try lia; cbn [parse_elements].
  - cbn [encode_items app].
    rewrite (Hx (S level) fuel); [|assumption|assumption|lia|reflexivity].
    rewrite skip_ws_indent. cbn [skip_ws json_space N.eqb Pos.eqb orb].
    reflexivity.
  - cbn [encode_items]. cbn [app].
    rewrite (Hx (S level) fuel); [|assumption|assumption|lia|reflexivity].
    cbn [skip_ws json_space N.eqb Pos.eqb orb].
    rewrite <- !app_assoc, skip_ws_indent, skip_ws_encoded.
    rewrite (IH y (acc ++ [x]) fuel Hrest Hvrest Herest).
    + now rewrite <- app_assoc.
    + cbn [items_size fold_right]. lia.
Qed.

Lemma dict_set_fresh (acc : list (str * pyval)) (k : str) (v : pyval) :
  forallb (fun k' => negb (str_eqb k' k)) (map fst acc) = true ->
  dict_set acc k v = acc ++ [(k, v)].
Proof.
  induction acc as [|[k' v'] acc IH]; [reflexivity|].
  cbn [map fst forallb dict_set app].
  intros [Hk Hacc]%andb_true_iff. apply negb_true_iff in Hk.
  now rewrite Hk, IH.
Qed.

Lemma distinct_app_fresh (before : list str) (k : str) (later : list str) :
  distinct (before ++ k :: later) = true ->
  forallb (fun k' => negb (str_eqb k' k)) before = true.
Proof.
  induction before as [|a before IH]; [reflexivity|].
  cbn [app distinct forallb]. intros [Ha Hd]%andb_true_iff.
  rewrite (IH Hd), andb_true_r. apply negb_true_iff in Ha.
  rewrite existsb_app in Ha. apply orb_false_iff in Ha as [_ Ha].
  cbn [existsb] in Ha. apply orb_false_iff in Ha as [Ha _]. now rewrite Ha.
Qed.

Lemma skip_ws_string (k : str) (t : str) :
  skip_ws (json_string k ++ t) = json_string k ++ t.
Proof. reflexivity. Qed.

Lemma parse_members_encoded (level : nat) (rest : str)
  (kxs : list (str * pyval)) :
  forall (k : str) (x : pyval) (acc : list (str * pyval)) (fuel : nat),
    Forall (fun kx => reads_back max_digits (snd kx)) ((k, x) :: kxs) ->
    distinct (map fst acc ++ k :: map fst kxs) = true ->
    forallb (fun kx => is_value (snd kx)) ((k, x) :: kxs) = true ->
    dump_error max_digits (PDict ((k, x) :: kxs)) = None ->
    (members_size ((k, x) :: kxs) <= fuel)%nat ->
    parse_members max_digits fuel
      (json_string k ++ u ": " ++ json_encode (S level) x
       ++ encode_members level kxs ++ newline_indent level ++ 0x7D%N :: rest)
      acc
    = Some (PDict (acc ++ (k, x) :: kxs), rest).
Proof.
  induction kxs as [|[k' y] kxs IH];
    intros k x acc fuel Hall Hkeys Hval Herr Hfuel;
    inversion Hall as [|? ? Hx Hrest]; subst; cbn [snd] in Hx;
    cbn [forallb snd] in Hval; apply andb_true_iff in Hval as [Hvx Hvrest];
    rewrite dump_error_dict in Herr;
    apply first_error_none in Herr as [_ Herr];
    apply first_error_none in Herr as [Hex Herest];
    cbn [members_size fold_right snd] in Hfuel;
    destruct fuel as [|fuel]; try lia; cbn [parse_members];
    unfold json_string; cbn [app N.eqb Pos.eqb];
    rewrite <- app_assoc; cbn [app]; rewrite scan_string_encoded;
    change (u ": ") with [0x3A; 0x20]%N;
    cbn [app skip_ws json_space N.eqb Pos.eqb orb];
    rewrite skip_ws_encoded.
  - cbn [encode_members app].
    rewrite (Hx (S level) fuel); [|assumption|assumption|lia|reflexivity].
    rewrite (dict_set_fresh acc k _ (distinct_app_fresh _ _ _ Hkeys)).
    rewrite skip_ws_indent. cbn [skip_ws json_space N.eqb Pos.eqb orb].
    reflexivity.
  - cbn [encode_members]. cbn [app].
    rewrite (Hx (S level) fuel); [|assumption|assumption|lia|reflexivity].
    rewrite (dict_set_fresh acc k _ (distinct_app_fresh _ _ _ Hkeys)).
    cbn [skip_ws json_space N.eqb Pos.eqb orb].
    rewrite <- !app_assoc, skip_ws_indent.
    rewrite skip_ws_string.
    rewrite (IH k' y (acc ++ [(k, x)]) fuel Hrest).
    + now rewrite <- app_assoc.
    + rewrite map_app, <- app_assoc. exact Hkeys.
    + exact Hvrest.
    + exact Herest.
    + cbn [members_size fold_right snd]. lia.
Qed.

(** Every value reads back. *)
Lemma parse_value_encoded (v : pyval) : reads_back max_digits v.
Proof.
  induction v as [|b|z|s|l IHl|d IHd] using pyval_induction;
    intros level fuel rest Hval Herr Hfuel Hrest.
  - destruct fuel as [|fuel]; [cbn in Hfuel; lia|]. reflexivity.
  - destruct fuel as [|fuel]; [cbn in Hfuel; lia|]. now destruct b.
  - destruct fuel as [|fuel]; [cbn in Hfuel; lia|].
    cbn [dump_error] in Herr.
    destruct (digits_allowed max_digits (int_digits_count z)) eqn:Hdigits;
      [|discriminate].
    cbn [json_encode].
    destruct (json_int_starts z) as (c & t & Hz & Hc).
    rewrite Hz. cbn [app]. rewrite (parse_value_number _ _ _ _ Hc).
    change (c :: t ++ rest) with ((c :: t) ++ rest). rewrite <- Hz.
    now apply scan_number_int.
  - destruct fuel as [|fuel]; [cbn in Hfuel; lia|].
    cbn [json_encode]. unfold json_string.
    cbn [app parse_value N.eqb Pos.eqb].
    rewrite <- app_assoc. cbn [app]. now rewrite scan_string_encoded.
  - rewrite json_size_list in Hfuel. rewrite is_value_list in Hval.
    destruct fuel as [|fuel]; [lia|].
    destruct l as [|x xs]; [reflexivity|].
    rewrite json_encode_list.
    cbn [app parse_value N.eqb Pos.eqb].
    rewrite <- !app_assoc, skip_ws_indent.
    destruct (json_encode_head (S level) x) as (c & t & Hx & Hsp & Hc & _).
    rewrite Hx. cbn [app skip_ws]. rewrite Hsp, Hc.
    change (c :: t ++ ?r) with ((c :: t) ++ r). rewrite <- Hx.
    cbn [app].
    rewrite (parse_elements_encoded level rest xs x [] fuel IHl Hval Herr);
      [reflexivity|lia].
  - rewrite json_size_dict in Hfuel. rewrite is_value_dict in Hval.
    apply andb_true_iff in Hval as [Hkeys Hval].
    destruct fuel as [|fuel]; [lia|].
    destruct d as [|[k x] kxs]; [reflexivity|].
    rewrite json_encode_dict.
    cbn [app parse_value N.eqb Pos.eqb].
    rewrite <- !app_assoc, skip_ws_indent, skip_ws_string.
    unfold json_string at 1. cbn [app N.eqb Pos.eqb].
    change (0x22%N :: (flat_map json_escape k ++ [0x22%N]) ++ ?r)
      with (json_string k ++ r).
    cbn [app].
    rewrite (parse_members_encoded level rest kxs k x [] fuel IHd Hkeys Hval
               Herr); [reflexivity|lia].
Qed.

(** What [json.dumps] writes for a value that [json.dump] gets through,
    [json.loads] reads back as the same value. *)
Lemma json_loads_dumps (v : pyval) :
  is_value v = true ->
  dump_error max_digits v = None ->
  json_loads max_digits (json_dumps v) = Some v.
Proof.
  intros Hval Herr. unfold json_loads, json_dumps.
  rewrite <- (app_nil_r (json_encode 0 v)) at 1 2.
  rewrite skip_ws_encoded.
  rewrite (parse_value_encoded v 0 _ [] Hval Herr); [reflexivity| |reflexivity].
  rewrite app_nil_r.
  enough (H : forall level, (json_size v <= length (json_encode level v))%nat)
    by (specialize (H 0%nat); lia).
  clear Hval Herr.
  induction v as [|b|z|s|l IHl|d IHd] using pyval_induction; intros level.
  - cbn. lia.
  - destruct b; cbn; lia.
  - destruct (json_int_starts z) as (c & t & Hz & _).
    cbn [json_encode json_size]. rewrite Hz. cbn. lia.
  - cbn [json_encode json_size]. unfold json_string. cbn. lia.
  - rewrite json_size_list. destruct l as [|x xs]; [cbn; lia|].
    rewrite json_encode_list. cbn [length]. rewrite !length_app.
    inversion IHl as [|? ? Hx Hxs]; subst.
    specialize (Hx (S level)).
    assert (Hitems : (items_size xs <= length (encode_items level xs))%nat).
    { clear Hx IHl. induction Hxs as [|y ys Hy _ IH]; [cbn; lia|].
      cbn [items_size fold_right encode_items length].
      rewrite !length_app. specialize (Hy (S level)).
      unfold items_size in IH. lia. }
    cbn [items_size fold_right]. unfold items_size in Hitems.
    unfold newline_indent at 1. cbn [length]. lia.
  - rewrite json_size_dict. destruct d as [|[k x] kxs]; [cbn; lia|].
    rewrite json_encode_dict. cbn [length]. rewrite !length_app.
    inversion IHd as [|? ? Hx Hxs]; subst. cbn [snd] in Hx.
    specialize (Hx (S level)).
    assert (Hitems : (members_size kxs
                      <= length (encode_members level kxs))%nat).
    { clear Hx IHd. induction Hxs as [|[k' y] ys Hy _ IH]; [cbn; lia|].
      cbn [members_size fold_right encode_members length snd].
      rewrite !length_app. cbn [snd] in Hy. specialize (Hy (S level)).
      unfold members_size in IH. lia. }
    cbn [members_size fold_right snd]. unfold members_size in Hitems.
    unfold newline_indent at 1. cbn [length]. lia.
Qed.

End ReadBack.

(** ** Export *)

Lemma bind_lift_ok {A B : Type} (a : A) (k : A -> M B) :
  bind (lift (Ok a)) k = k a.
Proof. reflexivity. Qed.

Lemma bind_lift_raise {A B : Type} (e : exn) (k : A -> M B) (w : world) :
  bind (lift (Raise e)) k w = (Raise e, w).
Proof. reflexivity. Qed.

Lemma py_get_field (d : list (str * pyval)) (k : string) :
  py_get (PDict d) (u k) PNone = Ok (field (PDict d) k).
Proof.
  unfold py_get, field. now destruct (dict_lookup d (u k)).
Qed.

Section Snapshot.

Variable server : request -> response.
Variable token : option str.
Variable max_digits : nat.
Variable now : str.
Variable open_error : fstring -> option exn.
Variable username : pyval.

(** [get_repo_languages] returns what [languages_of] says, or raises on a
    body that is not a mapping or that [response.json()] does not get
    through; it touches no file. *)
Lemma get_repo_languages_outcome (repo_name : pyval) (w : world) :
  match languages_of server token username repo_name with
  | Some languages =>
    exists shown,
      get_repo_languages server token username repo_name w
      = (Ok languages,
         after w [languages_request token username repo_name] 0 shown)
  | None =>
    exists e,
      get_repo_languages server token username repo_name w
      = (Raise e,
         after w [languages_request token username repo_name] 0 [])
  end.
Proof.
  unfold languages_of, get_repo_languages, try_except, bind, requests_get,
    raise_for_status, ok_status.
  destruct (server _) as [|status body lks|status e lks].
  - eexists. cbn. unfold after. cbn. now rewrite Nat.add_0_r.
  - destruct ((400 <=? status) && (status <? 600))%Z; cbn [negb].
    + eexists. cbn. unfold after. cbn. now rewrite Nat.add_0_r.
    + destruct body as [[| | | | |d]|]; cbn;
        try (eexists; unfold after; cbn; now rewrite Nat.add_0_r);
        try (eexists; unfold after; cbn;
             now rewrite app_nil_r, Nat.add_0_r);
        exists []; unfold after; cbn;
        now rewrite ?app_nil_r, Nat.add_0_r.
  - destruct ((400 <=? status) && (status <? 600))%Z; cbn [negb andb].
    + eexists. cbn. unfold after. cbn. now rewrite Nat.add_0_r.
    + destruct e; cbn;
        try (eexists; unfold after; cbn; now rewrite Nat.add_0_r);
        eexists; unfold after; cbn; now rewrite ?app_nil_r, Nat.add_0_r.
Qed.

(** The entry [export_repo] builds for an exportable repository. *)
Lemma export_repo_entry (repo : pyval) (w : world) :
  exportable server token username repo ->
  exists shown,
    export_repo server token username repo w
    = (Ok (snapshot_entry (languages_list server token username repo) repo),
       after w [languages_request token username (field repo "name")] 0
             shown).
Proof.
  intros [Hrecord Hlanguages].
  destruct repo as [| | | | |d]; try discriminate.
  unfold languages_list.
  pose proof (get_repo_languages_outcome (field (PDict d) "name")) as Hget.
  destruct (languages_of server token username (field (PDict d) "name"))
    as [languages|]; [clear Hlanguages|contradiction].
  unfold export_repo. rewrite !py_get_field, !bind_lift_ok.
  assert (Hname : py_item (PDict d) (u "name") = Ok (field (PDict d) "name")).
  { unfold py_item, field. unfold repository_record in Hrecord.
    now destruct (dict_lookup d (u "name")). }
  rewrite Hname, bind_lift_ok. unfold bind at 1.
  destruct (Hget w) as [shown ->]. exists shown. cbv beta iota.
  rewrite !bind_lift_ok.
  unfold snapshot_entry, license_name, field, py_get.
  unfold repository_record in Hrecord.
  destruct (dict_lookup d (u "name")); [|discriminate].
  destruct (dict_lookup d (u "license")) as [[|b|z|s|l|l]|];
    cbn [truthy] in *;
    try (apply negb_true_iff in Hrecord; rewrite Hrecord);
    try reflexivity.
  destruct l as [|kv l]; [reflexivity|].
  unfold bind, lift. destruct (dict_lookup (kv :: l) (u "name")); reflexivity.
Qed.

(** A repository is exportable, or [export_repo] raises on it without
    touching a file. *)
Lemma export_repo_outcome (repo : pyval) (w : world) :
  exportable server token username repo
  \/ exists e w',
       export_repo server token username repo w = (Raise e, w')
       /\ files w' = files w.
Proof.
  destruct repo as [| | | | |d];
    try (right; eexists _, _; split; reflexivity).
  unfold exportable, repository_record.
  pose proof (get_repo_languages_outcome (field (PDict d) "name") w) as Hget.
  unfold export_repo. rewrite !py_get_field, !bind_lift_ok.
  unfold py_item. unfold field in Hget |- *.
  destruct (dict_lookup d (u "name")) as [name|];
    [|right; eexists _, _; split; reflexivity].
  rewrite bind_lift_ok. unfold bind at 1.
  destruct (languages_of server token username name) as [languages|].
  2:{ right. destruct Hget as [e ->]. eexists _, _. split; reflexivity. }
  destruct Hget as [shown ->]. cbv beta iota. rewrite !bind_lift_ok.
  unfold field, py_get.
  destruct (dict_lookup d (u "license")) as [[|b|z|s|l|l]|];
    try (left; split; [reflexivity|discriminate]).
  - destruct b; [right; eexists _, _; split; reflexivity|].
    left. split; [reflexivity|discriminate].
  - destruct (z =? 0)%Z eqn:Hz.
    + left. split; [cbn; now rewrite Hz|discriminate].
    + right. cbn [truthy]. rewrite Hz. eexists _, _. split; reflexivity.
  - destruct s; [left; split; [reflexivity|discriminate]|].
    right. eexists _, _. split; reflexivity.
  - destruct l; [left; split; [reflexivity|discriminate]|].
    right. eexists _, _. split; reflexivity.
Qed.

Lemma export_repos_outcome (repos : list pyval) :
  forall w : world,
    (Forall (exportable server token username) repos
     /\ exists rs shown,
          export_repos server token username repos w
          = (Ok (map (fun repo =>
                        snapshot_entry
                          (languages_list server token username repo) repo)
                     repos),
             after w rs 0 shown))
    \/ exists e w',
         export_repos server token username repos w = (Raise e, w')
         /\ files w' = files w.
Proof.
  induction repos as [|repo repos IH]; intros w.
  - left. split; [constructor|]. exists [], []. cbn. now rewrite after_nothing.
  - assert (Hstep : export_repos server token username (repo :: repos) w
                    = match export_repo server token username repo w with
                      | (Ok repo_data, w1) =>
                        match export_repos server token username repos w1 with
                        | (Ok others, w2) => (Ok (repo_data :: others), w2)
                        | (Raise e, w2) => (Raise e, w2)
                        | (OutOfFuel, w2) => (OutOfFuel, w2)
                        end
                      | (Raise e, w1) => (Raise e, w1)
                      | (OutOfFuel, w1) => (OutOfFuel, w1)
                      end).
    { cbn [export_repos]. unfold bind, ret.
      now destruct (export_repo server token username repo w) as [[?| |] w1]. }
    rewrite Hstep. clear Hstep.
    destruct (export_repo_outcome repo w) as [Hrepo | (e & w' & -> & Hfiles)].
    2:{ right. now exists e, w'. }
    destruct (export_repo_entry repo w Hrepo) as [shown ->].
    destruct (IH (after w [languages_request token username
                                             (field repo "name")] 0 shown))
      as [(Hrepos & rs & shown' & ->) | (e & w' & -> & Hfiles)].
    + left. split; [now constructor|].
      eexists _, _. cbn [map]. now rewrite after_after.
    + right. now exists e, w'.
Qed.

Lemma export_repos_entries (repos : list pyval) :
  Forall (exportable server token username) repos ->
  forall w : world,
    exists rs shown,
      export_repos server token username repos w
      = (Ok (map (fun repo =>
                    snapshot_entry
                      (languages_list server token username repo) repo)
                 repos),
         after w rs 0 shown).
Proof.
  induction 1 as [|repo repos Hrepo _ IH]; intros w.
  - exists [], []. cbn. now rewrite after_nothing.
  - cbn [export_repos]. unfold bind at 1.
    destruct (export_repo_entry repo w Hrepo) as [shown ->].
    unfold bind at 1.
    destruct (IH (after w [languages_request token username
                                             (field repo "name")] 0 shown))
      as (rs & shown' & ->).
    eexists _, _. cbn [map ret]. now rewrite after_after.
Qed.

(** With exportable repositories, a path that opens and a snapshot that
    [json.dump] gets through, [export_to_json] writes the snapshot. *)
Lemma export_to_json_writes (repos : list pyval) (filename : option str)
  (w : world) :
  Forall (exportable server token username) repos ->
  open_error (chosen_filename username filename) = None ->
  dump_error max_digits (snapshot server token now username repos) = None ->
  exists rs shown,
    export_to_json server token max_digits now open_error repos username
                   filename w
    = (Ok tt,
       mkWorld (stdin w) (stdout w ++ shown) (sent w ++ rs) (naps w)
               (files w
                ++ [(chosen_filename username filename,
                     Complete (json_dumps
                                 (snapshot server token now username
                                           repos)))])).
Proof.
  intros Hrepos Hopen Hdump.
  destruct (export_repos_entries repos Hrepos w) as (rs & shown & Hentries).
  unfold export_to_json, bind at 1. rewrite Hentries.
  change (export_data now username repos _)
    with (snapshot server token now username repos).
  unfold try_except, bind, write_json. rewrite Hopen, Hdump.
  eexists _, _. unfold print, after. cbn.
  now rewrite Nat.add_0_r, <- app_assoc.
Qed.

(** [export_to_json] writes the whole snapshot, or leaves the files as they
    were, or leaves the beginning of a document. *)
Lemma export_to_json_outcome (repos : list pyval) (filename : option str)
  (w : world) :
  let path := chosen_filename username filename in
  let doc := snapshot server token now username repos in
  let w' := snd (export_to_json server token max_digits now open_error repos
                                username filename w) in
  (Forall (exportable server token username) repos
   /\ open_error path = None
   /\ dump_error max_digits doc = None
   /\ fst (export_to_json server token max_digits now open_error repos
                          username filename w) = Ok tt
   /\ files w' = files w ++ [(path, Complete (json_dumps doc))])
  \/ files w' = files w
  \/ files w' = files w ++ [(path, Partial)].
Proof.
  intros path doc.
  assert (Hstep : export_to_json server token max_digits now open_error repos
                                 username filename w
                  = match export_repos server token username repos w with
                    | (Ok repositories, w1) =>
                      try_except
                        (write_json max_digits open_error path
                           (export_data now username repos repositories);;;
                         print (NT "ğŸ’¾ Data exported to " :: path))
                        (fun _ => true)
                        (fun e => print [T "Error exporting data: "; FmtExn e])
                        w1
                    | (Raise e, w1) => (Raise e, w1)
                    | (OutOfFuel, w1) => (OutOfFuel, w1)
                    end).
  { unfold export_to_json, bind at 1. fold path.
    now destruct (export_repos server token username repos w) as [[?| |] w1]. }
  rewrite Hstep. clear Hstep.
  destruct (export_repos_outcome repos w)
    as [(Hrepos & rs & shown & ->) | (e & w1 & -> & Hfiles)].
  2:{ right. left. exact Hfiles. }
  fold doc. change (export_data now username repos _) with doc.
  unfold try_except, bind, write_json.
  destruct (open_error path) as [e|] eqn:Hopen; [right; left; reflexivity|].
  destruct (dump_error max_digits doc) as [e|] eqn:Hdump;
    [right; right; reflexivity|].
  left. repeat split; try assumption; reflexivity.
Qed.

(** A complete file that [export_to_json] wrote holds the snapshot. *)
Lemma export_to_json_written (repos : list pyval) (filename : option str)
  (w : world) (path : fstring) (text : str) :
  files (snd (export_to_json server token max_digits now open_error repos
                             username filename w))
  = files w ++ [(path, Complete text)] ->
  Forall (exportable server token username) repos
  /\ path = chosen_filename username filename
  /\ text = json_dumps (snapshot server token now username repos)
  /\ dump_error max_digits (snapshot server token now username repos) = None.
Proof.
  intros Hfiles.
  destruct (export_to_json_outcome repos filename w)
    as [(Hrepos & _ & Hdump & _ & Hw) | [Hw | Hw]]; rewrite Hw in Hfiles.
  - apply app_inv_head in Hfiles. injection Hfiles as <- <-. auto.
  - apply (f_equal (@length _)) in Hfiles. rewrite length_app in Hfiles.
    cbn in Hfiles. lia.
  - apply app_inv_head in Hfiles. discriminate.
Qed.

Lemma is_value_field (v : pyval) (k : string) :
  is_value v = true -> is_value (field v k) = true.
Proof.
  destruct v as [| | | | |d]; try reflexivity.
  rewrite is_value_dict. intros [_ Hd]%andb_true_iff. unfold field.
  induction d as [|[k' x] d IH]; [reflexivity|].
  cbn [forallb snd] in Hd. apply andb_true_iff in Hd as [Hx Hd].
  cbn [dict_lookup]. destruct (str_eqb k' (u k)); auto.
Qed.

Lemma is_value_snapshot_entry (languages : list str) (repo : pyval) :
  is_value repo = true -> is_value (snapshot_entry languages repo) = true.
Proof.
  intros Hrepo. unfold snapshot_entry. rewrite is_value_dict.
  apply andb_true_iff. split; [reflexivity|].
  cbn [forallb snd]. rewrite !is_value_field by exact Hrepo.
  rewrite is_value_list.
  assert (Hl : forallb is_value (map PStr languages) = true)
    by (induction languages; auto).
  rewrite Hl. unfold license_name.
  destruct (truthy (field repo "license")); [|reflexivity].
  rewrite (is_value_field (field repo "license") "name")
    by now apply is_value_field.
  reflexivity.
Qed.

Lemma is_value_snapshot (repos : list pyval) :
  is_value username = true ->
  Forall (fun repo => is_value repo = true) repos ->
  is_value (snapshot server token now username repos) = true.
Proof.
  intros Hu Hrepos. unfold snapshot, export_data. rewrite is_value_dict.
  apply andb_true_iff. split; [reflexivity|].
  cbn [forallb snd]. rewrite Hu, is_value_list. cbn [is_value nat_val andb].
  rewrite andb_true_r. induction Hrepos as [|repo repos Hrepo _ IH];
    [reflexivity|].
  cbn [map forallb]. now rewrite is_value_snapshot_entry, IH.
Qed.

Lemma snapshot_read_back (repos : list pyval) :
  is_value username = true ->
  Forall (fun repo => is_value repo = true) repos ->
  dump_error max_digits (snapshot server token now username repos) = None ->
  json_loads max_digits (json_dumps (snapshot server token now username repos))
  = Some (snapshot server token now username repos).
Proof.
  intros Hu Hrepos Hdump. apply json_loads_dumps; [|exact Hdump].
  now apply is_value_snapshot.
Qed.


(** C5.  Whatever complete file [export_to_json] writes for a list of
    repositories reads back as a document whose repositories carry, in the
    order of the list, the names, the star, fork and open-issue counts and the
    license names of the repositories in memory. *)
Theorem export_to_json_round_trip (repos : list pyval) (filename : option str)
  (w : world) (path : fstring) (text : str) :
  is_value username = true ->
  Forall (fun repo => is_value repo = true) repos ->
  files (snd (export_to_json server token max_digits now open_error repos
                             username filename w))
  = files w ++ [(path, Complete text)] ->
  exists (doc : pyval) (entries : list pyval),
    json_loads max_digits text = Some doc
    /\ field doc "repositories" = PList entries
    /\ map (fun entry => field entry "name") entries
       = map (fun repo => field repo "name") repos
    /\ map (fun entry => field entry "stars") entries
       = map (fun repo => field repo "stargazers_count") repos
    /\ map (fun entry => field entry "forks") entries
       = map (fun repo => field repo "forks_count") repos
    /\ map (fun entry => field entry "open_issues") entries
       = map (fun repo => field repo "open_issues_count") repos
    /\ map (fun entry => field entry "license") entries
       = map license_name repos.
Proof.
  intros Hu Hvalues Hfiles.
  destruct (export_to_json_written repos filename w path text Hfiles)
    as (_ & _ & -> & Hdump).
  eexists (snapshot server token now username repos), _.
  split; [now apply snapshot_read_back|]. split; [reflexivity|].
  rewrite !map_map. repeat split; apply map_ext; reflexivity.
Qed.

(** C4.  [get_repo_languages] returns the keys of the mapping the endpoint
    answers with, in its order and whatever the byte counts, and the empty
    list when the request fails; and for a repository the endpoint answers
    with Go and Shell, whatever complete file [export_to_json] writes holds,
    at that repository's place, "languages": ["Go", "Shell"]. *)
Theorem get_repo_languages_keys_only :
  (forall (repo_name : pyval) (status : Z) (d : list (str * pyval))
          (lks : list str) (w : world),
      server (languages_request token username repo_name)
      = Response status (Some (PDict d)) lks ->
      ok_status status = true ->
      get_repo_languages server token username repo_name w
      = (Ok (map fst d),
         after w [languages_request token username repo_name] 0 []))
  /\ (forall (repo_name : pyval) (e : req_error) (w : world),
        request_error server (languages_request token username repo_name)
        = Some e ->
        get_repo_languages server token username repo_name w
        = (Ok [],
           after w [languages_request token username repo_name] 0
                 [Print [T "Error fetching languages for "; Fmt repo_name;
                         T ": "; FmtExn (RequestException e)]]))
  /\ (forall (repos : list pyval) (i : nat) (repo : pyval) (a b status : Z)
             (lks : list str) (filename : option str) (w : world)
             (path : fstring) (text : str),
        is_value username = true ->
        Forall (fun repo => is_value repo = true) repos ->
        nth_error repos i = Some repo ->
        server (languages_request token username (field repo "name"))
        = Response status
                   (Some (PDict [(u "Go", PInt a); (u "Shell", PInt b)])) lks ->
        ok_status status = true ->
        files (snd (export_to_json server token max_digits now open_error
                                   repos username filename w))
        = files w ++ [(path, Complete text)] ->
        exists (doc : pyval) (entries : list pyval) (entry : pyval),
          json_loads max_digits text = Some doc
          /\ field doc "repositories" = PList entries
          /\ nth_error entries i = Some entry
          /\ field entry "languages"
             = PList [PStr (u "Go"); PStr (u "Shell")]).
Proof.
  split; [|split].
  - intros repo_name status d lks w. apply get_repo_languages_keys.
  - intros repo_name e w. apply get_repo_languages_failed.
  - intros repos i repo a b status lks filename w path text
           Hu Hvalues Hrepo Hserver Hstatus Hfiles.
    destruct (export_to_json_written repos filename w path text Hfiles)
      as (_ & _ & -> & Hdump).
    eexists (snapshot server token now username repos), _, _.
    split; [now apply snapshot_read_back|]. split; [reflexivity|].
    split; [apply map_nth_error; exact Hrepo|].
    unfold languages_list, languages_of. rewrite Hserver, Hstatus.
    reflexivity.
Qed.

End Snapshot.


(** The file written for the sample repositories reads back with their names,
    counts and license names. *)
Lemma export_to_json_round_trip_witness :
  exists (doc : pyval) (entries : list pyval),
    json_loads 4300
      (json_dumps (snapshot go_and_shell None sample_time octocat sample_repos))
    = Some doc
    /\ field doc "repositories" = PList entries
    /\ map (fun entry => field entry "name") entries
       = map (fun repo => field repo "name") sample_repos
    /\ map (fun entry => field entry "stars") entries
       = map (fun repo => field repo "stargazers_count") sample_repos
    /\ map (fun entry => field entry "forks") entries
       = map (fun repo => field repo "forks_count") sample_repos
    /\ map (fun entry => field entry "open_issues") entries
       = map (fun repo => field repo "open_issues_count") sample_repos
    /\ map (fun entry => field entry "license") entries
       = map license_name sample_repos.
Proof.
  apply (export_to_json_round_trip go_and_shell None 4300 sample_time
           every_path_opens octocat sample_repos None quiet
           (default_filename octocat)).
  - reflexivity.
  - repeat constructor.
  - reflexivity.
Defined.

(** The keys of a mapping, the empty list after a failure, and Go and Shell
    in the file written for the sample repositories. *)
Lemma get_repo_languages_keys_only_witness :
  get_repo_languages go_and_shell None octocat (PStr (u "hello")) quiet
  = (Ok [u "Go"; u "Shell"],
     after quiet [languages_request None octocat (PStr (u "hello"))] 0 [])
  /\ get_repo_languages second_page_down None octocat (PStr (u "hello")) quiet
     = (Ok [],
        after quiet [languages_request None octocat (PStr (u "hello"))] 0
              [Print [T "Error fetching languages for ";
                      Fmt (PStr (u "hello")); T ": ";
                      FmtExn (RequestException (HTTPError 503))]])
  /\ exists (doc : pyval) (entries : list pyval) (entry : pyval),
       json_loads 4300
         (json_dumps
            (snapshot go_and_shell None sample_time octocat sample_repos))
       = Some doc
       /\ field doc "repositories" = PList entries
       /\ nth_error entries 1 = Some entry
       /\ field entry "languages" = PList [PStr (u "Go"); PStr (u "Shell")].
Proof.
  split; [|split].
  - apply (proj1 (get_repo_languages_keys_only go_and_shell None 4300
                    sample_time every_path_opens octocat)
             (PStr (u "hello")) 200%Z
             [(u "Go", PInt 120); (u "Shell", PInt 4)] [] quiet);
      reflexivity.
  - apply (proj1 (proj2 (get_repo_languages_keys_only second_page_down None
                           4300 sample_time every_path_opens octocat))
             (PStr (u "hello")) (HTTPError 503) quiet).
    reflexivity.
  - apply (proj2 (proj2 (get_repo_languages_keys_only go_and_shell None 4300
                           sample_time every_path_opens octocat))
             sample_repos 1%nat
             (PDict [(u "name", PStr (u "world")); (u "description", PNone);
                     (u "stargazers_count", PInt 0); (u "license", PNone)])
             120%Z 4%Z 200%Z [] None quiet (default_filename octocat)).
    + reflexivity.
    + repeat constructor.
    + reflexivity.
    + reflexivity.
    + reflexivity.
    + reflexivity.
Defined.

(** ** The session never raises on answers of the API's shape *)

Lemma returns_ret {A : Type} (a : A) (Q : A -> Prop) :
  Q a -> returns (ret a) Q.
Proof. intros Ha w. now exists a, w. Qed.

Lemma returns_lift {A : Type} (a : A) (Q : A -> Prop) :
  Q a -> returns (lift (Ok a)) Q.
Proof. intros Ha w. now exists a, w. Qed.

Lemma returns_print (line : fstring) (Q : unit -> Prop) :
  Q tt -> returns (print line) Q.
Proof. intros Ha w. eexists tt, _. split; [reflexivity|exact Ha]. Qed.

Lemma returns_bind {A B : Type} (m : M A) (k : A -> M B) (P : A -> Prop)
  (Q : B -> Prop) :
  returns m P -> (forall a, P a -> returns (k a) Q) -> returns (bind m k) Q.
Proof.
  intros Hm Hk w. destruct (Hm w) as (a & w1 & Hmw & Ha).
  destruct (Hk a Ha w1) as (b & w2 & Hkw & Hb).
  exists b, w2. unfold bind. now rewrite Hmw.
Qed.

Lemma returns_weaken {A : Type} (m : M A) (P Q : A -> Prop) :
  returns m P -> (forall a, P a -> Q a) -> returns m Q.
Proof.
  intros Hm HPQ w. destruct (Hm w) as (a & w' & Hmw & Ha).
  exists a, w'. auto.
Qed.

Lemma ends_in_returns {A : Type} (m : M A) (Q : A -> Prop) :
  returns m Q -> ends_in m Q.
Proof.
  intros Hm w. destruct (Hm w) as (a & w' & -> & Ha). exact Ha.
Qed.

Lemma ends_in_bind {A B : Type} (m : M A) (k : A -> M B) (P : A -> Prop)
  (Q : B -> Prop) :
  ends_in m P -> (forall a, P a -> ends_in (k a) Q) -> ends_in (bind m k) Q.
Proof.
  intros Hm Hk w. specialize (Hm w). unfold bind.
  destruct (m w) as [[a|e|] w1]; cbn [fst] in *; auto.
  now apply Hk.
Qed.

Lemma ends_in_weaken {A : Type} (m : M A) (P Q : A -> Prop) :
  ends_in m P -> (forall a, P a -> Q a) -> ends_in m Q.
Proof.
  intros Hm HPQ w. specialize (Hm w).
  destruct (fst (m w)); auto.
Qed.

Lemma ends_in_input (prompt : fstring) (Q : str -> Prop) :
  (forall line, Q line) -> ends_in (input prompt) Q.
Proof.
  intros HQ w. unfold input. destruct (stdin w); cbn; auto.
Qed.

Section Safety.

Variable server : request -> response.
Variable token : option str.
Variable max_digits : nat.
Variable now : str.
Variable open_error : fstring -> option exn.
Hypothesis Hapi : api_shaped server token.

Lemma search_users_shaped (query : str) :
  returns (search_users server token query) (fun users => users_ok users = true).
Proof.
  intros w. destruct Hapi as (Hsearch & _ & _). specialize (Hsearch query).
  unfold search_users, try_except, bind, requests_get, raise_for_status.
  destruct (server (search_request token query))
    as [|status body lks|status e lks].
  - eexists _, _. split; reflexivity.
  - unfold answer_ok, ok_status in Hsearch.
    destruct ((400 <=? status) && (status <? 600))%Z;
      [eexists _, _; split; reflexivity|].
    destruct body as [data|]; [|eexists _, _; split; reflexivity].
    cbn [negb orb] in Hsearch.
    destruct data as [| | | | |d]; try discriminate.
    cbn [response_json decoded ret lift py_get].
    unfold search_body_ok in Hsearch.
    destruct (dict_lookup d (u "items")) as [users|];
      eexists _, _; (split; [reflexivity|auto]).
  - unfold answer_ok, ok_status in Hsearch.
    destruct ((400 <=? status) && (status <? 600))%Z;
      [eexists _, _; split; reflexivity|].
    destruct e; try discriminate. eexists _, _. split; reflexivity.
Qed.

Lemma repos_page_shaped (username : pyval) (page : Z) (repos : list pyval) :
  forallb displayable repos = true ->
  returns (repos_page server token username page repos)
          (fun turn => forallb displayable (snd turn) = true).
Proof.
  intros Hrepos w. destruct Hapi as (_ & Hlisting & _).
  specialize (Hlisting username page).
  unfold repos_page, try_except, bind, requests_get, raise_for_status.
  destruct (server (repos_request token username page))
    as [|status body lks|status e lks].
  - eexists _, _. split; [reflexivity|exact Hrepos].
  - unfold answer_ok, ok_status in Hlisting.
    destruct ((400 <=? status) && (status <? 600))%Z;
      [eexists _, _; split; [reflexivity|exact Hrepos]|].
    destruct body as [page_repos|];
      [|eexists _, _; split; [reflexivity|exact Hrepos]].
    cbn [negb orb] in Hlisting. cbn [response_json decoded lift].
    unfold listing_body_ok in Hlisting.
    destruct (truthy page_repos) eqn:Htruthy;
      [|eexists _, _; split; [reflexivity|exact Hrepos]].
    cbn [negb orb] in Hlisting.
    destruct page_repos as [| | | |items|]; try discriminate.
    cbn [negb lift py_iter].
    destruct (existsb (str_eqb (u "next")) lks);
      eexists _, _; (split; [reflexivity|]); cbn [snd];
      rewrite forallb_app, Hrepos, Hlisting; reflexivity.
  - unfold answer_ok, ok_status in Hlisting.
    destruct ((400 <=? status) && (status <? 600))%Z;
      [eexists _, _; split; [reflexivity|exact Hrepos]|].
    destruct e; try discriminate.
    eexists _, _. split; [reflexivity|exact Hrepos].
Qed.

Lemma repos_loop_shaped (username : pyval) (fuel : nat) :
  forall (page : Z) (repos : list pyval),
    forallb displayable repos = true ->
    ends_in (repos_loop server token fuel username page repos)
            (fun all => forallb displayable all = true).
Proof.
  induction fuel as [|fuel IH]; intros page repos Hrepos.
  - intros w. exact I.
  - cbn [repos_loop].
    apply ends_in_bind
      with (P := fun turn => forallb displayable (snd turn) = true).
    + apply ends_in_returns. now apply repos_page_shaped.
    + intros [more repos'] Hturn. cbn [snd] in Hturn.
      destruct more; [now apply IH|].
      apply ends_in_returns. now apply returns_ret.
Qed.

Lemma languages_of_shaped (username repo_name : pyval) :
  languages_of server token username repo_name <> None.
Proof.
  destruct Hapi as (_ & _ & Hlanguages).
  specialize (Hlanguages username repo_name).
  unfold languages_of. unfold answer_ok in Hlanguages.
  destruct (server (languages_request token username repo_name))
    as [|status body lks|status e lks]; [discriminate| |].
  - destruct (ok_status status); [|discriminate].
    destruct body as [[| | | | |d]|]; discriminate.
  - destruct (ok_status status); [|discriminate].
    cbn in Hlanguages. rewrite Hlanguages. discriminate.
Qed.

Lemma get_repo_languages_shaped (username repo_name : pyval) :
  returns (get_repo_languages server token username repo_name)
          (fun _ => True).
Proof.
  intros w.
  pose proof (get_repo_languages_outcome server token username repo_name w)
    as Hget.
  pose proof (languages_of_shaped username repo_name) as Hshaped.
  destruct (languages_of server token username repo_name) as [languages|];
    [|contradiction].
  destruct Hget as [shown ->]. eexists _, _. split; [reflexivity|exact I].
Qed.

Lemma returns_py_get (d : list (str * pyval)) (k : str) (default : pyval) :
  returns (lift (py_get (PDict d) k default)) (fun _ => True).
Proof.
  unfold py_get. destruct (dict_lookup d k); now apply returns_lift.
Qed.

(** A field [get] finds to be true is there for [repo[k]]. *)
Lemma returns_py_get_item (d : list (str * pyval)) (k : str) :
  returns (lift (py_get (PDict d) k PNone))
          (fun v => truthy v = true -> py_item (PDict d) k = Ok v).
Proof.
  unfold py_get, py_item. destruct (dict_lookup d k); apply returns_lift;
    [reflexivity|discriminate].
Qed.

Ltac step_print :=
  apply returns_bind with (P := fun _ => True);
  [apply returns_print; exact I | intros _ _].

Ltac step_get :=
  apply returns_bind with (P := fun _ => True);
  [apply returns_py_get | intros ? _].

Lemma show_repo_displayable (username : pyval) (i : nat) (repo : pyval) :
  displayable repo = true ->
  returns (show_repo server token username i repo) (fun _ => True).
Proof.
  intros Hshow. unfold displayable in Hshow.
  apply andb_true_iff in Hshow as [Hrecord Hupdated].
  destruct repo as [| | | | |d]; try discriminate.
  unfold repository_record in Hrecord.
  destruct (dict_lookup d (u "name")) as [name|] eqn:Hname; [|discriminate].
  unfold show_repo. unfold py_item at 1 2. rewrite Hname, bind_lift_ok.
  step_print. step_get. step_print. step_get. step_print. step_get.
  step_print.
  apply returns_bind with (P := fun v => exists r, py_prefix v 10 = Ok r).
  { unfold py_get.
    destruct (dict_lookup d (u "updated_at")) as [[| | |s|l|]|];
      try discriminate; apply returns_lift; eexists; reflexivity. }
  intros updated [updated10 ->]. rewrite bind_lift_ok.
  step_print. step_get. step_print. rewrite bind_lift_ok.
  apply returns_bind with (P := fun _ => True);
    [apply get_repo_languages_shaped | intros languages _].
  apply returns_bind with (P := fun _ => True).
  { destruct (truthy (PList (map PStr languages)));
      apply returns_print; exact I. }
  intros _ _.
  apply returns_bind
    with (P := fun v => truthy v = true
                        -> py_item (PDict d) (u "language") = Ok v);
    [apply returns_py_get_item | intros language Hlanguage].
  apply returns_bind with (P := fun _ => True).
  { destruct (truthy language); [|now apply returns_ret].
    rewrite (Hlanguage eq_refl), bind_lift_ok. apply returns_print. exact I. }
  intros _ _.
  apply returns_bind with (P := fun _ => True);
    [apply returns_py_get | intros has_issues _].
  apply returns_bind with (P := fun _ => True).
  { destruct (truthy has_issues); [|now apply returns_ret].
    step_get. apply returns_print. exact I. }
  intros _ _.
  apply returns_bind
    with (P := fun v => truthy v = true
                        -> exists l, v = PDict l
                                     /\ py_item (PDict d) (u "license") = Ok v).
  { unfold py_get, py_item.
    destruct (dict_lookup d (u "license")) as [[| | | | |l]|];
      apply returns_lift; cbn [truthy] in *;
      try discriminate;
      try (intros Ht; rewrite Ht in Hrecord; discriminate).
    intros _. now exists l. }
  intros license Hlicense.
  apply returns_bind with (P := fun _ => True).
  { destruct (truthy license); [|now apply returns_ret].
    destruct (Hlicense eq_refl) as (l & -> & ->). rewrite bind_lift_ok.
    step_get. apply returns_print. exact I. }
  intros _ _. apply returns_print. exact I.
Qed.

Lemma for_enumerate_returns {A : Type} (body : nat -> A -> M unit)
  (l : list A) :
  (forall i x, In x l -> returns (body i x) (fun _ => True)) ->
  forall i, returns (for_enumerate body i l) (fun _ => True).
Proof.
  induction l as [|x l IH]; intros Hbody i.
  - now apply returns_ret.
  - cbn [for_enumerate]. apply returns_bind with (P := fun _ => True).
    + apply Hbody. now left.
    + intros _ _. apply IH. intros j y Hy. apply Hbody. now right.
Qed.

Lemma display_repos_displayable (username : pyval) (repos : list pyval) :
  forallb displayable repos = true ->
  returns (display_repos server token repos username) (fun _ => True).
Proof.
  intros Hrepos. unfold display_repos.
  destruct (truthy (PList repos)); cbn [negb];
    [|apply returns_print; exact I].
  step_print. step_print. apply for_enumerate_returns.
  intros i repo Hrepo. apply show_repo_displayable.
  rewrite forallb_forall in Hrepos. now apply Hrepos.
Qed.

Lemma displayable_exportable (username repo : pyval) :
  displayable repo = true -> exportable server token username repo.
Proof.
  unfold displayable. intros [Hrecord _]%andb_true_iff.
  split; [exact Hrecord|apply languages_of_shaped].
Qed.

Lemma export_to_json_displayable (username : pyval) (repos : list pyval)
  (filename : option str) :
  forallb displayable repos = true ->
  returns (export_to_json server token max_digits now open_error repos
                          username filename)
          (fun _ => True).
Proof.
  intros Hrepos w.
  assert (Hexportable : Forall (exportable server token username) repos).
  { apply Forall_forall. intros repo Hrepo. apply displayable_exportable.
    rewrite forallb_forall in Hrepos. now apply Hrepos. }
  destruct (export_repos_entries server token username repos Hexportable w)
    as (rs & shown & Hentries).
  unfold export_to_json, bind at 1. rewrite Hentries.
  unfold try_except, bind, write_json.
  destruct (open_error (chosen_filename username filename));
    [eexists _, _; split; [reflexivity|exact I]|].
  destruct (dump_error max_digits _);
    eexists _, _; (split; [reflexivity|exact I]).
Qed.

Lemma select_turn_ends (us : list pyval) :
  forallb candidate_user us = true ->
  ends_in (select_turn max_digits (PList us)) (fun _ => True).
Proof.
  intros Hus w. unfold select_turn, try_except, bind, input.
  destruct (stdin w) as [|line rest]; [reflexivity|].
  destruct (str_eqb (py_lower (py_strip line)) (u "q")); [exact I|].
  destruct (py_int max_digits (py_strip line)) as [n|]; [|exact I].
  cbn [lift py_len].
  destruct ((1 <=? n) && (n <=? Z.of_nat (length us)))%Z eqn:Hrange;
    [|exact I].
  apply andb_true_iff in Hrange as [H1 H2].
  apply Z.leb_le in H1, H2. unfold py_index.
  destruct (nth_error us (Z.to_nat (n - 1))) as [user|] eqn:Huser.
  2:{ apply nth_error_None in Huser. lia. }
  assert (Hcand : candidate_user user = true).
  { rewrite forallb_forall in Hus. apply Hus.
    now apply nth_error_In with (n := Z.to_nat (n - 1)). }
  destruct user as [| | | | |d]; try discriminate.
  unfold candidate_user in Hcand. unfold py_item.
  destruct (dict_lookup d (u "login")); [exact I|discriminate].
Qed.

Lemma select_loop_ends (us : list pyval) (fuel : nat) :
  forallb candidate_user us = true ->
  ends_in (select_loop max_digits fuel (PList us)) (fun _ => True).
Proof.
  intros Hus. induction fuel as [|fuel IH]; [intros w; exact I|].
  cbn [select_loop]. apply ends_in_bind with (P := fun _ => True).
  - now apply select_turn_ends.
  - intros [v|] _; [|exact IH]. apply ends_in_returns. now apply returns_ret.
Qed.

Lemma display_user_selection_ends (users : pyval) :
  users_ok users = true ->
  ends_in (display_user_selection max_digits users) (fun _ => True).
Proof.
  intros Husers. unfold display_user_selection, users_ok in *.
  destruct (truthy users); cbn [negb orb] in *.
  2:{ apply ends_in_returns. step_print. now apply returns_ret. }
  destruct users as [| | | |us|]; try discriminate.
  apply ends_in_bind with (P := fun _ => True).
  - apply ends_in_returns. intros w. eexists tt, _.
    split; [|exact I]. apply list_users_candidates.
    apply Forall_forall. now rewrite forallb_forall in Husers.
  - intros _ _ w. unfold prompt_loop. now apply select_loop_ends.
Qed.

Ltac ends_print :=
  apply ends_in_bind with (P := fun _ => True);
  [apply ends_in_returns, returns_print; exact I | intros _ _].

Lemma search_and_display_ends (fuel : nat) :
  ends_in (search_and_display server token max_digits now open_error fuel)
          (fun _ => True).
Proof.
  unfold search_and_display.
  apply ends_in_bind with (P := fun _ => True);
    [now apply ends_in_input | intros line _].
  destruct (negb (truthy (PStr (py_strip line))));
    [apply ends_in_returns, returns_print; exact I|].
  ends_print.
  apply ends_in_bind with (P := fun users => users_ok users = true);
    [apply ends_in_returns, search_users_shaped | intros users Husers].
  apply ends_in_bind with (P := fun _ => True);
    [now apply display_user_selection_ends | intros username _].
  destruct (negb (truthy username));
    [apply ends_in_returns; now apply returns_ret|].
  ends_print.
  apply ends_in_bind
    with (P := fun repos => forallb displayable repos = true);
    [now apply repos_loop_shaped | intros repos Hrepos].
  destruct (truthy (PList repos));
    [|apply ends_in_returns, returns_print; exact I].
  apply ends_in_bind with (P := fun _ => True);
    [apply ends_in_returns; now apply display_repos_displayable
    | intros _ _].
  apply ends_in_bind with (P := fun _ => True);
    [now apply ends_in_input | intros answer _].
  destruct (_ || _); [|apply ends_in_returns; now apply returns_ret].
  apply ends_in_bind with (P := fun _ => True);
    [now apply ends_in_input | intros typed _].
  apply ends_in_returns. now apply export_to_json_displayable.
Qed.

Lemma run_turn_ends (fuel : nat) :
  ends_in (run_turn server token max_digits now open_error fuel)
          (fun _ => True).
Proof.
  unfold run_turn. ends_print. ends_print. ends_print.
  apply ends_in_bind with (P := fun _ => True);
    [now apply ends_in_input | intros line _].
  destruct (str_eqb (py_strip line) (u "1")).
  - apply ends_in_bind with (P := fun _ => True);
      [apply search_and_display_ends | intros _ _].
    apply ends_in_returns. now apply returns_ret.
  - destruct (str_eqb (py_strip line) (u "2")); ends_print;
      apply ends_in_returns; now apply returns_ret.
Qed.

Lemma run_loop_ends (turns fuel : nat) :
  ends_in (run_loop server token max_digits now open_error turns fuel)
          (fun _ => True).
Proof.
  induction turns as [|turns IH]; [intros w; exact I|].
  cbn [run_loop]. apply ends_in_bind with (P := fun _ => True);
    [apply run_turn_ends | intros again _].
  destruct again; [exact IH|]. apply ends_in_returns. now apply returns_ret.
Qed.

Lemma run_ends (fuel : nat) :
  ends_in (run server token max_digits now open_error fuel) (fun _ => True).
Proof.
  unfold run. ends_print. ends_print. ends_print.
  intros w. apply run_loop_ends.
Qed.

End Safety.

(** ** Leaving the session *)

Section Leaving.

Variable server : request -> response.
Variable token : option str.
Variable max_digits : nat.
Variable now : str.
Variable open_error : fstring -> option exn.
Variable fuel : nat.

(** The menu loop breaks only after it said goodbye. *)
Lemma run_turn_break (w w' : world) :
  run_turn server token max_digits now open_error fuel w = (Ok false, w') ->
  exists shown, stdout w' = shown ++ [goodbye].
Proof.
  unfold run_turn, bind, print, input. cbn [stdin stdout sent naps files].
  destruct (stdin w) as [|line rest]; [discriminate|].
  destruct (str_eqb (py_strip line) (u "1")).
  - destruct (search_and_display _ _ _ _ _ _ _) as [[[]| |] w1];
      discriminate.
  - destruct (str_eqb (py_strip line) (u "2")); [|discriminate].
    intros [= <-]. eexists. reflexivity.
Qed.

Lemma run_loop_exit (turns : nat) :
  forall w w' : world,
    run_loop server token max_digits now open_error turns fuel w = (Ok tt, w') ->
    exists shown, stdout w' = shown ++ [goodbye].
Proof.
  induction turns as [|turns IH]; intros w w'; [discriminate|].
  cbn [run_loop]. unfold bind.
  destruct (run_turn server token max_digits now open_error fuel w)
    as [[[|]| |] w1] eqn:Hturn; try discriminate.
  - apply IH.
  - intros [= <-]. exact (run_turn_break w w1 Hturn).
Qed.

Lemma run_exit (w w' : world) :
  run server token max_digits now open_error fuel w = (Ok tt, w') ->
  exists shown, stdout w' = shown ++ [goodbye].
Proof.
  unfold run, bind, print. apply run_loop_exit.
Qed.


End Leaving.

Lemma mock_api_shaped : api_shaped mock_api None.
Proof.
  repeat split.
  - intros username page. unfold mock_api, page_of. cbn [params repos_request].
    change (dict_lookup _ (u "q")) with (@None pyval).
    change (dict_lookup _ (u "page")) with (Some (PInt page)).
    cbv beta iota. destruct (page =? 1)%Z eqn:Hpage; reflexivity.
Qed.



(** * Further properties of the code *)

(** ** Search *)

Section SearchOutcome.

Variable server : request -> response.
Variable token : option str.

Lemma search_users_failed (query : str) (e : req_error) (w : world) :
  request_error server (search_request token query) = Some e ->
  search_users server token query w
  = (Ok (PList []),
     after w [search_request token query] 0
           [Print [T "Error searching users: ";
                   FmtExn (RequestException e)]]).
Proof.
  unfold request_error, search_users, try_except, bind, requests_get,
    raise_for_status, ok_status.
  destruct (server _) as [|status body lks|status e' lks].
  - intros [= <-]. cbn. unfold after. cbn. now rewrite Nat.add_0_r.
  - destruct ((400 <=? status) && (status <? 600))%Z; cbn.
    + intros [= <-]. unfold after. cbn. now rewrite Nat.add_0_r.
    + destruct body; [discriminate|]. intros [= <-].
      cbn. unfold after. cbn. now rewrite Nat.add_0_r.
  - destruct ((400 <=? status) && (status <? 600))%Z; cbn.
    + intros [= <-]. unfold after. cbn. now rewrite Nat.add_0_r.
    + destruct e'; try discriminate. intros [= <-].
      cbn. unfold after. cbn. now rewrite Nat.add_0_r.
Qed.

Lemma search_users_items (query : str) (status : Z) (d : list (str * pyval))
  (lks : list str) (w : world) :
  server (search_request token query) = Response status (Some (PDict d)) lks ->
  ok_status status = true ->
  search_users server token query w
  = (Ok (match dict_lookup d (u "items") with
         | Some users => users
         | None => PList []
         end),
     after w [search_request token query] 0 []).
Proof.
  intros Hs Hok.
  unfold search_users, try_except, bind, requests_get, raise_for_status.
  rewrite Hs. unfold ok_status in Hok.
  destruct ((400 <=? status) && (status <? 600))%Z; [discriminate|].
  unfold response_json, decoded, ret, lift, py_get.
  destruct (dict_lookup d (u "items")); unfold after; cbn;
    now rewrite app_nil_r, Nat.add_0_r.
Qed.

(** X1.  [search_users] sends one request, for the query and ten results a
    page, whatever comes of it.  When the request fails (no response, an error
    status, a body that is not JSON) it prints the error and returns the empty
    list; when the answer is an object it returns what the object holds under
    "items", as it is, and the empty list when it holds nothing there. *)
Theorem search_users_outcome (query : str) (w : world) :
  sent (snd (search_users server token query w))
  = sent w ++ [search_request token query]
  /\ params (search_request token query)
     = [(u "q", PStr query); (u "per_page", PInt 10)]
  /\ (forall e : req_error,
        request_error server (search_request token query) = Some e ->
        search_users server token query w
        = (Ok (PList []),
           after w [search_request token query] 0
                 [Print [T "Error searching users: ";
                         FmtExn (RequestException e)]]))
  /\ (forall (status : Z) (d : list (str * pyval)) (lks : list str),
        server (search_request token query)
        = Response status (Some (PDict d)) lks ->
        ok_status status = true ->
        search_users server token query w
        = (Ok (match dict_lookup d (u "items") with
               | Some users => users
               | None => PList []
               end),
           after w [search_request token query] 0 [])).
Proof.
  split; [|split; [reflexivity|split]].
  - unfold search_users, try_except, bind, requests_get, raise_for_status.
    destruct (server _) as [|status body lks|status e lks]; [reflexivity| |].
    + destruct ((400 <=? status) && (status <? 600))%Z; [reflexivity|].
      destruct body as [data|]; [|reflexivity].
      cbn [response_json decoded ret lift].
      destruct data as [| | | | |d]; try reflexivity.
      unfold py_get. destruct (dict_lookup d (u "items")); reflexivity.
    + destruct ((400 <=? status) && (status <? 600))%Z; [reflexivity|].
      destruct e; reflexivity.
  - intros e. apply search_users_failed.
  - intros status d lks. apply search_users_items.
Qed.

End SearchOutcome.

(** A search endpoint that is down, and one that answers with two users. *)
Lemma search_users_outcome_witness :
  search_users search_down None (u "octocat") quiet
  = (Ok (PList []),
     after quiet [search_request None (u "octocat")] 0
           [Print [T "Error searching users: ";
                   FmtExn (RequestException (HTTPError 502))]])
  /\ search_users mock_api None (u "octocat") quiet
     = (Ok (PList two_users),
        after quiet [search_request None (u "octocat")] 0 []).
Proof.
  split.
  - apply (proj1 (proj2 (proj2 (search_users_outcome search_down None
                                   (u "octocat") quiet)))
             (HTTPError 502)).
    reflexivity.
  - apply (proj2 (proj2 (proj2 (search_users_outcome mock_api None
                                   (u "octocat") quiet)))
             200%Z [(u "total_count", PInt 2); (u "items", PList two_users)]
             []); reflexivity.
Defined.

(** ** Paging, whatever the server answers *)

Section Paging.

Variable server : request -> response.
Variable token : option str.
Variable username : pyval.

(** One turn sends the request of its page and nothing else; it goes on only
    after a pause and without a word, stops after at most one line, and lets
    no RequestException through: what it raises is the TypeError of a body
    that cannot be iterated, or what [response.json()] raised. *)
Lemma repos_page_turn (page : Z) (repos : list pyval) (w : world) :
  exists (n : nat) (shown : list out_item),
    snd (repos_page server token username page repos w)
    = after w [repos_request token username page] n shown
    /\ match fst (repos_page server token username page repos w) with
       | Ok (true, _) => n = 1 /\ shown = []
       | Ok (false, _) => n = 0 /\ length shown <= 1
       | Raise e =>
         is_request_exception e = false
         /\ (e = TypeError
             \/ exists status lks,
                  server (repos_request token username page)
                  = Undecodable status e lks)
         /\ n = 0 /\ shown = []
       | OutOfFuel => False
       end.
Proof.
  unfold repos_page, try_except, bind, requests_get, raise_for_status.
  destruct (server _) as [|status body lks|status e lks] eqn:Hserver.
  { exists 0, [Print [T "Error fetching repositories: ";
                      FmtExn (RequestException Transport)]].
    cbn. unfold after. cbn. rewrite Nat.add_0_r. auto. }
  - destruct ((400 <=? status) && (status <? 600))%Z.
    { exists 0, [Print [T "Error fetching repositories: ";
                        FmtExn (RequestException (HTTPError status))]].
      cbn. unfold after. cbn. rewrite Nat.add_0_r. auto. }
    destruct body as [page_repos|].
    2:{ exists 0, [Print [T "Error fetching repositories: ";
                          FmtExn (RequestException JSONDecodeError)]].
        cbn. unfold after. cbn. rewrite Nat.add_0_r. auto. }
    cbn [response_json decoded ret lift].
    destruct (negb (truthy page_repos)).
    { exists 0, []. unfold after. cbn. rewrite app_nil_r, Nat.add_0_r. auto. }
    destruct (py_iter page_repos) as [items|e|] eqn:Hiter.
    + destruct (negb (existsb (str_eqb (u "next")) lks)).
      * exists 0, []. unfold after. cbn.
        rewrite app_nil_r, Nat.add_0_r. auto.
      * exists 1, []. unfold after, sleep. cbn.
        rewrite app_nil_r, Nat.add_1_r. auto.
    + assert (e = TypeError) as ->
        by (destruct page_repos; cbn in Hiter; congruence).
      exists 0, []. unfold after. cbn. rewrite app_nil_r, Nat.add_0_r. auto.
    + destruct page_repos; discriminate.
  - destruct ((400 <=? status) && (status <? 600))%Z.
    { exists 0, [Print [T "Error fetching repositories: ";
                        FmtExn (RequestException (HTTPError status))]].
      cbn. unfold after. cbn. rewrite Nat.add_0_r. auto. }
    cbn [response_json lift ret].
    destruct e as [why| | | | | | | | |];
      [exists 0, [Print [T "Error fetching repositories: ";
                         FmtExn (RequestException why)]]
      |exists 0, []..];
      cbn; unfold after; cbn; rewrite ?app_nil_r, Nat.add_0_r; eauto 10.
Qed.

Lemma repos_loop_requests (fuel : nat) :
  forall (page : Z) (repos : list pyval) (w : world),
  exists (k n : nat) (shown : list out_item),
    snd (repos_loop server token fuel username page repos w)
    = after w (map (repos_request token username) (page_numbers page k))
            n shown
    /\ k <= fuel
    /\ length shown <= 1
    /\ match fst (repos_loop server token fuel username page repos w) with
       | Ok _ => k = S n
       | Raise e =>
         k = S n
         /\ is_request_exception e = false
         /\ (e = TypeError
             \/ exists status lks,
                  server (repos_request token username (page + Z.of_nat n))
                  = Undecodable status e lks)
       | OutOfFuel => k = fuel /\ n = fuel
       end.
Proof.
  induction fuel as [|fuel IH]; intros page repos w.
  - exists 0, 0, []. cbn. rewrite after_nothing. auto.
  - destruct (repos_page_turn page repos w) as (n1 & shown1 & Hw & Hr).
    cbn [repos_loop]. unfold bind.
    destruct (repos_page server token username page repos w)
      as [[[[|] repos']|e|] w1]; cbn [fst snd] in Hw, Hr.
    + destruct Hr as [-> ->]. subst w1.
      destruct (IH (page + 1)%Z repos'
                   (after w [repos_request token username page] 1 []))
        as (k & n & shown & Hw & Hk & Hshown & Hr).
      exists (S k), (S n), shown.
      rewrite Hw, after_after, page_numbers_S. cbn [map app Nat.add].
      repeat split; try lia.
      destruct (fst _) as [l|e|]; [lia| |lia].
      destruct Hr as (-> & He & Hwhy). repeat split; [exact He|].
      replace (page + Z.of_nat (S n))%Z with (page + 1 + Z.of_nat n)%Z by lia.
      exact Hwhy.
    + destruct Hr as [-> Hshown]. subst w1.
      exists 1, 0, shown1. cbn. repeat split; try lia.
      do 4 f_equal. lia.
    + destruct Hr as (He & Hwhy & -> & ->). subst w1.
      exists 1, 0, []. cbn [fst snd page_numbers seq map]. 
      rewrite Z.add_0_r. repeat split; try lia; try assumption.
      unfold page_numbers. cbn. do 4 f_equal. lia.
    + contradiction.
Qed.

(** X2.  Whatever the server answers, [get_user_repos] asks for pages
    1, 2, ..., k of the user's repositories, in this order and nothing else,
    pausing once between two requests, and prints at most one line.  No
    RequestException escapes it: when it raises, it is on page k, with the
    TypeError of a body that cannot be iterated or with what
    [response.json()] raised there and is not a RequestException (the
    ValueError of an integer literal past the digit limit). *)
Theorem get_user_repos_requests (fuel : nat) (w : world) :
  exists (k n : nat) (shown : list out_item),
    snd (get_user_repos server token fuel username w)
    = after w (map (repos_request token username) (page_numbers 1 k))
            n shown
    /\ k <= fuel
    /\ length shown <= 1
    /\ match fst (get_user_repos server token fuel username w) with
       | Ok _ => k = S n
       | Raise e =>
         k = S n
         /\ is_request_exception e = false
         /\ (e = TypeError
             \/ exists status lks,
                  server (repos_request token username (Z.of_nat k))
                  = Undecodable status e lks)
       | OutOfFuel => k = fuel /\ n = fuel
       end.
Proof.
  destruct (repos_loop_requests fuel 1%Z [] w)
    as (k & n & shown & Hw & Hk & Hshown & Hr).
  exists k, n, shown. repeat split; try assumption.
  unfold get_user_repos.
  destruct (fst (repos_loop server token fuel username 1 [] w)) as [l|e|];
    try assumption.
  destruct Hr as (-> & He & Hwhy). repeat split; [exact He|].
  replace (Z.of_nat (S n)) with (1 + Z.of_nat n)%Z by lia. exact Hwhy.
Qed.

End Paging.

(** ** A search that finds nobody *)

Section Nobody.

Variable server : request -> response.
Variable token : option str.
Variable max_digits : nat.
Variable now : str.
Variable open_error : fstring -> option exn.

(** X3.  When the search request fails, or its answer holds nothing (or
    something empty) under "items", a search for a non-blank line ends with
    "No users found!": one request was sent, one line was read, no repository
    was asked for and no file written, and the menu is next. *)
Theorem search_and_display_nobody (fuel : nat) (line : str)
  (rest : list str) (w : world) :
  stdin w = line :: rest ->
  truthy (PStr (py_strip line)) = true ->
  finds_nobody server (search_request token (py_strip line)) ->
  exists shown : list out_item,
    length shown <= 1
    /\ search_and_display server token max_digits now open_error fuel w
       = (Ok tt,
          mkWorld rest
                  (stdout w
                   ++ [Prompt [NT "Enter GitHub username or name to search: "];
                       Print [T "ğŸ” Searching for users..."]]
                   ++ shown ++ [Print [T "No users found!"]])
                  (sent w ++ [search_request token (py_strip line)])
                  (naps w) (files w)).
Proof.
  intros Hline Hquery Hnobody.
  unfold search_and_display. unfold bind at 1. unfold input at 1.
  rewrite Hline, Hquery. cbn [negb].
  unfold bind at 1. unfold print at 1. cbn [fst snd].
  unfold bind at 1.
  destruct Hnobody as [Hfails | (status & d & lks & Hs & Hok & Hitems)].
  - destruct (request_error server _) as [e|] eqn:He; [|easy].
    rewrite (search_users_failed _ _ _ _ _ He).
    exists [Print [T "Error searching users: "; FmtExn (RequestException e)]].
    split; [cbn; lia|].
    unfold display_user_selection, bind, print, ret, after. cbn.
    rewrite Nat.add_0_r, <- !app_assoc. reflexivity.
  - rewrite (search_users_items _ _ _ _ _ _ _ Hs Hok).
    exists []. split; [cbn; lia|].
    unfold display_user_selection, bind.
    rewrite Hitems. unfold print, ret, after. cbn.
    rewrite Nat.add_0_r, app_nil_r, <- !app_assoc. reflexivity.
Qed.

End Nobody.

(** The search endpoint is down. *)
Lemma search_and_display_nobody_witness :
  exists shown : list out_item,
    length shown <= 1
    /\ search_and_display search_down None 4300 sample_time every_path_opens 5
         (typing [u " octocat "; u "2"])
       = (Ok tt,
          mkWorld [u "2"]
                  ([Prompt [NT "Enter GitHub username or name to search: "];
                    Print [T "ğŸ” Searching for users..."]]
                   ++ shown ++ [Print [T "No users found!"]])
                  [search_request None (py_strip (u " octocat "))]
                  0 []).
Proof.
  apply (search_and_display_nobody search_down None 4300 sample_time
           every_path_opens 5 (u " octocat ") [u "2"]
           (typing [u " octocat "; u "2"]));
    [reflexivity | reflexivity | left; discriminate].
Defined.

(** ** The prompt loop on any run of rejected lines *)

Section Persisting.

Variable max_digits : nat.

Lemma on_terminal_on_terminal (w : world) (rest rest' : list str)
  (shown shown' : list out_item) :
  on_terminal (on_terminal w rest shown) rest' shown'
  = on_terminal w rest' (shown ++ shown').
Proof.
  unfold on_terminal. cbn. now rewrite app_assoc.
Qed.

Lemma select_turn_rejected (us : list pyval) (line : str) (rest : list str)
  (w : world) :
  stdin w = line :: rest ->
  rejected max_digits (length us) line = true ->
  select_turn max_digits (PList us) w
  = (Ok None, on_terminal w rest (rejection max_digits (length us) line)).
Proof.
  intros Hline Hrej. unfold rejected in Hrej. unfold rejection.
  apply andb_true_iff in Hrej as [Hq Hint]. apply negb_true_iff in Hq.
  destruct (py_int max_digits (py_strip line)) as [n|] eqn:Hn.
  - apply (select_turn_out_of_range _ _ _ _ _ Hline n (length us));
      [exact Hn | reflexivity |].
    apply negb_true_iff, andb_false_iff in Hint. lia.
  - now apply (select_turn_invalid _ _ _ _ _ Hline).
Qed.

Lemma prompt_loop_rejected (us : list pyval) (bad : list str) :
  Forall (fun line => rejected max_digits (length us) line = true) bad ->
  forall (rest : list str) (w : world),
    stdin w = bad ++ rest ->
    prompt_loop max_digits (PList us) w
    = prompt_loop max_digits (PList us)
        (on_terminal w rest
           (concat (map (rejection max_digits (length us)) bad))).
Proof.
  induction 1 as [|line bad Hline _ IH]; intros rest w Hw.
  - f_equal. destruct w. unfold on_terminal. cbn in *.
    now rewrite app_nil_r, Hw.
  - rewrite (prompt_loop_again _ _ _ _ _ Hw _
               (select_turn_rejected _ _ _ _ Hw Hline)).
    rewrite (IH rest (on_terminal w (bad ++ rest) _) eq_refl).
    now rewrite on_terminal_on_terminal.
Qed.

Lemma prompt_loop_eof (users : pyval) (w : world) :
  stdin w = [] ->
  prompt_loop max_digits users w
  = (Raise EOFError, on_terminal w [] [select_prompt]).
Proof.
  intros Hw. unfold prompt_loop. rewrite Hw. cbn [length select_loop].
  unfold select_turn, try_except, bind, input. now rewrite Hw.
Qed.

(** The line that ends the loop: the quit signal, or the number of a user. *)
Lemma prompt_loop_choice (us : list pyval) (line : str) (rest : list str)
  (w : world) :
  Forall (fun user => candidate_user user = true) us ->
  stdin w = line :: rest ->
  (str_eqb (py_lower (py_strip line)) (u "q") = true ->
   prompt_loop max_digits (PList us) w
   = (Ok PNone, on_terminal w rest [select_prompt]))
  /\ (forall n : Z,
        py_int max_digits (py_strip line) = Some n ->
        (1 <= n <= Z.of_nat (length us))%Z ->
        exists user login : pyval,
          nth_error us (Z.to_nat (n - 1)) = Some user
          /\ py_item user (u "login") = Ok login
          /\ prompt_loop max_digits (PList us) w
             = (Ok login, on_terminal w rest [select_prompt])).
Proof.
  intros Hus Hline. split.
  - intros Hq. apply (prompt_loop_return _ _ _ _ _ Hline).
    now apply (select_turn_quit _ _ _ _ _ Hline).
  - intros n Hint Hrange.
    destruct (nth_error us (Z.to_nat (n - 1))) as [user|] eqn:Huser.
    2:{ apply nth_error_None in Huser. lia. }
    assert (Hcand : candidate_user user = true).
    { rewrite Forall_forall in Hus. apply Hus.
      now apply nth_error_In with (n := Z.to_nat (n - 1)). }
    destruct user as [| | | | |d]; try discriminate.
    destruct (dict_lookup d (u "login")) as [login|] eqn:Hlogin.
    2:{ unfold candidate_user in Hcand. now rewrite Hlogin in Hcand. }
    exists (PDict d), login. split; [reflexivity|].
    split; [unfold py_item; now rewrite Hlogin|].
    apply (prompt_loop_return _ _ _ _ _ Hline).
    apply (select_turn_in_range _ _ _ _ _ Hline n (length us) (PDict d));
      try assumption; try reflexivity.
    + unfold py_index. now rewrite Huser.
    + unfold py_item. now rewrite Hlogin.
Qed.

Section Lines.

Variable us : list pyval.
Variable bad : list str.
Variable w : world.
Hypothesis Hne : us <> [].
Hypothesis Hus : Forall (fun user => candidate_user user = true) us.
Hypothesis Hbad :
  Forall (fun line => rejected max_digits (length us) line = true) bad.

Lemma display_user_selection_rejected (rest : list str) :
  stdin w = bad ++ rest ->
  display_user_selection max_digits (PList us) w
  = prompt_loop max_digits (PList us)
      (on_terminal w rest
         (listing (PList us)
          ++ concat (map (rejection max_digits (length us)) bad))).
Proof.
  intros Hw. unfold display_user_selection.
  destruct us as [|user0 us'] eqn:Eus; [easy|]. rewrite <- Eus in *.
  replace (negb (truthy (PList us))) with false by now rewrite Eus.
  unfold bind at 1. rewrite (list_users_candidates _ w Hus).
  rewrite (prompt_loop_rejected us bad Hbad rest); [|exact Hw].
  now rewrite on_terminal_after.
Qed.

(** X4.  However many lines are rejected first (each answered with the message
    for its kind of mistake, and the prompt shown again), the selection ends
    at the first line that is not: "q" in either case returns [None], a number
    [n] between 1 and the number of users returns the login of the [n]-th
    user.  The lines after it are left unread. *)
Theorem display_user_selection_persists (line : str) (rest : list str) :
  stdin w = bad ++ line :: rest ->
  let shown :=
    listing (PList us)
    ++ concat (map (rejection max_digits (length us)) bad)
    ++ [select_prompt] in
  (str_eqb (py_lower (py_strip line)) (u "q") = true ->
   display_user_selection max_digits (PList us) w
   = (Ok PNone, on_terminal w rest shown))
  /\ (forall n : Z,
        py_int max_digits (py_strip line) = Some n ->
        (1 <= n <= Z.of_nat (length us))%Z ->
        exists user login : pyval,
          nth_error us (Z.to_nat (n - 1)) = Some user
          /\ py_item user (u "login") = Ok login
          /\ display_user_selection max_digits (PList us) w
             = (Ok login, on_terminal w rest shown)).
Proof.
  intros Hw shown.
  rewrite (display_user_selection_rejected (line :: rest) Hw).
  set (w1 := on_terminal w (line :: rest) _).
  assert (Hshown : on_terminal w1 rest [select_prompt]
                   = on_terminal w rest shown).
  { unfold w1. rewrite on_terminal_on_terminal. unfold shown.
    now rewrite <- app_assoc. }
  destruct (prompt_loop_choice us line rest w1 Hus eq_refl) as [Hquit Hpick].
  split.
  - intros Hq. now rewrite (Hquit Hq), Hshown.
  - intros n Hint Hrange.
    destruct (Hpick n Hint Hrange) as (user & login & Huser & Hlogin & Hloop).
    exists user, login. now rewrite Hloop, Hshown.
Qed.

(** X5.  When every line left on the terminal is rejected, the selection
    answers each of them, prompts once more and ends in the [EOFError] of
    [input]: the loop has no other way out, and nothing catches it. *)
Theorem display_user_selection_eof :
  stdin w = bad ->
  display_user_selection max_digits (PList us) w
  = (Raise EOFError,
     on_terminal w []
       (listing (PList us)
        ++ concat (map (rejection max_digits (length us)) bad)
        ++ [select_prompt])).
Proof.
  intros Hw.
  rewrite (display_user_selection_rejected []); [|now rewrite app_nil_r].
  rewrite prompt_loop_eof by reflexivity.
  now rewrite on_terminal_on_terminal, <- app_assoc.
Qed.

End Lines.

(** Four kinds of lines that are turned down, and what each is answered
    with: "0", "", "abc" and the numbers above the number of users. *)
Lemma rejected_lines (n_users : nat) (line : str) :
  line = u "0" \/ line = u "" \/ line = u "abc"
  \/ (exists n : Z,
        py_int max_digits (py_strip line) = Some n
        /\ (Z.of_nat n_users < n)%Z) ->
  rejected max_digits n_users line = true
  /\ rejection max_digits n_users line
     = [select_prompt;
        if str_eqb line (u "") || str_eqb line (u "abc")
        then Print [T "Please enter a valid number or 'q' to quit"]
        else Print [T "Please enter a number between 1 and ";
                    Fmt (nat_val n_users)]].
Proof.
  unfold rejected, rejection.
  intros [-> | [-> | [-> | (n & Hint & Hn)]]].
  - rewrite py_int_zero. split; [|reflexivity].
    cbn [negb andb]. change (str_eqb _ _) with false. cbn [negb andb].
    destruct n_users; reflexivity.
  - split; reflexivity.
  - split; reflexivity.
  - rewrite Hint, (py_int_not_quit _ _ _ Hint). split.
    + cbn [negb andb]. apply negb_true_iff, andb_false_iff. lia.
    + replace (str_eqb line (u "") || str_eqb line (u "abc")) with false;
        [reflexivity|].
      symmetry. apply orb_false_iff.
      split; apply not_true_is_false; intros Heq%str_eqb_eq; subst line;
        discriminate.
Qed.

(** C6.  For a non-empty list of candidate users: each of the lines "0", "",
    "abc" and a line that reads as an integer above the number of users is
    answered with the message for its mistake ("Please enter a valid
    number..." for "" and "abc", "Please enter a number between 1 and N" for
    the others) and the prompt is shown again, however many of them come in a
    row: [display_user_selection] neither returns nor raises on such a line,
    and what it returns is decided by the first line after them.  When that
    line is "q" or "Q" it returns [None] at once; when it reads as an integer
    [n] between 1 and the number of users it returns the login of the [n]-th
    user. *)
Theorem display_user_selection_choices (us : list pyval) (bad : list str)
  (line : str) (rest : list str) (w : world) :
  us <> [] ->
  Forall (fun user => candidate_user user = true) us ->
  Forall (fun line =>
            line = u "0" \/ line = u "" \/ line = u "abc"
            \/ exists n : Z,
                 py_int max_digits (py_strip line) = Some n
                 /\ (Z.of_nat (length us) < n)%Z) bad ->
  stdin w = bad ++ line :: rest ->
  let answer := fun line : str =>
    if str_eqb line (u "") || str_eqb line (u "abc")
    then Print [T "Please enter a valid number or 'q' to quit"]
    else Print [T "Please enter a number between 1 and ";
                Fmt (nat_val (length us))] in
  let shown :=
    listing (PList us)
    ++ concat (map (fun line => [select_prompt; answer line]) bad)
    ++ [select_prompt] in
  (line = u "q" \/ line = u "Q" ->
   display_user_selection max_digits (PList us) w
   = (Ok PNone, on_terminal w rest shown))
  /\ (forall n : Z,
        py_int max_digits (py_strip line) = Some n ->
        (1 <= n <= Z.of_nat (length us))%Z ->
        exists user login : pyval,
          nth_error us (Z.to_nat (n - 1)) = Some user
          /\ py_item user (u "login") = Ok login
          /\ display_user_selection max_digits (PList us) w
             = (Ok login, on_terminal w rest shown)).
Proof.
  intros Hne Hus Hbad Hw answer shown.
  assert (Hrejected :
            Forall (fun line => rejected max_digits (length us) line = true)
                   bad).
  { apply Forall_impl with (2 := Hbad). intros l Hl.
    apply (rejected_lines (length us) l Hl). }
  assert (Hanswers :
            map (rejection max_digits (length us)) bad
            = map (fun line => [select_prompt; answer line]) bad).
  { apply map_ext_in. intros l Hl. rewrite Forall_forall in Hbad.
    apply (rejected_lines (length us) l (Hbad l Hl)). }
  rewrite (display_user_selection_rejected us bad w Hne Hus Hrejected
             (line :: rest) Hw), Hanswers.
  set (w1 := on_terminal w (line :: rest) _).
  assert (Hshown : on_terminal w1 rest [select_prompt]
                   = on_terminal w rest shown).
  { unfold w1. rewrite on_terminal_on_terminal. unfold shown.
    now rewrite <- app_assoc. }
  destruct (prompt_loop_choice us line rest w1 Hus eq_refl) as [Hquit Hpick].
  split.
  - intros Hq. rewrite Hquit, Hshown; [reflexivity|].
    now destruct Hq as [-> | ->].
  - intros n Hint Hrange.
    destruct (Hpick n Hint Hrange) as (user & login & Huser & Hlogin & Hloop).
    exists user, login. now rewrite Hloop, Hshown.
Qed.

End Persisting.

(** With two users listed: "0", "", "abc" and "7" are answered and the prompt
    shown again, after which "Q" leaves with no selection and " 2 " selects
    the second user. *)
Lemma display_user_selection_choices_witness :
  let bad := [u "0"; u ""; u "abc"; u "7"] in
  let between :=
    Print [T "Please enter a number between 1 and "; Fmt (nat_val 2)] in
  let invalid := Print [T "Please enter a valid number or 'q' to quit"] in
  let shown :=
    listing (PList two_users)
    ++ [select_prompt; between; select_prompt; invalid;
        select_prompt; invalid; select_prompt; between]
    ++ [select_prompt] in
  display_user_selection 4300 (PList two_users)
    (typing (bad ++ [u "Q"; u "1"]))
  = (Ok PNone, on_terminal (typing (bad ++ [u "Q"; u "1"])) [u "1"] shown)
  /\ exists user login : pyval,
       nth_error two_users (Z.to_nat (2 - 1)) = Some user
       /\ py_item user (u "login") = Ok login
       /\ display_user_selection 4300 (PList two_users)
            (typing (bad ++ [u " 2 "]))
          = (Ok login, on_terminal (typing (bad ++ [u " 2 "])) [] shown).
Proof.
  intros bad between invalid shown.
  assert (Hne : two_users <> []) by discriminate.
  assert (Hus : Forall (fun user => candidate_user user = true) two_users)
    by (repeat constructor).
  assert (Hbad :
            Forall (fun line =>
                      line = u "0" \/ line = u "" \/ line = u "abc"
                      \/ exists n : Z,
                           py_int 4300 (py_strip line) = Some n
                           /\ (Z.of_nat (length two_users) < n)%Z) bad).
  { constructor; [left; reflexivity|].
    constructor; [right; left; reflexivity|].
    constructor; [right; right; left; reflexivity|].
    constructor; [|constructor].
    right. right. right. exists 7%Z. split; [reflexivity|cbn; lia]. }
  split.
  - apply (proj1 (display_user_selection_choices 4300 two_users bad (u "Q")
                    [u "1"] (typing (bad ++ [u "Q"; u "1"])) Hne Hus Hbad
                    eq_refl)).
    right. reflexivity.
  - apply (proj2 (display_user_selection_choices 4300 two_users bad (u " 2 ")
                    [] (typing (bad ++ [u " 2 "])) Hne Hus Hbad eq_refl)
             2%Z);
      [reflexivity | cbn; lia].
Defined.

(** Three rejected lines, then "Q"; three rejected lines, then the digit two
    of the Arabic-Indic script. *)
Lemma display_user_selection_persists_witness :
  let bad := [u "0"; u "two"; u " 3 "] in
  let shown := listing (PList two_users)
               ++ concat (map (rejection 4300 2) bad) ++ [select_prompt] in
  display_user_selection 4300 (PList two_users)
    (typing (bad ++ [u " Q"; u "1"]))
  = (Ok PNone, on_terminal (typing (bad ++ [u " Q"; u "1"])) [u "1"] shown)
  /\ exists user login : pyval,
       nth_error two_users (Z.to_nat (2 - 1)) = Some user
       /\ py_item user (u "login") = Ok login
       /\ display_user_selection 4300 (PList two_users)
            (typing (bad ++ [arabic_two; u "y"]))
          = (Ok login,
             on_terminal (typing (bad ++ [arabic_two; u "y"])) [u "y"]
                         shown).
Proof.
  intros bad shown.
  assert (Hne : two_users <> []) by discriminate.
  assert (Hus : Forall (fun user => candidate_user user = true) two_users)
    by (repeat constructor).
  assert (Hbad : Forall (fun line => rejected 4300 (length two_users) line
                                     = true) bad)
    by (repeat constructor).
  split.
  - apply (proj1 (display_user_selection_persists 4300 two_users bad
                    (typing (bad ++ [u " Q"; u "1"])) Hne Hus Hbad
                    (u " Q") [u "1"] eq_refl)).
    reflexivity.
  - apply (proj2 (display_user_selection_persists 4300 two_users bad
                    (typing (bad ++ [arabic_two; u "y"])) Hne Hus Hbad
                    arabic_two [u "y"] eq_refl) 2%Z);
      [reflexivity | cbn; lia].
Defined.

(** Three rejected lines and nothing more. *)
Lemma display_user_selection_eof_witness :
  let bad := [u "0"; u "two"; u " 3 "] in
  display_user_selection 4300 (PList two_users) (typing bad)
  = (Raise EOFError,
     on_terminal (typing bad) []
       (listing (PList two_users)
        ++ concat (map (rejection 4300 2) bad) ++ [select_prompt])).
Proof.
  intros bad.
  apply (display_user_selection_eof 4300 two_users bad (typing bad)).
  - discriminate.
  - repeat constructor.
  - repeat constructor.
  - reflexivity.
Defined.

(** ** The requests of a display and of an export *)

Lemma emits_ret {A : Type} (a : A) (Q : A -> Prop) :
  Q a -> emits (ret a) [] Q.
Proof.
  intros Ha w. exists a, []. now rewrite after_nothing.
Qed.

Lemma emits_lift {A : Type} (a : A) (Q : A -> Prop) :
  Q a -> emits (lift (Ok a)) [] Q.
Proof.
  intros Ha w. exists a, []. now rewrite after_nothing.
Qed.

Lemma emits_print (line : fstring) (Q : unit -> Prop) :
  Q tt -> emits (print line) [] Q.
Proof.
  intros Ha w. exists tt, [Print line]. split; [|exact Ha].
  unfold print, after. cbn. now rewrite app_nil_r, Nat.add_0_r.
Qed.

Lemma emits_bind {A B : Type} (m : M A) (k : A -> M B)
  (rs1 rs2 : list request) (P : A -> Prop) (Q : B -> Prop) :
  emits m rs1 P -> (forall a, P a -> emits (k a) rs2 Q) ->
  emits (bind m k) (rs1 ++ rs2) Q.
Proof.
  intros Hm Hk w. destruct (Hm w) as (a & shown1 & Hmw & Ha).
  destruct (Hk a Ha (after w rs1 0 shown1)) as (b & shown2 & Hkw & Hb).
  exists b, (shown1 ++ shown2). unfold bind.
  now rewrite Hmw, Hkw, after_after.
Qed.

Lemma emits_first {A B : Type} (m : M A) (k : A -> M B)
  (rs : list request) (P : A -> Prop) (Q : B -> Prop) :
  emits m rs P -> (forall a, P a -> emits (k a) [] Q) ->
  emits (bind m k) rs Q.
Proof.
  intros Hm Hk. rewrite <- (app_nil_r rs). now apply emits_bind with (P := P).
Qed.

Lemma emits_later {A B : Type} (m : M A) (k : A -> M B)
  (rs : list request) (P : A -> Prop) (Q : B -> Prop) :
  emits m [] P -> (forall a, P a -> emits (k a) rs Q) ->
  emits (bind m k) rs Q.
Proof.
  intros Hm Hk. change rs with ([] ++ rs). now apply emits_bind with (P := P).
Qed.

Lemma emits_py_get (d : list (str * pyval)) (k : str) (default : pyval) :
  emits (lift (py_get (PDict d) k default)) [] (fun _ => True).
Proof.
  unfold py_get. destruct (dict_lookup d k); now apply emits_lift.
Qed.

Lemma emits_py_get_item (d : list (str * pyval)) (k : str) :
  emits (lift (py_get (PDict d) k PNone)) []
        (fun v => truthy v = true -> py_item (PDict d) k = Ok v).
Proof.
  unfold py_get, py_item. destruct (dict_lookup d k); apply emits_lift;
    [reflexivity|discriminate].
Qed.

Ltac then_print :=
  apply emits_later with (P := fun _ => True);
  [apply emits_print; exact I | intros _ _].

Ltac then_get :=
  apply emits_later with (P := fun _ => True);
  [apply emits_py_get | intros ? _].

Section Requests.

Variable server : request -> response.
Variable token : option str.
Variable username : pyval.

Lemma get_repo_languages_emits (repo_name : pyval) :
  languages_of server token username repo_name <> None ->
  emits (get_repo_languages server token username repo_name)
        [languages_request token username repo_name] (fun _ => True).
Proof.
  intros Hanswer w.
  pose proof (get_repo_languages_outcome server token username repo_name w)
    as Hget.
  destruct (languages_of server token username repo_name) as [languages|];
    [|contradiction].
  destruct Hget as [shown ->]. now exists languages, shown.
Qed.

Lemma show_repo_emits (i : nat) (repo : pyval) :
  displayable repo = true ->
  languages_of server token username (field repo "name") <> None ->
  emits (show_repo server token username i repo)
        [languages_request token username (field repo "name")]
        (fun _ => True).
Proof.
  intros Hshow Hanswer. unfold displayable in Hshow.
  apply andb_true_iff in Hshow as [Hrecord Hupdated].
  destruct repo as [| | | | |d]; try discriminate.
  unfold repository_record in Hrecord. unfold field in Hanswer |- *.
  destruct (dict_lookup d (u "name")) as [name|] eqn:Hname; [|discriminate].
  unfold show_repo. unfold py_item at 1 2. rewrite Hname, bind_lift_ok.
  then_print. then_get. then_print. then_get. then_print. then_get.
  then_print.
  apply emits_later with (P := fun v => exists r, py_prefix v 10 = Ok r).
  { unfold py_get.
    destruct (dict_lookup d (u "updated_at")) as [[| | |s|l|]|];
      try discriminate; apply emits_lift; eexists; reflexivity. }
  intros updated [updated10 ->]. rewrite bind_lift_ok.
  then_print. then_get. then_print. rewrite bind_lift_ok.
  apply emits_first with (P := fun _ => True);
    [now apply get_repo_languages_emits | intros languages _].
  apply emits_later with (P := fun _ => True).
  { destruct (truthy (PList (map PStr languages)));
      apply emits_print; exact I. }
  intros _ _.
  apply emits_later
    with (P := fun v => truthy v = true
                        -> py_item (PDict d) (u "language") = Ok v);
    [apply emits_py_get_item | intros language Hlanguage].
  apply emits_later with (P := fun _ => True).
  { destruct (truthy language); [|now apply emits_ret].
    rewrite (Hlanguage eq_refl), bind_lift_ok. apply emits_print. exact I. }
  intros _ _.
  apply emits_later with (P := fun _ => True);
    [apply emits_py_get | intros has_issues _].
  apply emits_later with (P := fun _ => True).
  { destruct (truthy has_issues); [|now apply emits_ret].
    then_get. apply emits_print. exact I. }
  intros _ _.
  apply emits_later
    with (P := fun v => truthy v = true
                        -> exists l, v = PDict l
                                     /\ py_item (PDict d) (u "license") = Ok v).
  { unfold py_get, py_item.
    destruct (dict_lookup d (u "license")) as [[| | | | |l]|];
      apply emits_lift; cbn [truthy] in *;
      try discriminate;
      try (intros Ht; rewrite Ht in Hrecord; discriminate).
    intros _. now exists l. }
  intros license Hlicense.
  apply emits_later with (P := fun _ => True).
  { destruct (truthy license); [|now apply emits_ret].
    destruct (Hlicense eq_refl) as (l & -> & ->). rewrite bind_lift_ok.
    then_get. apply emits_print. exact I. }
  intros _ _. apply emits_print. exact I.
Qed.

Lemma for_enumerate_emits (repos : list pyval) :
  Forall (fun repo =>
            displayable repo = true
            /\ languages_of server token username (field repo "name")
               <> None) repos ->
  forall i : nat,
    emits (for_enumerate (show_repo server token username) i repos)
          (language_requests token username repos) (fun _ => True).
Proof.
  induction 1 as [|repo repos [Hshow Hanswer] _ IH]; intros i.
  - now apply emits_ret.
  - cbn [for_enumerate].
    change (language_requests token username (repo :: repos))
      with ([languages_request token username (field repo "name")]
            ++ language_requests token username repos).
    apply emits_bind with (P := fun _ => True).
    + now apply show_repo_emits.
    + intros _ _. apply IH.
Qed.

(** X6.  Showing a list of repositories that can be shown, whose languages
    the endpoint answers or fails to answer, sends one languages request for
    each repository, in the order of the list, and nothing else: it returns,
    does not pause, reads no line and touches no file. *)
Theorem display_repos_requests (repos : list pyval) (w : world) :
  Forall (fun repo =>
            displayable repo = true
            /\ languages_of server token username (field repo "name")
               <> None) repos ->
  exists shown : list out_item,
    display_repos server token repos username w
    = (Ok tt, after w (language_requests token username repos) 0 shown).
Proof.
  intros Hrepos.
  assert (Hemits : emits (display_repos server token repos username)
                         (language_requests token username repos)
                         (fun _ => True)).
  { unfold display_repos. destruct repos as [|repo repos'].
    - cbn [truthy negb]. apply emits_print. exact I.
    - cbn [truthy negb]. then_print. then_print.
      now apply for_enumerate_emits. }
  destruct (Hemits w) as ([] & shown & Hw & _). now exists shown.
Qed.

End Requests.

Section Exporting.

Variable server : request -> response.
Variable token : option str.
Variable max_digits : nat.
Variable now : str.
Variable open_error : fstring -> option exn.
Variable username : pyval.

Lemma export_repos_emits (repos : list pyval) :
  Forall (exportable server token username) repos ->
  emits (export_repos server token username repos)
        (language_requests token username repos)
        (fun entries =>
           entries
           = map (fun repo =>
                    snapshot_entry (languages_list server token username repo)
                                   repo) repos).
Proof.
  induction 1 as [|repo repos Hrepo _ IH].
  - now apply emits_ret.
  - cbn [export_repos].
    change (language_requests token username (repo :: repos))
      with ([languages_request token username (field repo "name")]
            ++ language_requests token username repos).
    apply emits_bind
      with (P := fun entry =>
                   entry = snapshot_entry
                             (languages_list server token username repo) repo).
    + intros w.
      destruct (export_repo_entry server token username repo w Hrepo)
        as [shown ->].
      now eexists _, shown.
    + intros entry ->. eapply emits_first; [exact IH|].
      intros entries ->. now apply emits_ret.
Qed.

Section Written.

Variable repos : list pyval.
Variable filename : option str.
Variable w : world.
Hypothesis Hrepos : Forall (exportable server token username) repos.

(** X7.  For repository records whose languages the endpoint answers or fails
    to answer, [export_to_json] asks for the languages of every repository
    again, one request each in the order of the list, whatever was fetched for
    the display; and whatever the disk and the serializer do, it returns: it
    prints, reads no line and does not pause. *)
Theorem export_to_json_requests :
  exists (shown : list out_item) (written : list (fstring * file)),
    export_to_json server token max_digits now open_error repos username
                   filename w
    = (Ok tt,
       mkWorld (stdin w) (stdout w ++ shown)
               (sent w ++ language_requests token username repos) (naps w)
               (files w ++ written))
    /\ length written <= 1.
Proof.
  destruct (export_repos_emits repos Hrepos w) as (entries & shown & Hw & _).
  unfold export_to_json, bind at 1. rewrite Hw.
  unfold try_except, bind, write_json, print, after.
  cbn [fst snd stdin stdout sent naps files].
  rewrite Nat.add_0_r.
  destruct (open_error (chosen_filename username filename)) as [e|].
  - exists (shown ++ [Print [T "Error exporting data: "; FmtExn e]]), [].
    cbn [fst snd stdin stdout sent naps files length].
    rewrite app_nil_r, <- app_assoc. auto.
  - destruct (dump_error max_digits _) as [e|].
    + exists (shown ++ [Print [T "Error exporting data: "; FmtExn e]]),
        [(chosen_filename username filename, Partial)].
      cbn [fst snd stdin stdout sent naps files length].
      rewrite <- app_assoc. auto.
    + exists (shown ++ [Print (NT "ğŸ’¾ Data exported to "
                               :: chosen_filename username filename)]),
        [(chosen_filename username filename,
          Complete (json_dumps (export_data now username repos entries)))].
      cbn [fst snd stdin stdout sent naps files length].
      rewrite <- app_assoc. auto.
Qed.

(** X8.  When the file cannot be opened, [export_to_json] still returns: the
    languages were asked for, the last line shown is "Error exporting data: "
    with the error, and no file is written. *)
Theorem export_to_json_open_fails (e : exn) :
  open_error (chosen_filename username filename) = Some e ->
  exists shown : list out_item,
    export_to_json server token max_digits now open_error repos username
                   filename w
    = (Ok tt,
       after w (language_requests token username repos) 0
             (shown ++ [Print [T "Error exporting data: "; FmtExn e]])).
Proof.
  intros Hopen.
  destruct (export_repos_emits repos Hrepos w) as (entries & shown & Hw & _).
  unfold export_to_json, bind at 1. rewrite Hw.
  unfold try_except, bind, write_json. rewrite Hopen.
  exists shown. unfold print, after. cbn.
  now rewrite Nat.add_0_r, <- app_assoc.
Qed.


End Written.

End Exporting.

Lemma sample_repos_exportable :
  Forall (exportable mock_api None octocat) sample_repos.
Proof.
  repeat constructor; discriminate.
Qed.

(** The two sample repositories against the mock API. *)
Lemma display_repos_requests_witness :
  exists shown : list out_item,
    display_repos mock_api None sample_repos octocat quiet
    = (Ok tt,
       after quiet (language_requests None octocat sample_repos) 0 shown).
Proof.
  apply (display_repos_requests mock_api None octocat sample_repos quiet).
  repeat constructor; discriminate.
Defined.

(** The same export on a disk that takes the file and on one that does not. *)
Lemma export_to_json_requests_witness :
  (exists (shown : list out_item) (written : list (fstring * file)),
      export_to_json mock_api None 4300 sample_time every_path_opens
                     sample_repos octocat None quiet
      = (Ok tt,
         mkWorld [] ([] ++ shown)
                 ([] ++ language_requests None octocat sample_repos) 0
                 ([] ++ written))
      /\ length written <= 1)
  /\ (exists (shown : list out_item) (written : list (fstring * file)),
         export_to_json mock_api None 4300 sample_time read_only_disk
                        sample_repos octocat None quiet
         = (Ok tt,
            mkWorld [] ([] ++ shown)
                    ([] ++ language_requests None octocat sample_repos) 0
                    ([] ++ written))
         /\ length written <= 1).
Proof.
  split.
  - apply (export_to_json_requests mock_api None 4300 sample_time
             every_path_opens octocat sample_repos None quiet).
    repeat constructor; discriminate.
  - apply (export_to_json_requests mock_api None 4300 sample_time
             read_only_disk octocat sample_repos None quiet).
    repeat constructor; discriminate.
Defined.

(** A disk that refuses every path. *)
Lemma export_to_json_open_fails_witness :
  exists shown : list out_item,
    export_to_json mock_api None 4300 sample_time read_only_disk
                   sample_repos octocat (Some (u "out.json")) quiet
    = (Ok tt,
       after quiet (language_requests None octocat sample_repos) 0
             (shown ++ [Print [T "Error exporting data: "; FmtExn OSError]])).
Proof.
  apply (export_to_json_open_fails mock_api None 4300 sample_time
           read_only_disk octocat sample_repos (Some (u "out.json")) quiet).
  - repeat constructor; discriminate.
  - reflexivity.
Defined.


(** ** The menu *)

Section Menu.

Variable server : request -> response.
Variable token : option str.
Variable max_digits : nat.
Variable now : str.
Variable open_error : fstring -> option exn.
Variable fuel : nat.

Lemma run_turn_other (line : str) (rest : list str) (w : world) :
  stdin w = line :: rest ->
  other_choice line = true ->
  run_turn server token max_digits now open_error fuel w
  = (Ok true, on_terminal w rest (menu ++ [invalid_choice])).
Proof.
  intros Hw Hother. unfold other_choice in Hother.
  apply andb_true_iff in Hother as [H1 H2].
  apply negb_true_iff in H1, H2.
  unfold run_turn, bind, print, input. cbn [stdin stdout sent naps files fst snd].
  rewrite Hw, H1, H2. unfold on_terminal, ret, menu, invalid_choice. cbn.
  now rewrite <- !app_assoc.
Qed.

Lemma run_turn_leave (line : str) (rest : list str) (w : world) :
  stdin w = line :: rest ->
  py_strip line = u "2" ->
  run_turn server token max_digits now open_error fuel w
  = (Ok false, on_terminal w rest (menu ++ [goodbye])).
Proof.
  intros Hw Hline.
  unfold run_turn, bind, print, input. cbn [stdin stdout sent naps files fst snd].
  rewrite Hw, Hline. unfold on_terminal, ret, menu, goodbye. cbn.
  now rewrite <- !app_assoc.
Qed.

Lemma run_turn_eof (w : world) :
  stdin w = [] ->
  run_turn server token max_digits now open_error fuel w
  = (Raise EOFError, on_terminal w [] menu).
Proof.
  intros Hw.
  unfold run_turn, bind, print, input. cbn [stdin stdout sent naps files fst snd].
  rewrite Hw. unfold on_terminal, menu. cbn.
  now rewrite <- !app_assoc.
Qed.

Lemma run_loop_other (junk : list str) :
  Forall (fun line => other_choice line = true) junk ->
  forall (turns : nat) (rest : list str) (w : world),
    stdin w = junk ++ rest ->
    run_loop server token max_digits now open_error (length junk + turns)
             fuel w
    = run_loop server token max_digits now open_error turns fuel
        (on_terminal w rest
           (concat (map (fun _ => menu ++ [invalid_choice]) junk))).
Proof.
  induction 1 as [|line junk Hline _ IH]; intros turns rest w Hw.
  - f_equal. destruct w. unfold on_terminal. cbn in *.
    now rewrite app_nil_r, Hw.
  - cbn [length Nat.add run_loop]. unfold bind at 1.
    rewrite (run_turn_other line (junk ++ rest) w Hw Hline).
    rewrite (IH turns rest (on_terminal w (junk ++ rest) _) eq_refl).
    now rewrite on_terminal_on_terminal.
Qed.

Lemma run_banner (w : world) :
  run server token max_digits now open_error fuel w
  = run_loop server token max_digits now open_error (S (length (stdin w)))
             fuel (on_terminal w (stdin w) banner).
Proof.
  unfold run, bind, print, on_terminal, banner. cbn.
  now rewrite <- !app_assoc.
Qed.

Section Choices.

Variable junk : list str.
Variable w : world.
Hypothesis Hjunk : Forall (fun line => other_choice line = true) junk.

(** X10.  Whatever the token, [run] shows its banner; then every line that is
    neither 1 nor 2 (spaces around it apart) is answered with "Invalid
    choice. Please try again." and the menu again, and the first line that is
    2 ends the session with the goodbye.  Nothing was requested, slept or
    written, and the lines after the 2 are left unread. *)
Theorem run_menu (line : str) (rest : list str) :
  stdin w = junk ++ line :: rest ->
  py_strip line = u "2" ->
  run server token max_digits now open_error fuel w
  = (Ok tt,
     on_terminal w rest
       (banner ++ concat (map (fun _ => menu ++ [invalid_choice]) junk)
        ++ menu ++ [goodbye])).
Proof.
  intros Hw Hline. rewrite run_banner, Hw.
  replace (S (length (junk ++ line :: rest)))
    with (length junk + S (S (length rest)))
    by (rewrite length_app; cbn [length]; lia).
  rewrite (run_loop_other junk Hjunk _ (line :: rest)) by reflexivity.
  cbn [run_loop]. unfold bind at 1.
  rewrite (run_turn_leave line rest); [|reflexivity|exact Hline].
  unfold ret. cbv beta iota.
  now rewrite !on_terminal_on_terminal, <- ?app_assoc.
Qed.

(** X11.  When the lines run out before a 1 or a 2 was typed, [run] has
    answered each line, shows the menu once more and ends in the [EOFError]
    of [input], which nothing catches. *)
Theorem run_menu_eof :
  stdin w = junk ->
  run server token max_digits now open_error fuel w
  = (Raise EOFError,
     on_terminal w []
       (banner ++ concat (map (fun _ => menu ++ [invalid_choice]) junk)
        ++ menu)).
Proof.
  intros Hw. rewrite run_banner, Hw.
  replace (S (length junk)) with (length junk + 1) by lia.
  rewrite (run_loop_other junk Hjunk _ []) by now rewrite app_nil_r.
  cbn [run_loop]. unfold bind at 1.
  rewrite run_turn_eof by reflexivity. cbv beta iota.
  now rewrite !on_terminal_on_terminal, <- ?app_assoc.
Qed.

End Choices.

End Menu.

(** "3", an empty line and "exit", then " 2 ", with a line left over. *)
Lemma run_menu_witness :
  let junk := [u "3"; u ""; u "exit"] in
  run mock_api None 4300 sample_time every_path_opens 5
      (typing (junk ++ [u " 2 "; u "1"]))
  = (Ok tt,
     on_terminal (typing (junk ++ [u " 2 "; u "1"])) [u "1"]
       (banner ++ concat (map (fun _ => menu ++ [invalid_choice]) junk)
        ++ menu ++ [goodbye])).
Proof.
  intros junk.
  assert (Hjunk : Forall (fun line => other_choice line = true) junk)
    by (repeat constructor).
  apply (run_menu mock_api None 4300 sample_time every_path_opens 5 junk
           (typing (junk ++ [u " 2 "; u "1"])) Hjunk (u " 2 ") [u "1"]);
    reflexivity.
Defined.

(** "3", an empty line and "exit", and nothing more. *)
Lemma run_menu_eof_witness :
  let junk := [u "3"; u ""; u "exit"] in
  run mock_api None 4300 sample_time every_path_opens 5 (typing junk)
  = (Raise EOFError,
     on_terminal (typing junk) []
       (banner ++ concat (map (fun _ => menu ++ [invalid_choice]) junk)
        ++ menu)).
Proof.
  intros junk.
  apply (run_menu_eof mock_api None 4300 sample_time every_path_opens 5 junk
           (typing junk));
    [repeat constructor | reflexivity].
Defined.

(** ** Invariants of a whole session *)

Lemma keeps_ret {A : Type} (Inv : world -> Prop) (a : A) (Q : A -> Prop) :
  Q a -> keeps Inv (ret a) Q.
Proof.
  intros Ha w Hw. split; [exact Hw|]. now intros a' [= <-].
Qed.

Lemma keeps_lift {A : Type} (Inv : world -> Prop) (r : result A) :
  keeps Inv (lift r) (fun _ => True).
Proof.
  intros w Hw. split; [exact Hw|trivial].
Qed.

Lemma keeps_out_of_fuel {A : Type} (Inv : world -> Prop) (Q : A -> Prop) :
  keeps Inv (@out_of_fuel A) Q.
Proof.
  intros w Hw. split; [exact Hw|discriminate].
Qed.

Lemma keeps_bind {A B : Type} (Inv : world -> Prop) (m : M A) (k : A -> M B)
  (P : A -> Prop) (Q : B -> Prop) :
  keeps Inv m P -> (forall a, P a -> keeps Inv (k a) Q) ->
  keeps Inv (bind m k) Q.
Proof.
  intros Hm Hk w Hw. destruct (Hm w Hw) as [Hw1 Ha]. unfold bind.
  destruct (m w) as [[a|e|] w1]; cbn [fst snd] in *.
  - exact (Hk a (Ha a eq_refl) w1 Hw1).
  - split; [exact Hw1|discriminate].
  - split; [exact Hw1|discriminate].
Qed.

Lemma keeps_then {A B : Type} (Inv : world -> Prop) (m : M A) (k : A -> M B)
  (Q : B -> Prop) :
  keeps Inv m (fun _ => True) -> (forall a, keeps Inv (k a) Q) ->
  keeps Inv (bind m k) Q.
Proof.
  intros Hm Hk. apply keeps_bind with (P := fun _ => True); auto.
Qed.

Lemma keeps_try {A : Type} (Inv : world -> Prop) (body : M A)
  (catches : exn -> bool) (handler : exn -> M A) (Q : A -> Prop) :
  keeps Inv body Q -> (forall e, keeps Inv (handler e) Q) ->
  keeps Inv (try_except body catches handler) Q.
Proof.
  intros Hbody Hhandler w Hw. destruct (Hbody w Hw) as [Hw1 Ha].
  unfold try_except.
  destruct (body w) as [[a|e|] w1]; cbn [fst snd] in *.
  - split; [exact Hw1|exact Ha].
  - destruct (catches e); [exact (Hhandler e w1 Hw1)|].
    split; [exact Hw1|discriminate].
  - split; [exact Hw1|discriminate].
Qed.

Lemma keeps_weaken {A : Type} (Inv : world -> Prop) (m : M A)
  (P Q : A -> Prop) :
  keeps Inv m P -> (forall a, P a -> Q a) -> keeps Inv m Q.
Proof.
  intros Hm HPQ w Hw. destruct (Hm w Hw) as [Hw1 Ha]. split; auto.
Qed.

Lemma for_enumerate_keeps {A : Type} (Inv : world -> Prop)
  (body : nat -> A -> M unit) :
  (forall i x, keeps Inv (body i x) (fun _ => True)) ->
  forall (l : list A) (i : nat),
    keeps Inv (for_enumerate body i l) (fun _ => True).
Proof.
  intros Hbody. induction l as [|x l IH]; intros i.
  - now apply keeps_ret.
  - cbn [for_enumerate]. apply keeps_then; [apply Hbody|intros _; apply IH].
Qed.

Section Invariant.

Variable server : request -> response.
Variable token : option str.
Variable max_digits : nat.
Variable now : str.
Variable open_error : fstring -> option exn.

(** A property of the world that printing, pausing, reading a line and
    sending a request of the fetcher keep, and that an export keeps when it
    was asked for by a line with [Pline]. *)
Variable Inv : world -> Prop.
Variable Pline : str -> Prop.
Hypothesis Hprint : forall line, keeps Inv (print line) (fun _ => True).
Hypothesis Hsleep : keeps Inv sleep (fun _ => True).
Hypothesis Hinput : forall prompt, keeps Inv (input prompt) Pline.
Hypothesis Hget :
  forall r, api_request token r ->
            keeps Inv (requests_get server r) (fun _ => True).
Hypothesis Hexport :
  forall line, Pline line -> says_yes line = true ->
  forall repos username filename,
    keeps Inv (export_to_json server token max_digits now open_error repos
                              username filename)
          (fun _ => True).

Lemma input_keeps (prompt : fstring) :
  keeps Inv (input prompt) (fun _ => True).
Proof.
  apply keeps_weaken with (P := Pline); [apply Hinput|trivial].
Qed.

Ltac keep_with tac :=
  repeat first
    [ tac
    | apply keeps_ret; exact I
    | apply keeps_lift
    | apply Hprint
    | apply Hsleep
    | apply input_keeps
    | apply keeps_out_of_fuel
    | apply keeps_try; [|intros ?]
    | apply keeps_then; [|intros ?]
    | match goal with
      | |- keeps _ (if ?b then _ else _) _ => destruct b
      | |- keeps _ (match ?x with _ => _ end) _ => destruct x
      end ].

Ltac keep := keep_with fail.

Lemma search_users_keeps (query : str) :
  keeps Inv (search_users server token query) (fun _ => True).
Proof.
  unfold search_users, raise_for_status, response_json.
  keep_with ltac:(apply Hget; left; now exists query).
Qed.

Lemma repos_page_keeps (username : pyval) (page : Z) (repos : list pyval) :
  keeps Inv (repos_page server token username page repos) (fun _ => True).
Proof.
  unfold repos_page, raise_for_status, response_json.
  keep_with ltac:(apply Hget; right; left; now exists username, page).
Qed.

Lemma repos_loop_keeps (username : pyval) (fuel : nat) :
  forall (page : Z) (repos : list pyval),
    keeps Inv (repos_loop server token fuel username page repos)
          (fun _ => True).
Proof.
  induction fuel as [|fuel IH]; intros page repos; cbn [repos_loop].
  - apply keeps_out_of_fuel.
  - keep_with ltac:(first [apply repos_page_keeps | apply IH]).
Qed.

Lemma get_repo_languages_keeps (username repo_name : pyval) :
  keeps Inv (get_repo_languages server token username repo_name)
        (fun _ => True).
Proof.
  unfold get_repo_languages, raise_for_status, response_json.
  keep_with ltac:(apply Hget; right; right; now exists username, repo_name).
Qed.

Lemma show_user_keeps (i : nat) (user : pyval) :
  keeps Inv (show_user i user) (fun _ => True).
Proof.
  unfold show_user. keep.
Qed.

Lemma select_turn_keeps (users : pyval) :
  keeps Inv (select_turn max_digits users) (fun _ => True).
Proof.
  unfold select_turn. keep.
Qed.

Lemma select_loop_keeps (users : pyval) (fuel : nat) :
  keeps Inv (select_loop max_digits fuel users) (fun _ => True).
Proof.
  induction fuel as [|fuel IH]; cbn [select_loop].
  - apply keeps_out_of_fuel.
  - keep_with ltac:(first [apply select_turn_keeps | apply IH]).
Qed.

Lemma display_user_selection_keeps (users : pyval) :
  keeps Inv (display_user_selection max_digits users) (fun _ => True).
Proof.
  unfold display_user_selection, list_users.
  keep_with ltac:(first [ apply for_enumerate_keeps; apply show_user_keeps
                        | intros w; apply select_loop_keeps ]).
Qed.

Lemma show_repo_keeps (username : pyval) (i : nat) (repo : pyval) :
  keeps Inv (show_repo server token username i repo) (fun _ => True).
Proof.
  unfold show_repo. keep_with ltac:(apply get_repo_languages_keeps).
Qed.

Lemma display_repos_keeps (repos : list pyval) (username : pyval) :
  keeps Inv (display_repos server token repos username) (fun _ => True).
Proof.
  unfold display_repos.
  keep_with ltac:(apply for_enumerate_keeps; apply show_repo_keeps).
Qed.

Lemma export_repo_keeps (username repo : pyval) :
  keeps Inv (export_repo server token username repo) (fun _ => True).
Proof.
  unfold export_repo. keep_with ltac:(apply get_repo_languages_keeps).
Qed.

Lemma export_repos_keeps (username : pyval) (repos : list pyval) :
  keeps Inv (export_repos server token username repos) (fun _ => True).
Proof.
  induction repos as [|repo repos IH]; cbn [export_repos].
  - now apply keeps_ret.
  - keep_with ltac:(first [apply export_repo_keeps | apply IH]).
Qed.

Lemma search_and_display_keeps (fuel : nat) :
  keeps Inv (search_and_display server token max_digits now open_error fuel)
        (fun _ => True).
Proof.
  unfold search_and_display.
  apply keeps_then; [apply input_keeps|intros query].
  destruct (negb (truthy (PStr (py_strip query)))); [apply Hprint|].
  apply keeps_then; [apply Hprint|intros _].
  apply keeps_then; [apply search_users_keeps|intros users].
  apply keeps_then; [apply display_user_selection_keeps|intros username].
  destruct (negb (truthy username)); [now apply keeps_ret|].
  apply keeps_then; [apply Hprint|intros _].
  apply keeps_then; [apply repos_loop_keeps|intros repos].
  destruct (truthy (PList repos)); [|apply Hprint].
  apply keeps_then; [apply display_repos_keeps|intros _].
  apply keeps_bind with (P := Pline); [apply Hinput|intros line Hline].
  cbv zeta. fold (says_yes line).
  destruct (says_yes line) eqn:Hyes; [|now apply keeps_ret].
  apply keeps_then; [apply input_keeps|intros name].
  now apply (Hexport line).
Qed.

Lemma run_turn_keeps (fuel : nat) :
  keeps Inv (run_turn server token max_digits now open_error fuel)
        (fun _ => True).
Proof.
  unfold run_turn. keep_with ltac:(apply search_and_display_keeps).
Qed.

Lemma run_loop_keeps (fuel turns : nat) :
  keeps Inv (run_loop server token max_digits now open_error turns fuel)
        (fun _ => True).
Proof.
  induction turns as [|turns IH]; cbn [run_loop].
  - apply keeps_out_of_fuel.
  - keep_with ltac:(first [apply run_turn_keeps | apply IH]).
Qed.

Lemma run_keeps (fuel : nat) :
  keeps Inv (run server token max_digits now open_error fuel) (fun _ => True).
Proof.
  unfold run. keep_with ltac:(intros w; apply run_loop_keeps).
Qed.

End Invariant.

(** *** The requests of a session *)

Lemma api_request_headers (token : option str) (r : request) :
  api_request token r -> headers r = self_headers token.
Proof.
  intros [[query ->] | [(username & page & ->) | (username & name & ->)]];
    reflexivity.
Qed.

Lemma self_headers_sent (token : option str) :
  header (self_headers token) (u "Accept")
  = Some (u "application/vnd.github.v3+json")
  /\ header (self_headers token) (u "User-Agent")
     = Some (u "GitHub-Repo-Fetcher")
  /\ header (self_headers token) (u "Authorization") = authorization token.
Proof.
  repeat split; try reflexivity.
  destruct token as [[|c t]|]; reflexivity.
Qed.

Section SessionRequests.

Variable server : request -> response.
Variable token : option str.
Variable max_digits : nat.
Variable now : str.
Variable open_error : fstring -> option exn.
Variable sent0 : list request.

Lemma print_requests (line : fstring) :
  keeps (only_api_requests token sent0) (print line) (fun _ => True).
Proof.
  intros w Hw. split; [exact Hw|trivial].
Qed.

Lemma sleep_requests :
  keeps (only_api_requests token sent0) sleep (fun _ => True).
Proof.
  intros w Hw. split; [exact Hw|trivial].
Qed.

Lemma input_requests (prompt : fstring) :
  keeps (only_api_requests token sent0) (input prompt) (fun _ => True).
Proof.
  intros w Hw. split; [|trivial].
  unfold input. now destruct (stdin w).
Qed.

Lemma requests_get_requests (r : request) :
  api_request token r ->
  keeps (only_api_requests token sent0) (requests_get server r)
        (fun _ => True).
Proof.
  intros Hr w (rs & Hsent & Hrs). split; [|trivial].
  exists (rs ++ [r]). unfold requests_get.
  destruct (server r); cbn [snd sent]; rewrite Hsent, app_assoc;
    (split; [reflexivity|]); apply Forall_app; auto.
Qed.

Lemma write_json_requests (path : fstring) (doc : pyval) :
  keeps (only_api_requests token sent0)
        (write_json max_digits open_error path doc) (fun _ => True).
Proof.
  intros w Hw. split; [|trivial]. unfold write_json.
  destruct (open_error path); [exact Hw|].
  now destruct (dump_error max_digits doc).
Qed.

Lemma export_to_json_keeps_requests (repos : list pyval) (username : pyval)
  (filename : option str) :
  keeps (only_api_requests token sent0)
        (export_to_json server token max_digits now open_error repos username
                        filename)
        (fun _ => True).
Proof.
  unfold export_to_json.
  apply keeps_then.
  - apply export_repos_keeps;
      auto using print_requests, requests_get_requests.
  - intros repositories. apply keeps_try.
    + apply keeps_then; [apply write_json_requests|intros _].
      apply print_requests.
    + intros e. apply print_requests.
Qed.

End SessionRequests.

Section Session.

Variable server : request -> response.
Variable token : option str.
Variable max_digits : nat.
Variable now : str.
Variable open_error : fstring -> option exn.
Variable fuel : nat.

(** X12.  Whatever the server answers and whatever is typed, every request of
    a session is one of the three the fetcher knows (a user search, a page of
    a user's repositories, the languages of a repository), and carries the
    fetcher's Accept and User-Agent headers, with an Authorization header
    exactly when the fetcher was built with a token that is not empty. *)
Theorem run_requests (w : world) :
  exists rs : list request,
    sent (snd (run server token max_digits now open_error fuel w))
    = sent w ++ rs
    /\ Forall (fun r =>
                 api_request token r
                 /\ header (headers r) (u "Accept")
                    = Some (u "application/vnd.github.v3+json")
                 /\ header (headers r) (u "User-Agent")
                    = Some (u "GitHub-Repo-Fetcher")
                 /\ header (headers r) (u "Authorization")
                    = authorization token) rs.
Proof.
  assert (Hkeeps : keeps (only_api_requests token (sent w))
                         (run server token max_digits now open_error fuel)
                         (fun _ => True)).
  { apply run_keeps with (Pline := fun _ => True);
      auto using print_requests, sleep_requests, input_requests,
        requests_get_requests, export_to_json_keeps_requests. }
  destruct (Hkeeps w) as [(rs & Hsent & Hrs) _].
  { exists []. now rewrite app_nil_r. }
  exists rs. split; [exact Hsent|].
  apply Forall_impl with (2 := Hrs). intros r Hr.
  split; [exact Hr|]. rewrite (api_request_headers token r Hr).
  apply self_headers_sent.
Qed.

Lemma print_no_yes (written : list (fstring * file)) (line : fstring) :
  keeps (no_yes_ahead written) (print line) (fun _ => True).
Proof.
  intros w Hw. split; [exact Hw|trivial].
Qed.

Lemma sleep_no_yes (written : list (fstring * file)) :
  keeps (no_yes_ahead written) sleep (fun _ => True).
Proof.
  intros w Hw. split; [exact Hw|trivial].
Qed.

Lemma input_no_yes (written : list (fstring * file)) (prompt : fstring) :
  keeps (no_yes_ahead written) (input prompt)
        (fun line => says_yes line = false).
Proof.
  intros w [Hfiles Hlines]. unfold input, no_yes_ahead.
  destruct (stdin w) as [|line rest]; cbn [fst snd stdin files].
  - split; [auto|discriminate].
  - inversion Hlines as [|? ? Hline Hrest]; subst.
    split; [auto|]. now intros a [= <-].
Qed.

Lemma requests_get_no_yes (written : list (fstring * file)) (r : request) :
  keeps (no_yes_ahead written) (requests_get server r) (fun _ => True).
Proof.
  intros w Hw. split; [|trivial]. unfold requests_get.
  now destruct (server r).
Qed.

(** X13.  A session in which no line typed is a "y" or a "yes" (in any case,
    spaces around it apart) writes no file, whatever the server answers and
    however the session ends. *)
Theorem run_writes_on_yes_only (w : world) :
  Forall (fun line => says_yes line = false) (stdin w) ->
  files (snd (run server token max_digits now open_error fuel w)) = files w.
Proof.
  intros Hlines.
  assert (Hkeeps : keeps (no_yes_ahead (files w))
                         (run server token max_digits now open_error fuel)
                         (fun _ => True)).
  { apply run_keeps with (Pline := fun line => says_yes line = false);
      auto using print_no_yes, sleep_no_yes, input_no_yes,
        requests_get_no_yes.
    intros line Hno Hyes. congruence. }
  now destruct (Hkeeps w (conj eq_refl Hlines)) as [[Hfiles _] _].
Qed.

End Session.

(** Searching, choosing the first user, looking at the repositories and
    declining the export. *)
Lemma run_writes_on_yes_only_witness :
  files (snd (run mock_api None 4300 sample_time every_path_opens 5
                  (typing [u "1"; u "octocat"; u "1"; u "n"; u "2"])))
  = [].
Proof.
  apply (run_writes_on_yes_only mock_api None 4300 sample_time
           every_path_opens 5
           (typing [u "1"; u "octocat"; u "1"; u "n"; u "2"])).
  repeat constructor.
Defined.

(** *** Fetching and showing leave the terminal alone *)

Section Fetching.

Variable server : request -> response.
Variable token : option str.
Variable w : world.

Lemma print_same_terminal (line : fstring) :
  keeps (same_terminal w) (print line) (fun _ => True).
Proof.
  intros w1 Hw1. split; [exact Hw1|trivial].
Qed.

Lemma sleep_same_terminal : keeps (same_terminal w) sleep (fun _ => True).
Proof.
  intros w1 Hw1. split; [exact Hw1|trivial].
Qed.

Lemma requests_get_same_terminal (r : request) :
  keeps (same_terminal w) (requests_get server r) (fun _ => True).
Proof.
  intros w1 Hw1. split; [|trivial]. unfold requests_get.
  now destruct (server r).
Qed.

(** X14.  Whatever the server answers and whatever values they are given,
    also when they raise, [search_users], [get_user_repos],
    [get_repo_languages] and [display_repos] read no line from the terminal
    and touch no file. *)
Theorem fetching_leaves_terminal :
  (forall query : str,
      same_terminal w (snd (search_users server token query w)))
  /\ (forall (fuel : nat) (username : pyval),
         same_terminal w (snd (get_user_repos server token fuel username w)))
  /\ (forall username repo_name : pyval,
         same_terminal w
           (snd (get_repo_languages server token username repo_name w)))
  /\ (forall (repos : list pyval) (username : pyval),
         same_terminal w (snd (display_repos server token repos username w))).
Proof.
  assert (Hw : same_terminal w w) by (split; reflexivity).
  split; [|split; [|split]]; intros.
  - refine (proj1 (search_users_keeps server token (same_terminal w)
                     _ _ query w Hw));
      auto using print_same_terminal, requests_get_same_terminal.
  - refine (proj1 (repos_loop_keeps server token (same_terminal w)
                     _ _ _ username fuel 1%Z [] w Hw));
      auto using print_same_terminal, sleep_same_terminal,
        requests_get_same_terminal.
  - refine (proj1 (get_repo_languages_keeps server token (same_terminal w)
                     _ _ username repo_name w Hw));
      auto using print_same_terminal, requests_get_same_terminal.
  - refine (proj1 (display_repos_keeps server token (same_terminal w)
                     _ _ repos username w Hw));
      auto using print_same_terminal, requests_get_same_terminal.
Qed.

End Fetching.

(** ** Leaving a search at the selection *)

Section Quitting.

Variable server : request -> response.
Variable token : option str.
Variable max_digits : nat.
Variable now : str.
Variable open_error : fstring -> option exn.

(** X15.  When the search answers with users and the user, after any number
    of rejected lines, types "q", the search is over: nothing was requested
    but the search itself, no repository was listed, no file written, and the
    lines after the "q" are left for the menu. *)
Theorem search_and_display_quit (fuel : nat) (line quit : str)
  (bad rest : list str) (us : list pyval) (status : Z)
  (d : list (str * pyval)) (lks : list str) (w : world) :
  stdin w = line :: bad ++ quit :: rest ->
  truthy (PStr (py_strip line)) = true ->
  server (search_request token (py_strip line))
  = Response status (Some (PDict d)) lks ->
  ok_status status = true ->
  dict_lookup d (u "items") = Some (PList us) ->
  us <> [] ->
  Forall (fun user => candidate_user user = true) us ->
  Forall (fun line => rejected max_digits (length us) line = true) bad ->
  str_eqb (py_lower (py_strip quit)) (u "q") = true ->
  search_and_display server token max_digits now open_error fuel w
  = (Ok tt,
     mkWorld rest
             (stdout w
              ++ [Prompt [NT "Enter GitHub username or name to search: "];
                  Print [T "ğŸ” Searching for users..."]]
              ++ listing (PList us)
              ++ concat (map (rejection max_digits (length us)) bad)
              ++ [select_prompt])
             (sent w ++ [search_request token (py_strip line)])
             (naps w) (files w)).
Proof.
  intros Hw Hquery Hs Hok Hitems Hne Hus Hbad Hquit.
  unfold search_and_display. unfold bind at 1. unfold input at 1.
  rewrite Hw, Hquery. cbn [negb].
  unfold bind at 1. unfold print at 1. cbn [fst snd].
  unfold bind at 1.
  rewrite (search_users_items _ _ _ _ _ _ _ Hs Hok), Hitems.
  unfold bind at 1.
  rewrite (display_user_selection_rejected max_digits us bad _ Hne Hus Hbad
             (quit :: rest)) by reflexivity.
  rewrite (prompt_loop_return max_digits _ quit rest) with (v := PNone)
    (shown := [select_prompt]);
    [|reflexivity
     |now apply (select_turn_quit max_digits _ quit rest)].
  cbn [truthy negb]. unfold ret, on_terminal, after. cbn.
  now rewrite Nat.add_0_r, <- !app_assoc.
Qed.

End Quitting.

(** Two users found, "0" and "x" turned down, then "q". *)
Lemma search_and_display_quit_witness :
  search_and_display mock_api None 4300 sample_time every_path_opens 5
    (typing ([u "octocat"] ++ [u "0"; u "x"] ++ [u "q"; u "2"]))
  = (Ok tt,
     mkWorld [u "2"]
             ([]
              ++ [Prompt [NT "Enter GitHub username or name to search: "];
                  Print [T "ğŸ” Searching for users..."]]
              ++ listing (PList two_users)
              ++ concat (map (rejection 4300 (length two_users))
                             [u "0"; u "x"])
              ++ [select_prompt])
             ([] ++ [search_request None (py_strip (u "octocat"))])
             0 []).
Proof.
  apply (search_and_display_quit mock_api None 4300 sample_time
           every_path_opens 5 (u "octocat") (u "q") [u "0"; u "x"] [u "2"]
           two_users 200%Z
           [(u "total_count", PInt 2); (u "items", PList two_users)] []
           (typing ([u "octocat"] ++ [u "0"; u "x"] ++ [u "q"; u "2"])));
    try reflexivity; try discriminate; repeat constructor.
Defined.
